(** * Rose Glass CRM: lens, qualifier, graveyard and trial engine

    A shallow embedding of

      - [src/core/rose_glass_lens.py]      (module [Lens]),
      - [src/pipeline/qualifier.py]        (module [Qualifier]),
      - [src/graveyard/graveyard_manager.py] (module [Graveyard]),
      - [src/trial/trial_manager.py]       (module [Trial]),

    followed by the properties proved about them.

    Conventions.  Python [float] values are idealised as exact rationals
    ([Q]); a float equality in a statement is therefore [Qeq] ([==]).
    Python [int] is [Z].  [str] is [string] (ASCII), [Optional[T]] is
    [option T], a [dict] with fixed literal keys is an association list
    read with [dict_get].  Time stamps ([datetime.now()]) and logging are
    not part of the state that is modelled.  A Python exception is an
    explicit [Raised] outcome that carries the state at the point of the
    raise. *)

From Stdlib Require Import QArith Qminmax Qabs Qreals ZArith String Ascii List Bool.
From Stdlib Require Import DecimalString Psatz Lia Reals Sorted Permutation.
Import ListNotations.

Open Scope string_scope.
Open Scope list_scope.
Open Scope Q_scope.

(* ================================================================== *)
(** ** Python prelude *)
(* ================================================================== *)

Module Py.

(** [a < b] on floats, as a boolean. *)
Definition Qltb (a b : Q) : bool := negb (Qle_bool b a).

(** [str.lower()] on ASCII text. *)
Definition lower_ascii (c : ascii) : ascii :=
  let n := nat_of_ascii c in
  if (andb (Nat.leb 65 n) (Nat.leb n 90)) then ascii_of_nat (n + 32) else c.

Fixpoint lower (s : string) : string :=
  match s with
  | EmptyString => EmptyString
  | String c s' => String (lower_ascii c) (lower s')
  end.

(** [needle in hay] for strings: substring search. *)
Fixpoint str_in (needle hay : string) : bool :=
  if String.prefix needle hay then true
  else match hay with
       | EmptyString => false
       | String _ hay' => str_in needle hay'
       end.

(** [any(t in text for t in words)]. *)
Definition any_in (words : list string) (text : string) : bool :=
  existsb (fun t => str_in t text) words.

(** Truth value of a [str]: non-empty. *)
Definition str_truthy (s : string) : bool :=
  match s with EmptyString => false | _ => true end.

(** Truth value of an [Optional[str]]. *)
Definition opt_truthy (o : option string) : bool :=
  match o with Some s => str_truthy s | None => false end.

(** Truth value of an [Optional[bool]]. *)
Definition optb_truthy (o : option bool) : bool :=
  match o with Some b => b | None => false end.

(** Truth value of a list: non-empty. *)
Definition list_truthy {A} (l : list A) : bool :=
  match l with [] => false | _ => true end.

(** [o or ''] *)
Definition or_empty (o : option string) : string :=
  match o with
  | Some s => if str_truthy s then s else ""
  | None => ""
  end.

(** [sep.join(parts)] *)
Definition join (sep : string) (parts : list string) : string :=
  String.concat sep parts.

(** Characters removed by [str.strip()]. *)
Definition is_space (c : ascii) : bool :=
  let n := nat_of_ascii c in
  orb (andb (Nat.leb 9 n) (Nat.leb n 13))
      (orb (andb (Nat.leb 28 n) (Nat.leb n 31)) (Nat.eqb n 32)).

(** Truth value of [s.strip()]: some character is not white space. *)
Fixpoint strip_truthy (s : string) : bool :=
  match s with
  | EmptyString => false
  | String c s' => if is_space c then strip_truthy s' else true
  end.

(** [d.get(key, default)] for a dict literal with string keys. *)
Fixpoint dict_get {A} (d : list (string * A)) (key : string) (default : A) : A :=
  match d with
  | [] => default
  | (k, v) :: d' => if String.eqb k key then v else dict_get d' key default
  end.

(** [d.get(key)] *)
Fixpoint dict_find {A} (d : list (string * A)) (key : string) : option A :=
  match d with
  | [] => None
  | (k, v) :: d' => if String.eqb k key then Some v else dict_find d' key
  end.

(** [len(l)] as a float. *)
Definition len {A} (l : list A) : Q := inject_Z (Z.of_nat (length l)).

(** Exceptions that the modelled code can raise. *)
Inductive exn : Type :=
| ZeroDivisionError
| TypeError
| KeyError.

(** Outcome of a call that runs in state [S] and returns an [A]. *)
Inductive outcome (S A : Type) : Type :=
| Returned (s : S) (a : A)
| Raised (s : S) (e : exn).
Arguments Returned {S A} s a.
Arguments Raised {S A} s e.

Definition state_of {S A} (o : outcome S A) : S :=
  match o with Returned s _ => s | Raised s _ => s end.

(** [a / b] on numbers: raises [ZeroDivisionError] when [b] is zero. *)
Definition div (a b : Q) : exn + Q :=
  if Qeq_bool b 0 then inl ZeroDivisionError else inr (a / b).

(** Sequencing of computations that may raise. *)
Definition bind {A B} (m : exn + A) (k : A -> exn + B) : exn + B :=
  match m with
  | inl e => inl e
  | inr a => k a
  end.

(** Decimal digits of a non-negative integer. *)
Definition digits (z : Z) : string :=
  NilZero.string_of_uint (N.to_uint (Z.to_N z)).

Fixpoint zeros (n : nat) : string :=
  match n with
  | O => ""
  | S n' => String "0" (zeros n')
  end.

(** [f"{x:.<d>f}"] for [d >= 1]: the exact value rounded half to even at
    [d] decimals. *)
Definition format_f (d : nat) (x : Q) : string :=
  let scale := (10 ^ Z.of_nat d)%Z in
  let den := Zpos (Qden x) in
  let a := (Z.abs (Qnum x) * scale)%Z in
  let q := (a / den)%Z in
  let r := (a mod den)%Z in
  let rounded :=
    if (2 * r <? den)%Z then q
    else if (den <? 2 * r)%Z then (q + 1)%Z
    else if Z.even q then q else (q + 1)%Z in
  let frac := digits (rounded mod scale) in
  String.append (if (Qnum x <? 0)%Z then "-" else "")
    (String.append (digits (rounded / scale))
       (String.append "."
          (String.append (zeros (d - String.length frac)) frac))).

End Py.

Notation "x <- m ;; k" := (Py.bind m (fun x => k))
  (at level 61, m at next level, right associativity).

(* ================================================================== *)
(** ** src/core/rose_glass_lens.py *)
(* ================================================================== *)

Module Lens.
Import Py.

(** [LeadCoherence] (without its time stamp). *)
Record LeadCoherence : Type := mkLeadCoherence {
  psi_intent : Q;
  rho_authority : Q;
  q_urgency : Q;
  f_fit : Q;
  coherence_score : Q;
  qualification_tier : string;
  lens_used : string;
  confidence : Q;
  positive_signals : list string;
  warning_signals : list string;
  disqualifiers : list string;
  next_actions : list string
}.

(** [LeadData] (without [created_at] / [updated_at]). *)
Record LeadData : Type := mkLeadData {
  lead_id : string;
  company_name : string;
  contact_name : option string;
  contact_title : option string;
  contact_email : option string;
  industry : option string;
  company_size : option string;
  revenue_range : option string;
  tech_stack : list string;
  source : string;
  initial_interest : option string;
  pain_points : list string;
  is_decision_maker : option bool;
  budget_mentioned : option bool;
  timeline_mentioned : option string;
  current_solution : option string;
  competitor_mentioned : list string;
  use_case : option string;
  website_visits : Z;
  content_downloads : list string;
  email_opens : Z;
  meeting_requests : Z;
  notes : string;
  email_content : string;
  call_transcript : string
}.

(** The dataclass defaults: only the two identity fields are required. *)
Definition default_lead (id company : string) : LeadData :=
  {| lead_id := id; company_name := company;
     contact_name := None; contact_title := None; contact_email := None;
     industry := None; company_size := None; revenue_range := None;
     tech_stack := [];
     source := "unknown"; initial_interest := None; pain_points := [];
     is_decision_maker := None; budget_mentioned := None;
     timeline_mentioned := None;
     current_solution := None; competitor_mentioned := []; use_case := None;
     website_visits := 0%Z; content_downloads := []; email_opens := 0%Z;
     meeting_requests := 0%Z;
     notes := ""; email_content := ""; call_transcript := "" |}.

Definition get_text_for_analysis (lead : LeadData) : string :=
  let parts :=
    [ notes lead; email_content lead; call_transcript lead;
      or_empty (initial_interest lead);
      join " " (pain_points lead);
      or_empty (use_case lead) ] in
  join " " (filter str_truthy parts).

Record Weights : Type := mkWeights {
  w_psi_intent : Q;
  w_rho_authority : Q;
  w_q_urgency : Q;
  w_f_fit : Q
}.

Record Calibration : Type := mkCalibration {
  cal_weights : Weights;
  authority_threshold : Q
}.

Definition KM : Q := 0.2.
Definition KI : Q := 0.8.

Definition DEFAULT_WEIGHTS : Weights := mkWeights 0.25 0.30 0.25 0.20.

Definition LENS_CALIBRATIONS : list (string * Calibration) :=
  [ ("enterprise_saas", mkCalibration (mkWeights 0.20 0.35 0.20 0.25) 0.6);
    ("smb_tech",        mkCalibration (mkWeights 0.30 0.20 0.30 0.20) 0.4);
    ("federal_gov",     mkCalibration (mkWeights 0.25 0.25 0.15 0.35) 0.5);
    ("healthcare",      mkCalibration (mkWeights 0.20 0.30 0.20 0.30) 0.55) ].

(** The lens object: [calibration = None] is the empty dict that
    [LENS_CALIBRATIONS.get(lens_name, {})] yields for an unknown name. *)
Record RoseGlassCRMLens : Type := mkLens {
  lens_name : string;
  calibration : option Calibration;
  weights : Weights
}.

(** [RoseGlassCRMLens.__init__] *)
Definition new_lens (name : string) : RoseGlassCRMLens :=
  let cal := dict_find LENS_CALIBRATIONS name in
  {| lens_name := name;
     calibration := cal;
     weights := match cal with
                | Some c => cal_weights c
                | None => DEFAULT_WEIGHTS
                end |}.

Definition biological_optimization (q_raw : Q) : Q :=
  if Qle_bool q_raw 0 then 0
  else q_raw / (KM + q_raw + (q_raw ^ 2 / KI)).

(** The same transform read over the reals, for statements of analysis. *)
Definition biological_optimization_R (x : R) : R :=
  if Rle_dec x 0 then 0%R
  else (x / (Q2R KM + x + (x ^ 2 / Q2R KI)))%R.

Definition _extract_psi_intent (lead : LeadData) : Q :=
  let score := 0 in
  let source_weights :=
    [ ("inbound", 0.3); ("referral", 0.25); ("event", 0.2);
      ("content", 0.15); ("outbound", 0.1); ("unknown", 0.05) ] in
  let score := score + dict_get source_weights (source lead) 0.05 in
  let score :=
    if list_truthy (pain_points lead)
    then score + Qmin (len (pain_points lead) * 0.1) 0.3 else score in
  let score := if opt_truthy (use_case lead) then score + 0.2 else score in
  let score :=
    if (0 <? meeting_requests lead)%Z then score + 0.15 else score in
  let score :=
    if list_truthy (content_downloads lead)
    then score + Qmin (len (content_downloads lead) * 0.05) 0.15 else score in
  Qmin score 1.

Definition authority_titles : list string :=
  ["ceo"; "cto"; "cfo"; "coo"; "vp"; "director"; "head of"; "chief"].

Definition _extract_rho_authority (lead : LeadData) : Q :=
  let score := 0 in
  let score :=
    match is_decision_maker lead with
    | Some true => score + 0.35
    | None => score + 0.15
    | Some false => score
    end in
  let score :=
    match contact_title lead with
    | Some t =>
        if str_truthy t
        then if any_in authority_titles (lower t) then score + 0.25 else score
        else score
    | None => score
    end in
  let score :=
    if optb_truthy (budget_mentioned lead) then score + 0.2 else score in
  let size_weights :=
    [ ("enterprise", 0.15); ("mid-market", 0.2);
      ("smb", 0.15); ("startup", 0.1) ] in
  let score :=
    score + dict_get size_weights (or_empty (company_size lead)) 0.1 in
  Qmin score 1.

Definition urgency_markers : list string :=
  [ "urgent"; "asap"; "immediately"; "critical"; "deadline";
    "struggling"; "failing"; "breaking"; "desperate"; "need now" ].

(** [sum(1 for m in urgency_markers if m in text)] *)
Definition urgency_count (lead : LeadData) : nat :=
  let text := lower (get_text_for_analysis lead) in
  length (filter (fun m => str_in m text) urgency_markers).

Definition _extract_q_urgency (lead : LeadData) : Q :=
  let score := 0 in
  let score :=
    match timeline_mentioned lead with
    | Some t =>
        if str_truthy t then
          let timeline_weights :=
            [ ("immediate", 0.4); ("this_quarter", 0.3);
              ("next_quarter", 0.2); ("this_year", 0.1) ] in
          score + dict_get timeline_weights t 0.1
        else score
    | None => score
    end in
  let score :=
    score + Qmin (inject_Z (Z.of_nat (urgency_count lead)) * 0.1) 0.3 in
  let score :=
    if (1 <? meeting_requests lead)%Z then score + 0.15 else score in
  let score :=
    if (5 <? website_visits lead)%Z then score + 0.1 else score in
  Qmin score 1.

Definition target_industries : list string :=
  ["technology"; "saas"; "software"; "fintech"; "healthcare tech"].

Definition opt_str_eqb (o : option string) (s : string) : bool :=
  match o with Some x => String.eqb x s | None => false end.

Definition _extract_f_fit (lead : LeadData) : Q :=
  let score := 0 in
  let score :=
    match industry lead with
    | Some i =>
        if andb (str_truthy i) (any_in target_industries (lower i))
        then score + 0.25 else score
    | None => score
    end in
  let score :=
    if list_truthy (tech_stack lead)
    then score + Qmin (len (tech_stack lead) * 0.05) 0.2 else score in
  let score :=
    if orb (opt_str_eqb (company_size lead) "mid-market")
           (opt_str_eqb (company_size lead) "enterprise")
    then score + 0.2
    else if opt_str_eqb (company_size lead) "smb" then score + 0.15
    else score in
  let score :=
    if negb (list_truthy (competitor_mentioned lead)) then score + 0.15
    else if list_truthy (competitor_mentioned lead) then score + 0.1
    else score in
  let score :=
    if String.eqb (source lead) "referral" then score + 0.15 else score in
  Qmin score 1.

Definition _calculate_coherence (self : RoseGlassCRMLens)
    (psi rho q f : Q) : Q :=
  let coupling_strength := 0.15 in
  let coupling := coupling_strength * rho * psi in
  let coherence :=
    (w_psi_intent (weights self) * psi +
     w_rho_authority (weights self) * rho +
     w_q_urgency (weights self) * q +
     w_f_fit (weights self) * f +
     coupling) * 4 in
  Qmin coherence 4.

Definition _determine_tier (self : RoseGlassCRMLens)
    (coherence psi rho q f : Q) : string :=
  let authority_threshold :=
    match calibration self with
    | Some c => authority_threshold c
    | None => 0.5
    end in
  if Qltb f 0.2 then "disqualified"
  else if Qltb rho 0.15 then "disqualified"
  else if andb (Qle_bool 2.5 coherence)
               (andb (Qle_bool authority_threshold rho) (Qle_bool 0.3 q))
  then "hot"
  else if Qle_bool 1.5 coherence then "warm"
  else "cold".

(** [list.append] under a condition. *)
Definition append_if {A} (c : bool) (x : A) (l : list A) : list A :=
  if c then l ++ [x] else l.

Definition _detect_signals (lead : LeadData) (psi rho q f : Q)
  : list string * list string * list string :=
  let positive := [] in
  let warning := [] in
  let disqualifiers := [] in
  let positive := append_if (Qle_bool 0.6 psi) "Strong intent signals" positive in
  let positive := append_if (Qle_bool 0.6 rho) "Decision-making authority" positive in
  let positive := append_if (Qle_bool 0.5 q) "Urgency expressed" positive in
  let positive := append_if (Qle_bool 0.6 f) "Strong ICP fit" positive in
  let positive :=
    append_if (String.eqb (source lead) "referral")
              "Referral lead (ecosystem validated)" positive in
  let positive :=
    append_if (optb_truthy (budget_mentioned lead)) "Budget discussed" positive in
  let warning :=
    append_if (andb (Qltb rho 0.4) (Qltb 0.5 psi))
              "Intent without authority - may need champion" warning in
  let warning :=
    append_if (andb (Qltb 0.7 q) (Qltb rho 0.4))
              "High urgency + low authority - may be researcher" warning in
  let warning :=
    append_if (list_truthy (competitor_mentioned lead))
              (String.append "Currently using: "
                 (join ", " (competitor_mentioned lead)))
              warning in
  let warning :=
    append_if (Qltb psi 0.3) "Unclear intent - needs discovery" warning in
  let disqualifiers := append_if (Qltb f 0.2) "Poor ICP fit" disqualifiers in
  let disqualifiers :=
    append_if (andb (Qltb rho 0.15) (opt_str_eqb (company_size lead) "enterprise"))
              "Too junior for enterprise deal" disqualifiers in
  (positive, warning, disqualifiers).

Definition _recommend_actions (tier : string) (lead : LeadData)
    (psi rho q f : Q) : list string :=
  let actions := [] in
  if String.eqb tier "disqualified" then
    actions ++ ["Archive - does not meet qualification criteria"]
  else if String.eqb tier "hot" then
    let actions := actions ++ ["Schedule demo/meeting ASAP"] in
    let actions :=
      append_if (negb (optb_truthy (budget_mentioned lead)))
                "Confirm budget in first call" actions in
    append_if (Qle_bool 0.6 q) "Offer accelerated timeline" actions
  else if String.eqb tier "warm" then
    let actions :=
      append_if (Qltb psi 0.5) "Discovery call to understand needs" actions in
    let actions :=
      append_if (Qltb rho 0.5) "Identify decision-maker / champion" actions in
    let actions :=
      append_if (Qltb q 0.3) "Create urgency - share ROI data" actions in
    actions ++ ["Add to nurture sequence"]
  else if String.eqb tier "cold" then
    let actions := actions ++ ["Add to long-term nurture"] in
    let actions :=
      append_if (Qltb psi 0.3) "Send educational content" actions in
    actions ++ ["Re-evaluate in 30 days"]
  else actions.

Definition is_some {A} (o : option A) : bool :=
  match o with Some _ => true | None => false end.

Definition _calculate_confidence (lead : LeadData) : Q :=
  let data_points := 0%Z in
  let max_points := 10%Z in
  let bump (c : bool) (k n : Z) : Z := if c then (n + k)%Z else n in
  let data_points := bump (opt_truthy (contact_name lead)) 1%Z data_points in
  let data_points := bump (opt_truthy (contact_title lead)) 1%Z data_points in
  let data_points := bump (opt_truthy (industry lead)) 1%Z data_points in
  let data_points := bump (opt_truthy (company_size lead)) 1%Z data_points in
  let data_points := bump (list_truthy (pain_points lead)) 1%Z data_points in
  let data_points := bump (is_some (is_decision_maker lead)) 1%Z data_points in
  let data_points := bump (is_some (budget_mentioned lead)) 1%Z data_points in
  let data_points := bump (opt_truthy (timeline_mentioned lead)) 1%Z data_points in
  let data_points :=
    bump (strip_truthy (get_text_for_analysis lead)) 2%Z data_points in
  inject_Z data_points / inject_Z max_points.

Definition perceive (self : RoseGlassCRMLens) (lead : LeadData)
  : LeadCoherence :=
  let psi := _extract_psi_intent lead in
  let rho := _extract_rho_authority lead in
  let q_raw := _extract_q_urgency lead in
  let f := _extract_f_fit lead in
  let q := biological_optimization q_raw in
  let coherence := _calculate_coherence self psi rho q f in
  let tier := _determine_tier self coherence psi rho q f in
  let '(positive, warning, disqualifiers) :=
    _detect_signals lead psi rho q f in
  let actions := _recommend_actions tier lead psi rho q f in
  let confidence := _calculate_confidence lead in
  {| psi_intent := psi;
     rho_authority := rho;
     q_urgency := q;
     f_fit := f;
     coherence_score := coherence;
     qualification_tier := tier;
     lens_used := lens_name self;
     confidence := confidence;
     positive_signals := positive;
     warning_signals := warning;
     disqualifiers := disqualifiers;
     next_actions := actions |}.

(** *** Notions used in the statements about the lens *)

(** [max(x, 0)], written with the absolute value. *)
Definition positive_part (x : R) : R := ((x + Rabs x) / 2)%R.

Definition weights_nonneg (w : Weights) : Prop :=
  0 <= w_psi_intent w /\ 0 <= w_rho_authority w /\
  0 <= w_q_urgency w /\ 0 <= w_f_fit w.

(** The lead of the referral scenario: a referral with three pain points,
    a decision maker, a budget, a timeline of this quarter and two meeting
    requests; every other optional field keeps its default. *)
Definition scenario_lead (id company p1 p2 p3 : string) : LeadData :=
  {| lead_id := id; company_name := company;
     contact_name := None; contact_title := None; contact_email := None;
     industry := None; company_size := None; revenue_range := None;
     tech_stack := [];
     source := "referral"; initial_interest := None;
     pain_points := [p1; p2; p3];
     is_decision_maker := Some true; budget_mentioned := Some true;
     timeline_mentioned := Some "this_quarter";
     current_solution := None; competitor_mentioned := []; use_case := None;
     website_visits := 0%Z; content_downloads := []; email_opens := 0%Z;
     meeting_requests := 2%Z;
     notes := ""; email_content := ""; call_transcript := "" |}.

(** The scenario with the pain points of the demonstration. *)
Definition scenario_example : LeadData :=
  scenario_lead "lead001" "Acme" "security compliance" "access management"
                "audit requirements".

(** The first lead of the demonstration in [qualifier.py]. *)
Definition demo_hot_lead : LeadData :=
  {| lead_id := "hot001"; company_name := "Acme Enterprise";
     contact_name := Some "John Smith";
     contact_title := Some "VP Engineering";
     contact_email := Some "john@acme.com";
     industry := Some "SaaS"; company_size := Some "enterprise";
     revenue_range := None; tech_stack := [];
     source := "referral"; initial_interest := None;
     pain_points := [ "security compliance"; "access management";
                      "audit requirements" ];
     is_decision_maker := Some true; budget_mentioned := Some true;
     timeline_mentioned := Some "this_quarter";
     current_solution := None; competitor_mentioned := [];
     use_case := Some "Replace legacy IAM system";
     website_visits := 0%Z; content_downloads := []; email_opens := 0%Z;
     meeting_requests := 2%Z;
     notes := ""; email_content := ""; call_transcript := "" |}.

(** The fourth lead of that demonstration. *)
Definition demo_disqualified_lead : LeadData :=
  {| lead_id := "disq001"; company_name := "Delta Consulting";
     contact_name := None; contact_title := None; contact_email := None;
     industry := Some "Other"; company_size := Some "startup";
     revenue_range := None; tech_stack := [];
     source := "unknown"; initial_interest := None; pain_points := [];
     is_decision_maker := None; budget_mentioned := None;
     timeline_mentioned := None;
     current_solution := None; competitor_mentioned := []; use_case := None;
     website_visits := 0%Z; content_downloads := []; email_opens := 0%Z;
     meeting_requests := 0%Z;
     notes := ""; email_content := ""; call_transcript := "" |}.

(** Two leads that differ at most in their identity ([lead_id],
    [company_name]) and in [contact_email], [revenue_range],
    [current_solution] and [email_opens]. *)
Definition same_signals (a b : LeadData) : Prop :=
  contact_name a = contact_name b /\
  contact_title a = contact_title b /\
  industry a = industry b /\
  company_size a = company_size b /\
  tech_stack a = tech_stack b /\
  source a = source b /\
  initial_interest a = initial_interest b /\
  pain_points a = pain_points b /\
  is_decision_maker a = is_decision_maker b /\
  budget_mentioned a = budget_mentioned b /\
  timeline_mentioned a = timeline_mentioned b /\
  competitor_mentioned a = competitor_mentioned b /\
  use_case a = use_case b /\
  website_visits a = website_visits b /\
  content_downloads a = content_downloads b /\
  meeting_requests a = meeting_requests b /\
  notes a = notes b /\
  email_content a = email_content b /\
  call_transcript a = call_transcript b.

End Lens.

(* ================================================================== *)
(** ** src/pipeline/qualifier.py *)
(* ================================================================== *)

Module Qualifier.
Import Py.
Import Lens.

(** [QualificationResult] (without [qualified_at]). *)
Record QualificationResult : Type := mkQualificationResult {
  qr_lead_id : string;
  qr_company_name : string;
  coherence : LeadCoherence;
  qr_qualification_tier : string;
  qualified : bool;
  next_stage : string;
  priority_score : Q;
  qualified_by : string;
  qr_lens_used : string;
  trial_branch : option string
}.

(** The [stats] dict of a qualifier; its five keys are fixed. *)
Record Stats : Type := mkStats {
  total_qualified : Z;
  hot : Z;
  warm : Z;
  cold : Z;
  disqualified : Z
}.

Record LeadQualifier : Type := mkLeadQualifier {
  lens : RoseGlassCRMLens;
  lq_lens_name : string;
  lq_trial_branch : string;
  qualification_log : list QualificationResult;
  stats : Stats
}.

(** [LeadQualifier.__init__] *)
Definition new_qualifier (lens_name : string) (trial_branch : option string)
  : LeadQualifier :=
  {| lens := new_lens lens_name;
     lq_lens_name := lens_name;
     lq_trial_branch := match or_empty trial_branch with
                        | EmptyString => "classic"
                        | b => b
                        end;
     qualification_log := [];
     stats := mkStats 0 0 0 0 0 |}.

Definition _determine_routing (coherence : LeadCoherence) : string :=
  let tier := qualification_tier coherence in
  if String.eqb tier "hot" then "active_sales"
  else if String.eqb tier "warm" then "nurture_warm"
  else if String.eqb tier "cold" then "nurture_cold"
  else "graveyard".

Definition _calculate_priority (coherence : LeadCoherence) : Q :=
  let base_priority :=
    dict_get [ ("hot", 1.0); ("warm", 0.6); ("cold", 0.3);
               ("disqualified", 0.0) ]
             (qualification_tier coherence) 0.0 in
  let urgency_boost := q_urgency coherence * 0.2 in
  let authority_boost := rho_authority coherence * 0.15 in
  Qmin 1.0 (base_priority + urgency_boost + authority_boost).

(** [self.stats['total_qualified'] += 1; self.stats[tier] += 1]: the second
    update raises [KeyError] for a key that the dict does not have, after
    the first one has been done. *)
Definition _update_stats (st : Stats) (result : QualificationResult)
  : outcome Stats unit :=
  let st := mkStats (total_qualified st + 1) (hot st) (warm st) (cold st)
                    (disqualified st) in
  let tier := qr_qualification_tier result in
  if String.eqb tier "total_qualified" then
    Returned (mkStats (total_qualified st + 1) (hot st) (warm st) (cold st)
                      (disqualified st)) tt
  else if String.eqb tier "hot" then
    Returned (mkStats (total_qualified st) (hot st + 1) (warm st) (cold st)
                      (disqualified st)) tt
  else if String.eqb tier "warm" then
    Returned (mkStats (total_qualified st) (hot st) (warm st + 1) (cold st)
                      (disqualified st)) tt
  else if String.eqb tier "cold" then
    Returned (mkStats (total_qualified st) (hot st) (warm st) (cold st + 1)
                      (disqualified st)) tt
  else if String.eqb tier "disqualified" then
    Returned (mkStats (total_qualified st) (hot st) (warm st) (cold st)
                      (disqualified st + 1)) tt
  else Raised st KeyError.

Definition with_stats (self : LeadQualifier) (st : Stats) : LeadQualifier :=
  {| lens := lens self; lq_lens_name := lq_lens_name self;
     lq_trial_branch := lq_trial_branch self;
     qualification_log := qualification_log self;
     stats := st |}.

Definition with_log (self : LeadQualifier) (r : QualificationResult)
  : LeadQualifier :=
  {| lens := lens self; lq_lens_name := lq_lens_name self;
     lq_trial_branch := lq_trial_branch self;
     qualification_log := qualification_log self ++ [r];
     stats := stats self |}.

(** The [QualificationResult] that [qualify] builds for a lead. *)
Definition qualification_of (self : LeadQualifier) (lead : LeadData)
  : QualificationResult :=
  let coherence := perceive (lens self) lead in
  let next_stage := _determine_routing coherence in
  let priority_score := _calculate_priority coherence in
  let qualified :=
    negb (String.eqb (qualification_tier coherence) "disqualified") in
  {| qr_lead_id := lead_id lead;
     qr_company_name := company_name lead;
     coherence := coherence;
     qr_qualification_tier := qualification_tier coherence;
     qualified := qualified;
     next_stage := next_stage;
     priority_score := priority_score;
     qualified_by := "rose_glass_auto";
     qr_lens_used := lq_lens_name self;
     trial_branch := Some (lq_trial_branch self) |}.

Definition qualify (self : LeadQualifier) (lead : LeadData)
  : outcome LeadQualifier QualificationResult :=
  let result := qualification_of self lead in
  match _update_stats (stats self) result with
  | Raised st e => Raised (with_stats self st) e
  | Returned st _ =>
      Returned (with_log (with_stats self st) result) result
  end.

(** The loop of [qualify_batch]: a record whose qualification raises is
    skipped, the state it left behind is kept. *)
Fixpoint qualify_each (self : LeadQualifier) (leads : list LeadData)
  : LeadQualifier * list QualificationResult :=
  match leads with
  | [] => (self, [])
  | lead :: rest =>
      match qualify self lead with
      | Returned self' r =>
          let '(self'', rs) := qualify_each self' rest in (self'', r :: rs)
      | Raised self' _ => qualify_each self' rest
      end
  end.

(** [results.sort(key=lambda r: r.priority_score, reverse=True)]: a stable
    sort into non-increasing priority. *)
Fixpoint insert_by_priority (r : QualificationResult)
    (sorted : list QualificationResult) : list QualificationResult :=
  match sorted with
  | [] => [r]
  | y :: ys =>
      if Qltb (priority_score r) (priority_score y)
      then y :: insert_by_priority r ys
      else r :: y :: ys
  end.

Definition sort_by_priority (l : list QualificationResult)
  : list QualificationResult :=
  fold_right insert_by_priority [] l.

(** [qualify_batch]: the summary lines divide by [len(leads)], outside the
    [try], so an empty batch raises after the loop and the sort. *)
Definition qualify_batch (self : LeadQualifier) (leads : list LeadData)
  : outcome LeadQualifier (list QualificationResult) :=
  let '(self', results) := qualify_each self leads in
  let results := sort_by_priority results in
  match leads with
  | [] => Raised self' ZeroDivisionError
  | _ => Returned self' results
  end.

(** *** Notions used in the statements about the qualifier *)

(** The qualifier of the demonstration in [qualifier.py]. *)
Definition demo_qualifier : LeadQualifier :=
  new_qualifier "enterprise_saas" (Some "classic").

(** [a] may stand before [b] in a list of non-increasing priority. *)
Definition priority_ge (a b : QualificationResult) : Prop :=
  priority_score b <= priority_score a.

(** In [l], every result of tier [hot] stands before every other result. *)
Definition hot_first (l : list QualificationResult) : Prop :=
  forall (i j : nat) (ri rj : QualificationResult),
    nth_error l i = Some ri -> nth_error l j = Some rj ->
    qr_qualification_tier ri = "hot" -> qr_qualification_tier rj <> "hot" ->
    (i < j)%nat.

(** What [get_stats] returns: the bare [stats] dict while nothing has been
    qualified, and otherwise the dict extended by two rates and the names
    of the lens and the branch. *)
Inductive StatsReport : Type :=
| BareStats (s : Stats)
| FullStats (s : Stats) (qualification_rate hot_rate : Q)
            (lens_used trial_branch : string).

Definition get_stats (self : LeadQualifier) : StatsReport :=
  let total := total_qualified (stats self) in
  if (total =? 0)%Z then BareStats (stats self)
  else
    FullStats (stats self)
      (if (0 <? total)%Z
       then inject_Z (total - disqualified (stats self)) / inject_Z total
       else 0)
      (if (0 <? total)%Z
       then inject_Z (hot (stats self)) / inject_Z total
       else 0)
      (lq_lens_name self) (lq_trial_branch self).

(** The counters of a qualifier agree with each other and with its log. *)
Definition stats_consistent (self : LeadQualifier) : Prop :=
  let st := stats self in
  (0 <= hot st)%Z /\ (0 <= warm st)%Z /\ (0 <= cold st)%Z /\
  (0 <= disqualified st)%Z /\
  (total_qualified st = hot st + warm st + cold st + disqualified st)%Z /\
  total_qualified st = Z.of_nat (length (qualification_log self)).

(** Place of a tier in the order hot, warm, cold, disqualified. *)
Definition tier_rank (tier : string) : nat :=
  if String.eqb tier "hot" then 0
  else if String.eqb tier "warm" then 1
  else if String.eqb tier "cold" then 2
  else 3.

End Qualifier.

(* ================================================================== *)
(** ** src/graveyard/graveyard_manager.py *)
(* ================================================================== *)

Module Graveyard.
Import Py.

(** A slot of the outcome dict that is read with [.get]: the key may be
    missing, or present with [None], or present with a value. *)
Inductive entry (A : Type) : Type :=
| Absent
| Null
| Value (a : A).
Arguments Absent {A}.
Arguments Null {A}.
Arguments Value {A} a.

(** [d.get(key, default)]: only a missing key yields the default. *)
Definition get_default {A} (e : entry A) (default : A) : entry A :=
  match e with
  | Absent => Value default
  | _ => e
  end.

(** [d.get(key)] as an [Optional]. *)
Definition get_opt {A} (e : entry A) : option A :=
  match e with
  | Value a => Some a
  | _ => None
  end.

(** [x > bound] for a slot: comparing [None] with a number raises. *)
Definition gt (x : entry Q) (bound : Q) : exn + bool :=
  match x with
  | Value v => inr (Qltb bound v)
  | _ => inl TypeError
  end.

(** The [learnings] sub-dict. *)
Record Learnings : Type := mkLearnings {
  what_went_wrong : option (list string);
  lesson_learned : option string
}.

(** The outcome dict handed to [bury_lead].  The three keys read with
    [outcome[...]] are required; the others are read with [.get]. *)
Record Outcome : Type := mkOutcome {
  o_lead_id : string;
  o_company_name : string;
  o_outcome_type : string;
  o_qualification_tier : option string;
  o_coherence_score : entry Q;
  o_trial_branch : option string;
  o_expected_value : entry Q;
  o_competitor_chosen : option string;
  o_learnings : option Learnings
}.

(** [Nutrient] (without [extracted_at]). *)
Record Nutrient : Type := mkNutrient {
  lead_id : string;
  company_name : string;
  outcome_type : string;
  category : string;
  lesson : string;
  severity : string;
  qualification_tier : option string;
  coherence_score : option Q;
  trial_branch : option string;
  applied_to_standard : bool
}.

(** The manager: its three in-memory lists and the files it has written,
    in the order of writing (file names are not modelled). *)
Record GraveyardManager : Type := mkGraveyardManager {
  nutrients : list Nutrient;
  graveyard_leads : list Outcome;
  saved_outcomes : list Outcome;
  saved_nutrients : list Nutrient
}.

Definition categories : list (string * list string) :=
  [ ("qualification", ["qualify"; "icp"; "fit"; "criteria"; "disqualif"]);
    ("messaging", ["message"; "value"; "positioning"; "communication"; "pitch"]);
    ("timing", ["timing"; "timeline"; "urgency"; "too early"; "too late"]);
    ("authority", ["authority"; "decision"; "stakeholder"; "champion"; "multi-thread"]);
    ("pricing", ["price"; "budget"; "cost"; "expensive"; "roi"]);
    ("competitive", ["competitor"; "competitive"; "alternative"; "comparison"]);
    ("engagement", ["engagement"; "response"; "dark"; "ghosted"; "follow-up"]);
    ("technical", ["technical"; "integration"; "feature"; "requirement"]) ].

Fixpoint first_category (cats : list (string * list string))
    (issue_lower : string) : string :=
  match cats with
  | [] => "general"
  | (category, keywords) :: rest =>
      if any_in keywords issue_lower then category
      else first_category rest issue_lower
  end.

Definition _categorize_issue (issue : string) : string :=
  first_category categories (lower issue).

Definition _assess_severity (issue : string) (outcome : Outcome)
  : exn + string :=
  let expected_value := get_default (o_expected_value outcome) 0 in
  let coherence := get_default (o_coherence_score outcome) 0 in
  c1 <- gt expected_value 50000 ;;
  if c1 then inr "critical"
  else
    c2 <- gt coherence 2.5 ;;
    if c2 then inr "critical"
    else
      c3 <- gt coherence 1.5 ;;
      if c3 then inr "moderate" else inr "minor".

(** The nutrient that every branch of [_extract_nutrients] builds, up to
    its category, lesson, severity and tier. *)
Definition nutrient_of (outcome : Outcome) (category lesson severity : string)
    (tier : option string) : Nutrient :=
  {| lead_id := o_lead_id outcome;
     company_name := o_company_name outcome;
     outcome_type := o_outcome_type outcome;
     category := category;
     lesson := lesson;
     severity := severity;
     qualification_tier := tier;
     coherence_score := get_opt (o_coherence_score outcome);
     trial_branch := o_trial_branch outcome;
     applied_to_standard := false |}.

(** The loop over [what_went_wrong]. *)
Fixpoint issue_nutrients (outcome : Outcome) (issues : list string)
  : exn + list Nutrient :=
  match issues with
  | [] => inr []
  | issue :: rest =>
      let category := _categorize_issue issue in
      severity <- _assess_severity issue outcome ;;
      ns <- issue_nutrients outcome rest ;;
      inr (nutrient_of outcome category issue severity
                       (o_qualification_tier outcome) :: ns)
  end.

(** [f"{outcome.get('coherence_score', 0):.2f}"] *)
Definition format_coherence (outcome : Outcome) : exn + string :=
  match get_default (o_coherence_score outcome) 0 with
  | Value v => inr (format_f 2 v)
  | _ => inl TypeError
  end.

(** [outcome.get('learnings', {}).get('what_went_wrong', [])] *)
Definition issues_of (outcome : Outcome) : list string :=
  match o_learnings outcome with
  | Some l => match what_went_wrong l with Some w => w | None => [] end
  | None => []
  end.

Definition _extract_nutrients (outcome : Outcome) : exn + list Nutrient :=
  let outcome_type := o_outcome_type outcome in
  let what_went_wrong := issues_of outcome in
  let lesson_learned :=
    match o_learnings outcome with
    | Some l => lesson_learned l
    | None => None
    end in
  nutrients <- issue_nutrients outcome what_went_wrong ;;
  let nutrients :=
    match lesson_learned with
    | Some lesson =>
        if str_truthy lesson
        then nutrients ++
             [nutrient_of outcome (_categorize_issue lesson) lesson "moderate"
                          (o_qualification_tier outcome)]
        else nutrients
    | None => nutrients
    end in
  if String.eqb outcome_type "lost_competitor" then
    if opt_truthy (o_competitor_chosen outcome) then
      inr (nutrients ++
           [nutrient_of outcome "competitive"
              (String.append "Lost to "
                 (String.append (or_empty (o_competitor_chosen outcome))
                    " - analyze competitive positioning"))
              "moderate" (o_qualification_tier outcome)])
    else inr nutrients
  else if String.eqb outcome_type "lost_dark" then
    inr (nutrients ++
         [nutrient_of outcome "engagement"
            "Lead went dark - review engagement cadence and value delivery"
            "moderate" (o_qualification_tier outcome)])
  else if String.eqb outcome_type "disqualified" then
    c <- format_coherence outcome ;;
    inr (nutrients ++
         [nutrient_of outcome "qualification"
            (String.append "Disqualified with coherence "
               (String.append c " - review qualification criteria"))
            "minor" (Some "disqualified")])
  else inr nutrients.

Definition bury_lead (self : GraveyardManager) (outcome : Outcome)
  : Py.outcome GraveyardManager (list Nutrient) :=
  let self :=
    {| nutrients := nutrients self;
       graveyard_leads := graveyard_leads self ++ [outcome];
       saved_outcomes := saved_outcomes self ++ [outcome];
       saved_nutrients := saved_nutrients self |} in
  match _extract_nutrients outcome with
  | inl e => Raised self e
  | inr ns =>
      Returned
        {| nutrients := nutrients self ++ ns;
           graveyard_leads := graveyard_leads self;
           saved_outcomes := saved_outcomes self;
           saved_nutrients := saved_nutrients self ++ ns |}
        ns
  end.

(** The severity rule as the specification words it: [critical] when the
    expected deal value exceeds 50000 or the coherence at failure exceeds
    2.5, [moderate] when neither holds and the coherence exceeds 1.5,
    [minor] otherwise.  A value that is missing exceeds nothing. *)
Definition exceeds (x : entry Q) (bound : Q) : bool :=
  match x with
  | Value v => Qltb bound v
  | _ => false
  end.

Definition spec_severity (outcome : Outcome) : string :=
  if orb (exceeds (o_expected_value outcome) 50000)
         (exceeds (o_coherence_score outcome) 2.5)
  then "critical"
  else if exceeds (o_coherence_score outcome) 1.5 then "moderate"
  else "minor".

(** The first outcome of the demonstration in [graveyard_manager.py]. *)
Definition demo_outcome : Outcome :=
  {| o_lead_id := "lost001";
     o_company_name := "Acme Corp";
     o_outcome_type := "lost_competitor";
     o_qualification_tier := Some "hot";
     o_coherence_score := Value 3.1;
     o_trial_branch := Some "classic";
     o_expected_value := Value 50000;
     o_competitor_chosen := Some "Competitor X";
     o_learnings :=
       Some {| what_went_wrong :=
                 Some [ "Did not multi-thread to other stakeholders";
                        "Lost on price" ];
               lesson_learned :=
                 Some "Need better competitive pricing strategy" |} |}.

Definition new_graveyard : GraveyardManager :=
  mkGraveyardManager [] [] [] [].

(** *** The other readers and writers of the nutrient list *)

Definition get_critical_nutrients (self : GraveyardManager) : list Nutrient :=
  filter (fun n => andb (String.eqb (severity n) "critical")
                        (negb (applied_to_standard n)))
         (nutrients self).

Definition set_applied (n : Nutrient) : Nutrient :=
  {| lead_id := lead_id n; company_name := company_name n;
     outcome_type := outcome_type n; category := category n;
     lesson := lesson n; severity := severity n;
     qualification_tier := qualification_tier n;
     coherence_score := coherence_score n;
     trial_branch := trial_branch n;
     applied_to_standard := true |}.

(** [mark_nutrient_applied]: the argument is compared with [lead_id]. *)
Definition mark_nutrient_applied (self : GraveyardManager)
    (nutrient_id : string) : GraveyardManager :=
  {| nutrients :=
       map (fun n => if String.eqb (lead_id n) nutrient_id
                     then set_applied n else n)
           (nutrients self);
     graveyard_leads := graveyard_leads self;
     saved_outcomes := saved_outcomes self;
     saved_nutrients := saved_nutrients self |}.

(** One step of the loop of [get_nutrients_by_category]: the dict keeps
    its keys in the order of their first insertion. *)
Fixpoint add_to_category (by_category : list (string * list Nutrient))
    (n : Nutrient) : list (string * list Nutrient) :=
  match by_category with
  | [] => [(category n, [n])]
  | (c, l) :: rest =>
      if String.eqb c (category n) then (c, l ++ [n]) :: rest
      else (c, l) :: add_to_category rest n
  end.

Definition get_nutrients_by_category (self : GraveyardManager)
  : list (string * list Nutrient) :=
  fold_left add_to_category (nutrients self) [].

(** *** Pattern analysis *)

(** [FailurePattern] (without [detected_at]).  [primary_tier] is the key of
    a tier counter in the second kind of pattern, and such a key can be
    [None]. *)
Record FailurePattern : Type := mkFailurePattern {
  pattern_type : string;
  frequency : Z;
  affected_leads : list string;
  avg_coherence_at_fail : Q;
  primary_tier : option string;
  recommended_action : string;
  priority : string
}.

(** [collections.Counter]: the keys in the order of their first
    occurrence, each with the number of its occurrences. *)
Fixpoint counter_add {K} (eqb : K -> K -> bool) (c : list (K * nat)) (k : K)
  : list (K * nat) :=
  match c with
  | [] => [(k, 1%nat)]
  | (k', n) :: rest =>
      if eqb k' k then (k', S n) :: rest
      else (k', n) :: counter_add eqb rest k
  end.

Definition Counter {K} (eqb : K -> K -> bool) (l : list K) : list (K * nat) :=
  fold_left (counter_add eqb) l [].

(** [c[k]]: the count of a key, 0 for a key that is missing. *)
Fixpoint counter_get {K} (eqb : K -> K -> bool) (c : list (K * nat)) (k : K)
  : nat :=
  match c with
  | [] => 0%nat
  | (k', n) :: rest => if eqb k' k then n else counter_get eqb rest k
  end.

(** The keys of a counter are distinct and its counts are positive. *)
Definition well_formed {K} (c : list (K * nat)) : Prop :=
  NoDup (map fst c) /\ Forall (fun kn => (1 <= snd kn)%nat) c.

(** [Counter.most_common(n)]: the [n] first items of a stable sort of the
    items into non-increasing count. *)
Fixpoint insert_by_count {K} (x : K * nat) (sorted : list (K * nat))
  : list (K * nat) :=
  match sorted with
  | [] => [x]
  | y :: ys =>
      if (snd x <? snd y)%nat then y :: insert_by_count x ys
      else x :: y :: ys
  end.

Definition most_common {K} (n : nat) (c : list (K * nat)) : list (K * nat) :=
  firstn n (fold_right insert_by_count [] c).

(** [s.replace(a, b)] for single characters. *)
Fixpoint replace_char (a b : ascii) (s : string) : string :=
  match s with
  | EmptyString => EmptyString
  | String c s' =>
      String (if Ascii.eqb c a then b else c) (replace_char a b s')
  end.

(** [f"{tier}"] for an optional string. *)
Definition str_of (o : option string) : string :=
  match o with
  | Some s => s
  | None => "None"
  end.

(** [a == b] for optional strings, and [a == s] for a string [s]. *)
Definition opt_eqb (a b : option string) : bool :=
  match a, b with
  | Some x, Some y => String.eqb x y
  | None, None => true
  | _, _ => false
  end.

Definition is_str (a : option string) (s : string) : bool :=
  opt_eqb a (Some s).

(** [x in l] for a list of strings. *)
Definition mem (x : string) (l : list string) : bool :=
  existsb (String.eqb x) l.

(** [sum(l)] and [sum(l) / len(l)] for a list of numbers that is not
    empty. *)
Definition Qsum (l : list Q) : Q := fold_left Qplus l 0.

Definition mean (l : list Q) : Q := Qsum l / len l.

(** A coherence score that is a truth: a number other than 0. *)
Definition truthy_score (e : entry Q) : list Q :=
  match e with
  | Value v => if Qeq_bool v 0 then [] else [v]
  | _ => []
  end.

Definition _avg_coherence (self : GraveyardManager) (lead_ids : list string)
  : Q :=
  let scores :=
    flat_map (fun o => if mem (o_lead_id o) lead_ids
                       then truthy_score (o_coherence_score o) else [])
             (graveyard_leads self) in
  if list_truthy scores then mean scores else 0.

Definition _avg_coherence_nutrients (self : GraveyardManager)
    (category_name : string) : Q :=
  let scores :=
    flat_map (fun n => if String.eqb (category n) category_name
                       then match coherence_score n with
                            | Some v => if Qeq_bool v 0 then [] else [v]
                            | None => []
                            end
                       else [])
             (nutrients self) in
  if list_truthy scores then mean scores else 0.

(** [_primary_tier]: the counter of a list that is not empty has an item,
    so that [most_common(1)[0]] exists. *)
Definition _primary_tier (self : GraveyardManager) (lead_ids : list string)
  : string :=
  let tiers :=
    flat_map (fun o => if andb (mem (o_lead_id o) lead_ids)
                               (opt_truthy (o_qualification_tier o))
                       then [or_empty (o_qualification_tier o)] else [])
             (graveyard_leads self) in
  if negb (list_truthy tiers) then "unknown"
  else match most_common 1 (Counter String.eqb tiers) with
       | (tier, _) :: _ => tier
       | [] => "unknown"
       end.

(** Pattern 1: frequent loss to one competitor. *)
Definition competitor_patterns (self : GraveyardManager)
  : list FailurePattern :=
  let leads := graveyard_leads self in
  let competitors :=
    flat_map (fun o => if opt_truthy (o_competitor_chosen o)
                       then [or_empty (o_competitor_chosen o)] else [])
             leads in
  if list_truthy competitors then
    flat_map
      (fun item : string * nat =>
         let '(competitor, count) := item in
         if (2 <=? count)%nat then
           let affected :=
             map o_lead_id
                 (filter (fun o => is_str (o_competitor_chosen o) competitor)
                         leads) in
           [ {| pattern_type :=
                  String.append "frequent_loss_to_"
                                (replace_char " " "_" competitor);
                frequency := Z.of_nat count;
                affected_leads := affected;
                avg_coherence_at_fail := _avg_coherence self affected;
                primary_tier := Some (_primary_tier self affected);
                recommended_action :=
                  String.concat ""
                    [ "Conduct competitive analysis vs "; competitor;
                      ". Create battle card." ];
                priority := if (3 <? count)%nat then "high" else "medium" |} ]
         else [])
      (most_common 3 (Counter String.eqb competitors))
  else [].

(** Pattern 2: leads of one tier going dark. *)
Definition dark_patterns (self : GraveyardManager) : list FailurePattern :=
  let dark_leads :=
    filter (fun o => String.eqb (o_outcome_type o) "lost_dark")
           (graveyard_leads self) in
  if (3 <=? length dark_leads)%nat then
    let tier_counts := Counter opt_eqb (map o_qualification_tier dark_leads) in
    flat_map
      (fun item : option string * nat =>
         let '(tier, count) := item in
         if (2 <=? count)%nat then
           let affected :=
             map o_lead_id
                 (filter (fun o => opt_eqb (o_qualification_tier o) tier)
                         dark_leads) in
           [ {| pattern_type :=
                  String.append (str_of tier) "_tier_going_dark";
                frequency := Z.of_nat count;
                affected_leads := affected;
                avg_coherence_at_fail := _avg_coherence self affected;
                primary_tier := tier;
                recommended_action :=
                  String.concat ""
                    [ "Review engagement strategy for "; str_of tier;
                      " leads. May need different cadence/content." ];
                priority := if is_str tier "hot" then "high" else "medium" |} ]
         else [])
      tier_counts
  else [].

(** [sum(o.get('coherence_score', 0) for o in l)]: adding [None] raises. *)
Fixpoint sum_scores (acc : Q) (l : list Outcome) : exn + Q :=
  match l with
  | [] => inr acc
  | o :: rest =>
      match get_default (o_coherence_score o) 0 with
      | Value v => sum_scores (acc + v) rest
      | _ => inl TypeError
      end
  end.

Definition disqualified_leads (self : GraveyardManager) : list Outcome :=
  filter (fun o => String.eqb (o_outcome_type o) "disqualified")
         (graveyard_leads self).

(** Pattern 3: consistent disqualification at a low coherence. *)
Definition disqualification_pattern (self : GraveyardManager)
  : exn + list FailurePattern :=
  let disqualified := disqualified_leads self in
  if (5 <=? length disqualified)%nat then
    total <- sum_scores 0 disqualified ;;
    let avg_c := total / len disqualified in
    if Qltb avg_c 0.8 then
      inr [ {| pattern_type := "weak_qualification_criteria";
               frequency := Z.of_nat (length disqualified);
               affected_leads := map o_lead_id disqualified;
               avg_coherence_at_fail := avg_c;
               primary_tier := Some "disqualified";
               recommended_action :=
                 "Review hunting criteria. May be targeting wrong ICP.";
               priority := "critical" |} ]
    else inr []
  else inr [].

Section Patterns.

(** [list(set(l))]: the order in which a set of strings is listed is not
    fixed by the language. *)
Variable set_to_list : list string -> list string.

(** Pattern 4: frequency of the nutrient categories. *)
Definition category_patterns (self : GraveyardManager)
  : list FailurePattern :=
  let nutrient_categories :=
    Counter String.eqb (map category (nutrients self)) in
  flat_map
    (fun item : string * nat =>
       let '(category_name, count) := item in
       if (3 <=? count)%nat then
         let affected :=
           map lead_id
               (filter (fun n => String.eqb (category n) category_name)
                       (nutrients self)) in
         [ {| pattern_type :=
                String.concat "" ["recurring_"; category_name; "_issues"];
              frequency := Z.of_nat count;
              affected_leads := set_to_list affected;
              avg_coherence_at_fail :=
                _avg_coherence_nutrients self category_name;
              primary_tier := Some (_primary_tier self affected);
              recommended_action :=
                String.concat ""
                  [ "Systematic "; category_name;
                    " issues detected. Review "; category_name;
                    " processes." ];
              priority := if (5 <? count)%nat then "high" else "medium" |} ]
       else [])
    (most_common 3 nutrient_categories).

(** [analyze_patterns]; the list it returns is also kept in
    [self.patterns], which nothing else reads. *)
Definition analyze_patterns (self : GraveyardManager)
  : exn + list FailurePattern :=
  let patterns := competitor_patterns self in
  let patterns := patterns ++ dark_patterns self in
  weak <- disqualification_pattern self ;;
  let patterns := patterns ++ weak in
  let patterns := patterns ++ category_patterns self in
  inr patterns.

End Patterns.

(** *** Notions used in the statements about the graveyard *)

(** The names of the nutrient categories. *)
Definition taxonomy : list string :=
  "general" :: map fst categories.


(** A nutrient that was extracted from the outcome [o]. *)
Definition extracted_from (o : Outcome) (n : Nutrient) : Prop :=
  lead_id n = o_lead_id o /\
  company_name n = o_company_name o /\
  outcome_type n = o_outcome_type o /\
  coherence_score n = get_opt (o_coherence_score o) /\
  trial_branch n = o_trial_branch o /\
  applied_to_standard n = false /\
  In (severity n) ["minor"; "moderate"; "critical"] /\
  In (category n) taxonomy.

(** An outcome of the given kind for the given lead, with a competitor,
    a tier and a coherence score, and nothing else. *)
Definition outcome_of (id kind : string) (competitor tier : option string)
    (score : entry Q) : Outcome :=
  {| o_lead_id := id; o_company_name := id; o_outcome_type := kind;
     o_qualification_tier := tier; o_coherence_score := score;
     o_trial_branch := None; o_expected_value := Absent;
     o_competitor_chosen := competitor; o_learnings := None |}.

(** A graveyard of five disqualified leads of low coherence, two of which
    also name the same competitor, and of three leads of tier warm that
    went dark. *)
Definition demo_graveyard : GraveyardManager :=
  {| nutrients := [];
     graveyard_leads :=
       [ outcome_of "d1" "disqualified" (Some "Rival Inc") None (Value 0.4);
         outcome_of "d2" "disqualified" None None (Value 0.5);
         outcome_of "d3" "disqualified" (Some "Rival Inc") None (Value 0.6);
         outcome_of "d4" "disqualified" None None Absent;
         outcome_of "d5" "disqualified" None None (Value 0.7);
         outcome_of "k1" "lost_dark" None (Some "warm") (Value 2.0);
         outcome_of "k2" "lost_dark" None (Some "warm") (Value 1.8);
         outcome_of "k3" "lost_dark" None (Some "cold") (Value 1.0) ];
     saved_outcomes := [];
     saved_nutrients := [] |}.


(** The outcomes that went dark, the outcomes lost to a competitor and
    the nutrients of a category. *)
Definition dark_leads (self : GraveyardManager) : list Outcome :=
  filter (fun o => String.eqb (o_outcome_type o) "lost_dark")
         (graveyard_leads self).

Definition lost_to (self : GraveyardManager) (competitor : string)
  : list Outcome :=
  filter (fun o => is_str (o_competitor_chosen o) competitor)
         (graveyard_leads self).


(** The coherence score of an outcome, and 0 where it has none. *)
Definition score_or_zero (o : Outcome) : Q :=
  match o_coherence_score o with
  | Value v => v
  | _ => 0
  end.

(** The condition under which [analyze_patterns] raises: there are five
    disqualified outcomes or more, and one of them has a coherence score
    of [None]. *)
Definition analysis_raises (self : GraveyardManager) : Prop :=
  (5 <= length (disqualified_leads self))%nat /\
  Exists (fun o => o_coherence_score o = Null) (disqualified_leads self).

(** The graveyard [demo_graveyard] after one more disqualified lead, whose
    coherence score is [None]. *)
Definition demo_graveyard_unscored : GraveyardManager :=
  {| nutrients := [];
     graveyard_leads :=
       graveyard_leads demo_graveyard
       ++ [outcome_of "d6" "disqualified" None None Null];
     saved_outcomes := [];
     saved_nutrients := [] |}.


End Graveyard.

(* ================================================================== *)
(** ** src/trial/trial_manager.py *)
(* ================================================================== *)

Module Trial.
Import Py.

(** A configuration payload ([Dict[str, Any]] that is dumped as JSON). *)
#[local] Unset Elimination Schemes.
Inductive json : Type :=
| JNull
| JBool (b : bool)
| JNum (x : Q)
| JStr (s : string)
| JList (l : list json)
| JDict (d : list (string * json)).
#[local] Set Elimination Schemes.

Inductive TrialStatus : Type :=
| PLANNED
| RUNNING
| PAUSED
| COMPLETED
| PROMOTED
| ARCHIVED.

Record TrialBranch : Type := mkTrialBranch {
  name : string;
  description : string;
  config : json;
  leads_qualified : Z;
  leads_hot : Z;
  leads_warm : Z;
  leads_cold : Z;
  leads_disqualified : Z;
  outcomes_won : Z;
  outcomes_lost : Z;
  total_revenue : Q;
  total_cost : Q
}.

(** [TrialBranch(name=..., description=..., config=...)] *)
Definition new_branch (name description : string) (config : json)
  : TrialBranch :=
  mkTrialBranch name description config 0 0 0 0 0 0 0 0 0.

Definition qualification_rate (self : TrialBranch) : exn + Q :=
  let total := leads_qualified self in
  if (total =? 0)%Z then inr 0
  else
    let qualified := (total - leads_disqualified self)%Z in
    div (inject_Z qualified) (inject_Z total).

Definition conversion_rate (self : TrialBranch) : exn + Q :=
  let total_outcomes := (outcomes_won self + outcomes_lost self)%Z in
  if (total_outcomes =? 0)%Z then inr 0
  else div (inject_Z (outcomes_won self)) (inject_Z total_outcomes).

Definition avg_deal_value (self : TrialBranch) : exn + Q :=
  if (outcomes_won self =? 0)%Z then inr 0
  else div (total_revenue self) (inject_Z (outcomes_won self)).

Definition roi (self : TrialBranch) : exn + Q :=
  if Qeq_bool (total_cost self) 0 then inr 0
  else div (total_revenue self - total_cost self) (total_cost self).

Definition fitness_score (self : TrialBranch) : exn + Q :=
  adv <- avg_deal_value self ;;
  let revenue_weight := Qmin (adv / 100000) 1 in
  qr <- qualification_rate self ;;
  cr <- conversion_rate self ;;
  let fitness := qr * 0.3 + cr * 0.5 + revenue_weight * 0.2 in
  inr fitness.

(** [Trial] (without [started_at] / [completed_at]). *)
Record Trial : Type := mkTrial {
  trial_id : string;
  t_name : string;
  t_description : string;
  classic_branch : TrialBranch;
  experimental_branch : TrialBranch;
  traffic_split : Q;
  min_sample_size : Z;
  confidence_threshold : Q;
  status : TrialStatus;
  winner : option string;
  confidence : option Q
}.

Definition set_status (t : Trial) (s : TrialStatus) : Trial :=
  mkTrial (trial_id t) (t_name t) (t_description t) (classic_branch t)
          (experimental_branch t) (traffic_split t) (min_sample_size t)
          (confidence_threshold t) s (winner t) (confidence t).

Definition set_result (t : Trial) (w : string) (c : Q) : Trial :=
  mkTrial (trial_id t) (t_name t) (t_description t) (classic_branch t)
          (experimental_branch t) (traffic_split t) (min_sample_size t)
          (confidence_threshold t) (status t) (Some w) (Some c).

Definition set_classic (t : Trial) (b : TrialBranch) : Trial :=
  mkTrial (trial_id t) (t_name t) (t_description t) b
          (experimental_branch t) (traffic_split t) (min_sample_size t)
          (confidence_threshold t) (status t) (winner t) (confidence t).

Definition set_experimental (t : Trial) (b : TrialBranch) : Trial :=
  mkTrial (trial_id t) (t_name t) (t_description t) (classic_branch t)
          b (traffic_split t) (min_sample_size t)
          (confidence_threshold t) (status t) (winner t) (confidence t).

Definition start (self : Trial) : Trial := set_status self RUNNING.
Definition pause (self : Trial) : Trial := set_status self PAUSED.
Definition resume (self : Trial) : Trial := set_status self RUNNING.

Definition is_ready_for_evaluation (self : Trial) : bool :=
  andb (min_sample_size self <=? leads_qualified (classic_branch self))%Z
       (min_sample_size self <=? leads_qualified (experimental_branch self))%Z.

Definition status_eqb (a b : TrialStatus) : bool :=
  match a, b with
  | PLANNED, PLANNED | RUNNING, RUNNING | PAUSED, PAUSED
  | COMPLETED, COMPLETED | PROMOTED, PROMOTED | ARCHIVED, ARCHIVED => true
  | _, _ => false
  end.

(** [assign_branch]; [u] is the value that [random.random()] draws. *)
Definition assign_branch (self : Trial) (u : Q) : string :=
  if negb (status_eqb (status self) RUNNING) then "classic"
  else if Qltb u (traffic_split self) then "experimental" else "classic".

Record TrialResult : Type := mkTrialResult {
  r_trial_id : string;
  r_winner : string;
  r_confidence : Q;
  classic_fitness : Q;
  experimental_fitness : Q;
  improvement : Q;
  recommendation : string;
  rationale : string
}.

(** An entry of [standards_history] (without [replaced_at]). *)
Record HistoryEntry : Type := mkHistoryEntry {
  h_config : json;
  h_replaced_by : string;
  h_trial_id : string
}.

(** The manager: its two in-memory lists, the content of
    [current_standard.json] ([None] while the file does not exist), and the
    trial and result files it has written, in the order of writing. *)
Record TrialManager : Type := mkTrialManager {
  trials : list Trial;
  standards_history : list HistoryEntry;
  standard_file : option json;
  saved_trials : list Trial;
  saved_results : list TrialResult
}.

(** [TrialManager.__init__]: [_load_trials] only logs what it finds. *)
Definition new_manager (standard_file : option json) : TrialManager :=
  mkTrialManager [] [] standard_file [] [].

Definition default_standard : json :=
  JDict [ ("lens", JStr "enterprise_saas");
          ("weights", JDict [ ("psi_intent", JNum 0.25);
                              ("rho_authority", JNum 0.30);
                              ("q_urgency", JNum 0.25);
                              ("f_fit", JNum 0.20) ]);
          ("approach", JStr "classic_rose_glass") ].

Definition _get_current_standard (self : TrialManager) : json :=
  match standard_file self with
  | Some j => j
  | None => default_standard
  end.

Definition _save_standard (self : TrialManager) (config : json)
  : TrialManager :=
  mkTrialManager (trials self) (standards_history self) (Some config)
                 (saved_trials self) (saved_results self).

Definition _save_trial (self : TrialManager) (trial : Trial) : TrialManager :=
  mkTrialManager (trials self) (standards_history self) (standard_file self)
                 (saved_trials self ++ [trial]) (saved_results self).

Definition _save_result (self : TrialManager) (result : TrialResult)
  : TrialManager :=
  mkTrialManager (trials self) (standards_history self) (standard_file self)
                 (saved_trials self) (saved_results self ++ [result]).

Definition set_trials (self : TrialManager) (ts : list Trial) : TrialManager :=
  mkTrialManager ts (standards_history self) (standard_file self)
                 (saved_trials self) (saved_results self).

Definition push_history (self : TrialManager) (h : HistoryEntry)
  : TrialManager :=
  mkTrialManager (trials self) (standards_history self ++ [h])
                 (standard_file self) (saved_trials self) (saved_results self).

Fixpoint find_trial (ts : list Trial) (id : string) : option Trial :=
  match ts with
  | [] => None
  | t :: rest => if String.eqb (trial_id t) id then Some t
                 else find_trial rest id
  end.

Definition _get_trial (self : TrialManager) (id : string) : option Trial :=
  find_trial (trials self) id.

(** Assignment to the trial object that [_get_trial] returned: the first
    trial of the list with that id is the one that changes. *)
Fixpoint replace_trial (ts : list Trial) (id : string) (t' : Trial)
  : list Trial :=
  match ts with
  | [] => []
  | t :: rest => if String.eqb (trial_id t) id then t' :: rest
                 else t :: replace_trial rest id t'
  end.

Definition store_trial (self : TrialManager) (id : string) (t' : Trial)
  : TrialManager :=
  set_trials self (replace_trial (trials self) id t').

(** [create_trial]; [now] is [datetime.now().strftime('%Y%m%d_%H%M%S')]. *)
Definition create_trial (self : TrialManager) (now : string)
    (name description : string) (experimental_config : json)
    (traffic_split : Q) (min_sample_size : Z) : TrialManager * Trial :=
  let trial_id := String.append "trial_" now in
  let classic_branch :=
    new_branch "classic" "Current standard approach"
               (_get_current_standard self) in
  let experimental_branch :=
    new_branch (String.append "experimental_" trial_id) description
               experimental_config in
  let trial :=
    mkTrial trial_id name description classic_branch experimental_branch
            traffic_split min_sample_size 0.95 PLANNED None None in
  let self := set_trials self (trials self ++ [trial]) in
  (_save_trial self trial, trial).

(** [_get_branch] answers which of the two branches is meant. *)
Definition is_classic (branch_name : string) : bool :=
  str_in "classic" (lower branch_name).

Definition on_branch (trial : Trial) (branch_name : string)
    (f : TrialBranch -> TrialBranch) : Trial :=
  if is_classic branch_name
  then set_classic trial (f (classic_branch trial))
  else set_experimental trial (f (experimental_branch trial)).

Definition count_qualification (tier : string) (b : TrialBranch)
  : TrialBranch :=
  let q := (leads_qualified b + 1)%Z in
  if String.eqb tier "hot" then
    mkTrialBranch (name b) (description b) (config b) q
      (leads_hot b + 1) (leads_warm b) (leads_cold b) (leads_disqualified b)
      (outcomes_won b) (outcomes_lost b) (total_revenue b) (total_cost b)
  else if String.eqb tier "warm" then
    mkTrialBranch (name b) (description b) (config b) q
      (leads_hot b) (leads_warm b + 1) (leads_cold b) (leads_disqualified b)
      (outcomes_won b) (outcomes_lost b) (total_revenue b) (total_cost b)
  else if String.eqb tier "cold" then
    mkTrialBranch (name b) (description b) (config b) q
      (leads_hot b) (leads_warm b) (leads_cold b + 1) (leads_disqualified b)
      (outcomes_won b) (outcomes_lost b) (total_revenue b) (total_cost b)
  else if String.eqb tier "disqualified" then
    mkTrialBranch (name b) (description b) (config b) q
      (leads_hot b) (leads_warm b) (leads_cold b) (leads_disqualified b + 1)
      (outcomes_won b) (outcomes_lost b) (total_revenue b) (total_cost b)
  else
    mkTrialBranch (name b) (description b) (config b) q
      (leads_hot b) (leads_warm b) (leads_cold b) (leads_disqualified b)
      (outcomes_won b) (outcomes_lost b) (total_revenue b) (total_cost b).

Definition record_qualification (self : TrialManager)
    (trial_id branch tier : string) : TrialManager :=
  match _get_trial self trial_id with
  | None => self
  | Some trial =>
      let trial := on_branch trial branch (count_qualification tier) in
      _save_trial (store_trial self trial_id trial) trial
  end.

Definition count_outcome (outcome_type : string) (deal_value cost : Q)
    (b : TrialBranch) : TrialBranch :=
  if String.eqb outcome_type "won" then
    mkTrialBranch (name b) (description b) (config b) (leads_qualified b)
      (leads_hot b) (leads_warm b) (leads_cold b) (leads_disqualified b)
      (outcomes_won b + 1) (outcomes_lost b)
      (total_revenue b + deal_value) (total_cost b + cost)
  else
    mkTrialBranch (name b) (description b) (config b) (leads_qualified b)
      (leads_hot b) (leads_warm b) (leads_cold b) (leads_disqualified b)
      (outcomes_won b) (outcomes_lost b + 1)
      (total_revenue b) (total_cost b + cost).

Definition record_outcome (self : TrialManager)
    (trial_id branch outcome_type : string) (deal_value cost : Q)
  : TrialManager :=
  match _get_trial self trial_id with
  | None => self
  | Some trial =>
      let trial :=
        on_branch trial branch (count_outcome outcome_type deal_value cost) in
      _save_trial (store_trial self trial_id trial) trial
  end.

Definition _calculate_confidence (trial : Trial) : exn + Q :=
  let classic_n := leads_qualified (classic_branch trial) in
  let exp_n := leads_qualified (experimental_branch trial) in
  s <- div (inject_Z (classic_n + exp_n))
           (inject_Z (min_sample_size trial * 4)) ;;
  let sample_confidence := Qmin s 1 in
  cf <- fitness_score (classic_branch trial) ;;
  ef <- fitness_score (experimental_branch trial) ;;
  let fitness_diff := Qabs (cf - ef) in
  let difference_confidence := Qmin (fitness_diff / 0.2) 1 in
  inr ((sample_confidence + difference_confidence) / 2).

(** The verdict of [evaluate_trial] on a trial that is ready. *)
Definition verdict (trial_id : string) (trial : Trial) : exn + TrialResult :=
  classic_fitness <- fitness_score (classic_branch trial) ;;
  experimental_fitness <- fitness_score (experimental_branch trial) ;;
  if Qltb (classic_fitness * 1.05) experimental_fitness then
    d <- div (experimental_fitness - classic_fitness) classic_fitness ;;
    let improvement := d * 100 in
    confidence <- _calculate_confidence trial ;;
    let recommendation :=
      if Qltb 0.95 confidence then "promote" else "continue" in
    let rationale :=
      String.concat ""
        [ "Experimental shows "; format_f 1 improvement; "% improvement ";
          "(fitness: "; format_f 3 experimental_fitness; " vs ";
          format_f 3 classic_fitness; ")" ] in
    inr (mkTrialResult trial_id "experimental" confidence classic_fitness
           experimental_fitness improvement recommendation rationale)
  else if Qltb (experimental_fitness * 1.05) classic_fitness then
    d <- div (classic_fitness - experimental_fitness) experimental_fitness ;;
    let improvement := d * 100 in
    confidence <- _calculate_confidence trial ;;
    let rationale :=
      String.concat ""
        [ "Classic performs "; format_f 1 improvement; "% better ";
          "(fitness: "; format_f 3 classic_fitness; " vs ";
          format_f 3 experimental_fitness; ")" ] in
    inr (mkTrialResult trial_id "classic" confidence classic_fitness
           experimental_fitness improvement "archive" rationale)
  else
    inr (mkTrialResult trial_id "inconclusive" 0 classic_fitness
           experimental_fitness 0 "continue"
           "No significant difference - need more data").

Definition evaluate_trial (self : TrialManager) (trial_id : string)
  : outcome TrialManager (option TrialResult) :=
  match _get_trial self trial_id with
  | None => Returned self None
  | Some trial =>
      if negb (is_ready_for_evaluation trial) then Returned self None
      else
        match verdict trial_id trial with
        | inl e => Raised self e
        | inr result =>
            let trial :=
              set_result trial (r_winner result) (r_confidence result) in
            let self := store_trial self trial_id trial in
            let self := _save_trial self trial in
            let self := _save_result self result in
            Returned self (Some result)
        end
  end.

Definition winner_is (trial : Trial) (w : string) : bool :=
  match winner trial with
  | Some x => String.eqb x w
  | None => false
  end.

(** [promote_experimental]; its last log line formats [trial.confidence]
    as a percentage, which raises for [None], after the promotion. *)
Definition promote_experimental (self : TrialManager) (trial_id : string)
  : outcome TrialManager unit :=
  match _get_trial self trial_id with
  | None => Returned self tt
  | Some trial =>
      if negb (winner_is trial "experimental") then Returned self tt
      else
        let old_standard := _get_current_standard self in
        let self :=
          push_history self
            (mkHistoryEntry old_standard (name (experimental_branch trial))
                            trial_id) in
        let new_standard := config (experimental_branch trial) in
        let self := _save_standard self new_standard in
        let trial := set_status trial PROMOTED in
        let self := _save_trial (store_trial self trial_id trial) trial in
        match confidence trial with
        | Some _ => Returned self tt
        | None => Raised self TypeError
        end
  end.

Definition archive_trial (self : TrialManager) (trial_id : string)
  : TrialManager :=
  match _get_trial self trial_id with
  | None => self
  | Some trial =>
      let trial := set_status trial ARCHIVED in
      _save_trial (store_trial self trial_id trial) trial
  end.

Fixpoint get_active_trial_in (ts : list Trial) : option Trial :=
  match ts with
  | [] => None
  | t :: rest => if status_eqb (status t) RUNNING then Some t
                 else get_active_trial_in rest
  end.

Definition get_active_trial (self : TrialManager) : option Trial :=
  get_active_trial_in (trials self).

(** *** Histories of a manager

    A call of the manager's interface, or of a method of one of the trial
    objects it holds ([i] is the position of the object in [trials]). *)
Inductive call : Type :=
| CreateTrial (now name description : string) (experimental_config : json)
              (traffic_split : Q) (min_sample_size : Z)
| Start (i : nat)
| Pause (i : nat)
| Resume (i : nat)
| RecordQualification (trial_id branch tier : string)
| RecordOutcome (trial_id branch outcome_type : string) (deal_value cost : Q)
| EvaluateTrial (trial_id : string)
| PromoteExperimental (trial_id : string)
| ArchiveTrial (trial_id : string).

(** A method call on the [i]-th trial object. *)
Fixpoint on_nth (ts : list Trial) (i : nat) (f : Trial -> Trial)
  : list Trial :=
  match ts, i with
  | [], _ => []
  | t :: rest, O => f t :: rest
  | t :: rest, S i' => t :: on_nth rest i' f
  end.

(** The state a call leaves behind, whether it returns or raises. *)
Definition step (self : TrialManager) (c : call) : TrialManager :=
  match c with
  | CreateTrial now name description cfg split n =>
      fst (create_trial self now name description cfg split n)
  | Start i => set_trials self (on_nth (trials self) i start)
  | Pause i => set_trials self (on_nth (trials self) i pause)
  | Resume i => set_trials self (on_nth (trials self) i resume)
  | RecordQualification id branch tier =>
      record_qualification self id branch tier
  | RecordOutcome id branch ty v c => record_outcome self id branch ty v c
  | EvaluateTrial id => state_of (evaluate_trial self id)
  | PromoteExperimental id => state_of (promote_experimental self id)
  | ArchiveTrial id => archive_trial self id
  end.

Definition run (self : TrialManager) (calls : list call) : TrialManager :=
  fold_left step calls self.

(** Some call of the history was [evaluate_trial(id)] and returned a result
    whose winner is [w]. *)
Definition evaluated_with (self0 : TrialManager) (calls : list call)
    (id w : string) : Prop :=
  exists before after self' result,
    calls = before ++ EvaluateTrial id :: after /\
    evaluate_trial (run self0 before) id = Returned self' (Some result) /\
    r_winner result = w.

(** The confidence heuristic as the specification words it. *)
Definition spec_confidence (classic_n experimental_n min_sample_size : Z)
    (classic_fitness experimental_fitness : Q) : Q :=
  (Qmin (inject_Z (classic_n + experimental_n) /
         inject_Z (4 * min_sample_size)) 1
   + Qmin (Qabs (classic_fitness - experimental_fitness) / 0.2) 1) / 2.

(** *** Notions used in the statements about trials *)

(** The counters of a branch are counts, the tier counts add up to the
    number of qualified leads, and revenue and cost are not negative. *)
Definition branch_consistent (b : TrialBranch) : Prop :=
  (0 <= leads_hot b)%Z /\ (0 <= leads_warm b)%Z /\ (0 <= leads_cold b)%Z /\
  (0 <= leads_disqualified b)%Z /\
  (0 <= outcomes_won b)%Z /\ (0 <= outcomes_lost b)%Z /\
  (leads_hot b + leads_warm b + leads_cold b + leads_disqualified b
   = leads_qualified b)%Z /\
  0 <= total_revenue b /\ 0 <= total_cost b.

(** All six counters of a branch are counts. *)
Definition counts_nonneg (b : TrialBranch) : Prop :=
  (0 <= leads_qualified b)%Z /\
  (0 <= leads_hot b)%Z /\ (0 <= leads_warm b)%Z /\ (0 <= leads_cold b)%Z /\
  (0 <= leads_disqualified b)%Z /\
  (0 <= outcomes_won b)%Z /\ (0 <= outcomes_lost b)%Z.

(** A trial created at the start of 2026 with a sample-size gate of one
    lead per branch, and the calls that bring it to a tie and to a lead of
    the experimental branch. *)
Definition demo_id : string := "trial_20260101_000000".

Definition demo_create : call :=
  CreateTrial "20260101_000000" "Authority-Weighted Lens"
    "Test increasing the authority weight"
    (JDict [("approach", JStr "authority_weighted")]) 0.5 1.

Definition demo_tie : list call :=
  [ demo_create;
    RecordQualification demo_id "classic" "hot";
    RecordQualification demo_id "experimental" "hot" ].

Definition demo_experimental_ahead : list call :=
  demo_tie ++ [ RecordOutcome demo_id "experimental" "won" 100000 5000 ].

(** The managers these calls lead to, from a new manager without a
    standard file. *)
Definition manager_created : TrialManager :=
  run (new_manager None) [demo_create].

Definition manager_tie : TrialManager :=
  run (new_manager None) demo_tie.

Definition manager_tie_evaluated : TrialManager :=
  run (new_manager None) (demo_tie ++ [EvaluateTrial demo_id]).

Definition manager_experimental_ahead : TrialManager :=
  run (new_manager None) demo_experimental_ahead.

(** *** Further notions used in the statements about trials *)

(** Sum of the four tier counters of a branch. *)
Definition tier_sum (b : TrialBranch) : Z :=
  (leads_hot b + leads_warm b + leads_cold b + leads_disqualified b)%Z.

(** The counters of a branch are counts, and the tier counters do not
    exceed the number of qualified leads. *)
Definition counters_ok (b : TrialBranch) : Prop :=
  counts_nonneg b /\ (tier_sum b <= leads_qualified b)%Z.


(** The calls that name their trial by its id. *)
Definition addressed (c : call) : option string :=
  match c with
  | RecordQualification id _ _ => Some id
  | RecordOutcome id _ _ _ _ => Some id
  | EvaluateTrial id => Some id
  | PromoteExperimental id => Some id
  | ArchiveTrial id => Some id
  | _ => None
  end.


(** A trial that an evaluation has declared won by its experimental
    branch. *)
Definition manager_experimental_won : TrialManager :=
  run (new_manager None) (demo_experimental_ahead ++ [EvaluateTrial demo_id]).

End Trial.

(* ================================================================== *)
(** ** Properties of the lens *)
(* ================================================================== *)

Module LensProps.
Import Py.
Import Lens.

(** *** Arithmetic helpers *)

Lemma Qltb_true (a b : Q) : Qltb a b = true <-> a < b.
Proof.
  unfold Qltb. rewrite negb_true_iff.
  split; intro H.
  - apply Qnot_le_lt. intro Hle. apply Qle_bool_iff in Hle. congruence.
  - destruct (Qle_bool b a) eqn:E; [|reflexivity].
    apply Qle_bool_iff in E. exfalso. apply (Qlt_not_le _ _ H E).
Qed.

Lemma Qltb_false (a b : Q) : Qltb a b = false <-> b <= a.
Proof.
  unfold Qltb. rewrite negb_false_iff. apply Qle_bool_iff.
Qed.

Lemma Qle_bool_false (a b : Q) : Qle_bool a b = false <-> b < a.
Proof.
  rewrite <- Qltb_true. unfold Qltb. rewrite negb_true_iff. reflexivity.
Qed.

Lemma Qmin_unit_range (a : Q) : 0 <= a -> 0 <= Qmin a 1 <= 1.
Proof.
  intro H. split.
  - apply Q.min_glb; [assumption | lra].
  - apply Q.le_min_r.
Qed.

Lemma Qmin_nonneg (a b : Q) : 0 <= a -> 0 <= b -> 0 <= Qmin a b.
Proof. intros; apply Q.min_glb; assumption. Qed.

Lemma len_nonneg {A} (l : list A) : 0 <= len l.
Proof.
  unfold len. change 0 with (inject_Z 0). rewrite <- Zle_Qle. lia.
Qed.

Lemma dict_get_nonneg (d : list (string * Q)) (k : string) (dflt : Q) :
  Forall (fun kv => 0 <= snd kv) d -> 0 <= dflt -> 0 <= dict_get d k dflt.
Proof.
  intros Hd Hdflt. induction Hd as [|[k' v] d' Hv _ IH]; simpl.
  - assumption.
  - destruct (String.eqb k' k); [exact Hv | exact IH].
Qed.

Lemma sq_as_product (x : Q) : x ^ 2 == x * x.
Proof. reflexivity. Qed.

Lemma Qsquare_nonneg (x : Q) : 0 <= x * x.
Proof.
  destruct (Qlt_le_dec x 0) as [H|H].
  - setoid_replace (x * x) with ((- x) * (- x)) by ring.
    apply Qmult_le_0_compat; lra.
  - apply Qmult_le_0_compat; assumption.
Qed.

(** *** The urgency transform *)

Lemma denominator_pos (x : Q) : 0 < x -> 0 < KM + x + x ^ 2 / KI.
Proof.
  intro Hx. unfold KM, KI. rewrite sq_as_product.
  assert (H : 0 <= x * x / 0.8).
  { apply Qle_shift_div_l; [lra | nra]. }
  lra.
Qed.

Lemma biological_optimization_pos (x : Q) :
  0 < x ->
  biological_optimization x == x / (KM + x + x ^ 2 / KI).
Proof.
  intro Hx. unfold biological_optimization.
  destruct (Qle_bool x 0) eqn:E; [|reflexivity].
  apply Qle_bool_iff in E. lra.
Qed.

Lemma biological_optimization_nonneg (x : Q) : 0 <= biological_optimization x.
Proof.
  unfold biological_optimization.
  destruct (Qle_bool x 0) eqn:E; [lra|].
  apply Qle_bool_false in E.
  apply Qle_shift_div_l; [apply denominator_pos; assumption | lra].
Qed.

(** The transform never exceeds one half (its value at [raw = 0.4]). *)
Lemma biological_optimization_le_half (x : Q) :
  biological_optimization x <= 0.5.
Proof.
  unfold biological_optimization.
  destruct (Qle_bool x 0) eqn:E; [lra|].
  apply Qle_bool_false in E.
  apply Qle_shift_div_r; [apply denominator_pos; assumption|].
  unfold KM, KI. rewrite sq_as_product.
  assert (H : x * x / 0.8 == 1.25 * (x * x)) by (field).
  rewrite H.
  pose proof (Qsquare_nonneg (x - 0.4)) as Hs.
  lra.
Qed.

(** *** The transform over the reals *)

Lemma KM_R : Q2R KM = 0.2%R.
Proof. unfold KM, Q2R; simpl. lra. Qed.

Lemma KI_R : Q2R KI = 0.8%R.
Proof. unfold KI, Q2R; simpl. lra. Qed.

Lemma positive_part_nonneg (x : R) : (0 <= positive_part x)%R.
Proof.
  unfold positive_part, Rabs. destruct (Rcase_abs x); lra.
Qed.

Lemma denominator_pos_R (y : R) :
  (0 <= y -> 0 < Q2R KM + y + y ^ 2 / Q2R KI)%R.
Proof.
  intro Hy. rewrite KM_R, KI_R.
  assert (H : (0 <= y ^ 2 / 0.8)%R).
  { unfold Rdiv. apply Rmult_le_pos; [nra | lra]. }
  lra.
Qed.

(** The transform is a quotient of continuous functions of the positive
    part of its argument. *)
Lemma biological_optimization_R_closed_form (x : R) :
  biological_optimization_R x =
  (positive_part x /
   (Q2R KM + positive_part x + positive_part x ^ 2 / Q2R KI))%R.
Proof.
  unfold biological_optimization_R, positive_part.
  destruct (Rle_dec x 0) as [Hx|Hx].
  - rewrite Rabs_left1 by lra.
    replace ((x + - x) / 2)%R with 0%R by lra. unfold Rdiv; ring.
  - rewrite Rabs_right by lra.
    replace ((x + x) / 2)%R with x by lra. reflexivity.
Qed.

Lemma biological_optimization_R_continuous (x : R) :
  continuity_pt biological_optimization_R x.
Proof.
  apply (continuity_pt_locally_ext
           (fun y => positive_part y /
                     (Q2R KM + positive_part y + positive_part y ^ 2 / Q2R KI))%R
           biological_optimization_R 1 x).
  - lra.
  - intros y _. symmetry. apply biological_optimization_R_closed_form.
  - unfold positive_part. reg.
    pose proof (denominator_pos_R (positive_part x) (positive_part_nonneg x))
      as H.
    unfold positive_part, Rdiv in H. lra.
Qed.

Lemma biological_optimization_Q2R (raw : Q) :
  Q2R (biological_optimization raw) = biological_optimization_R (Q2R raw).
Proof.
  unfold biological_optimization, biological_optimization_R.
  destruct (Qle_bool raw 0) eqn:E.
  - apply Qle_bool_iff in E. apply Qle_Rle in E.
    rewrite RMicromega.Q2R_0 in *.
    destruct (Rle_dec (Q2R raw) 0); [reflexivity | contradiction].
  - apply Qle_bool_false in E.
    pose proof (denominator_pos raw E) as Hd.
    apply Qlt_Rlt in E. rewrite RMicromega.Q2R_0 in E.
    destruct (Rle_dec (Q2R raw) 0); [lra|].
    rewrite Q2R_div by lra.
    rewrite !Q2R_plus, Q2R_div by (unfold KI; lra).
    rewrite sq_as_product, Q2R_mult. simpl.
    rewrite Rmult_1_r. reflexivity.
Qed.

(** C1.  The urgency transform returns 0 for a raw value that is not
    positive and [raw / (0.2 + raw + raw^2 / 0.8)] otherwise (a division by
    a positive number); read over the reals it is continuous at every point
    of [0, 4] (indeed everywhere); it is 0 at 0 and nowhere negative. *)
Theorem biological_optimization_spec :
  (forall raw : Q, raw <= 0 -> biological_optimization raw == 0) /\
  (forall raw : Q, 0 < raw ->
     0 < 0.2 + raw + raw ^ 2 / 0.8 /\
     biological_optimization raw == raw / (0.2 + raw + raw ^ 2 / 0.8)) /\
  (forall raw : Q,
     Q2R (biological_optimization raw) = biological_optimization_R (Q2R raw)) /\
  (forall x : R, (0 <= x <= 4)%R -> continuity_pt biological_optimization_R x) /\
  biological_optimization 0 == 0 /\
  (forall raw : Q, 0 <= biological_optimization raw).
Proof.
  repeat split.
  - intros raw H. unfold biological_optimization.
    apply Qle_bool_iff in H. rewrite H. reflexivity.
  - apply (denominator_pos raw); assumption.
  - apply biological_optimization_pos; assumption.
  - apply biological_optimization_Q2R.
  - intros x _. apply biological_optimization_R_continuous.
  - apply biological_optimization_nonneg.
Qed.

Lemma biological_optimization_spec_witness :
  biological_optimization (-1) == 0 /\
  biological_optimization 0.4 == 0.4 / (0.2 + 0.4 + 0.4 ^ 2 / 0.8) /\
  continuity_pt biological_optimization_R 2.
Proof.
  destruct biological_optimization_spec as (Hneg & Hpos & _ & Hcont & _).
  split; [|split].
  - apply Hneg. lra.
  - apply Hpos. lra.
  - apply Hcont. lra.
Defined.

(** *** Ranges of the four dimensions *)

Ltac split_ifs :=
  repeat match goal with
         | |- context [if ?c then _ else _] => destruct c
         | |- context [match ?c with Some _ => _ | None => _ end] => destruct c
         end.

Lemma source_weight_nonneg (s : string) :
  0 <= dict_get [ ("inbound", 0.3); ("referral", 0.25); ("event", 0.2);
                  ("content", 0.15); ("outbound", 0.1); ("unknown", 0.05) ]
                s 0.05.
Proof.
  apply dict_get_nonneg; [|lra].
  repeat constructor; simpl; lra.
Qed.

Lemma size_weight_nonneg (s : string) :
  0 <= dict_get [ ("enterprise", 0.15); ("mid-market", 0.2);
                  ("smb", 0.15); ("startup", 0.1) ] s 0.1.
Proof.
  apply dict_get_nonneg; [|lra].
  repeat constructor; simpl; lra.
Qed.

Lemma timeline_weight_nonneg (s : string) :
  0 <= dict_get [ ("immediate", 0.4); ("this_quarter", 0.3);
                  ("next_quarter", 0.2); ("this_year", 0.1) ] s 0.1.
Proof.
  apply dict_get_nonneg; [|lra].
  repeat constructor; simpl; lra.
Qed.

Lemma capped_count_nonneg (n : nat) (k cap : Q) :
  0 <= k -> 0 <= cap -> 0 <= Qmin (inject_Z (Z.of_nat n) * k) cap.
Proof.
  intros Hk Hcap. apply Qmin_nonneg; [|assumption].
  apply Qmult_le_0_compat; [|assumption].
  change 0 with (inject_Z 0). rewrite <- Zle_Qle. lia.
Qed.

Lemma psi_range (lead : LeadData) : 0 <= _extract_psi_intent lead <= 1.
Proof.
  unfold _extract_psi_intent. cbv zeta. apply Qmin_unit_range.
  pose proof (source_weight_nonneg (source lead)) as Hs.
  pose proof (capped_count_nonneg (length (pain_points lead)) 0.1 0.3) as Hp.
  pose proof (capped_count_nonneg (length (content_downloads lead)) 0.05 0.15)
    as Hc.
  unfold len. split_ifs; lra.
Qed.

Lemma rho_range (lead : LeadData) : 0 <= _extract_rho_authority lead <= 1.
Proof.
  unfold _extract_rho_authority. cbv zeta. apply Qmin_unit_range.
  pose proof (size_weight_nonneg (or_empty (company_size lead))) as Hs.
  destruct (is_decision_maker lead) as [[|]|];
    destruct (contact_title lead) as [t|];
    try destruct (str_truthy t);
    try destruct (any_in authority_titles (lower t));
    destruct (optb_truthy (budget_mentioned lead)); lra.
Qed.

Lemma q_raw_range (lead : LeadData) : 0 <= _extract_q_urgency lead <= 1.
Proof.
  unfold _extract_q_urgency. cbv zeta. apply Qmin_unit_range.
  pose proof (capped_count_nonneg (urgency_count lead) 0.1 0.3) as Hu.
  destruct (timeline_mentioned lead) as [t|];
    try (pose proof (timeline_weight_nonneg t); destruct (str_truthy t));
    destruct (1 <? meeting_requests lead)%Z;
    destruct (5 <? website_visits lead)%Z; lra.
Qed.

Lemma f_range (lead : LeadData) : 0 <= _extract_f_fit lead <= 1.
Proof.
  unfold _extract_f_fit. cbv zeta. apply Qmin_unit_range.
  pose proof (capped_count_nonneg (length (tech_stack lead)) 0.05 0.2) as Ht.
  unfold len.
  destruct (industry lead) as [i|];
    try destruct (str_truthy i && any_in target_industries (lower i))%bool;
    destruct (list_truthy (tech_stack lead));
    destruct (opt_str_eqb (company_size lead) "mid-market"
              || opt_str_eqb (company_size lead) "enterprise")%bool;
    destruct (opt_str_eqb (company_size lead) "smb");
    destruct (list_truthy (competitor_mentioned lead)); simpl;
    destruct (String.eqb (source lead) "referral"); lra.
Qed.

(** *** Weight sets that a lens can select *)

Lemma dict_find_Forall {A} (P : A -> Prop) (d : list (string * A))
    (k : string) (v : A) :
  Forall (fun kv => P (snd kv)) d -> dict_find d k = Some v -> P v.
Proof.
  intros Hd. induction Hd as [|[k' v'] d' Hv _ IH]; simpl.
  - discriminate.
  - destruct (String.eqb k' k).
    + intro E. injection E as <-. exact Hv.
    + exact IH.
Qed.

Lemma calibrations_nonneg :
  Forall (fun kv => weights_nonneg (cal_weights (snd kv))) LENS_CALIBRATIONS.
Proof.
  unfold LENS_CALIBRATIONS, weights_nonneg.
  repeat constructor; simpl; lra.
Qed.

Lemma new_lens_weights_nonneg (name : string) :
  weights_nonneg (weights (new_lens name)).
Proof.
  unfold new_lens. cbn [weights].
  destruct (dict_find LENS_CALIBRATIONS name) as [c|] eqn:E.
  - exact (dict_find_Forall (fun c => weights_nonneg (cal_weights c))
             _ _ _ calibrations_nonneg E).
  - unfold weights_nonneg, DEFAULT_WEIGHTS; simpl. repeat split; lra.
Qed.

Lemma coherence_range (self : RoseGlassCRMLens) (psi rho q f : Q) :
  weights_nonneg (weights self) ->
  0 <= psi -> 0 <= rho -> 0 <= q -> 0 <= f ->
  0 <= _calculate_coherence self psi rho q f <= 4.
Proof.
  intros (Hw1 & Hw2 & Hw3 & Hw4) Hpsi Hrho Hq Hf.
  unfold _calculate_coherence. cbv zeta. split.
  - apply Q.min_glb; [|lra].
    pose proof (Qmult_le_0_compat _ _ Hw1 Hpsi).
    pose proof (Qmult_le_0_compat _ _ Hw2 Hrho).
    pose proof (Qmult_le_0_compat _ _ Hw3 Hq).
    pose proof (Qmult_le_0_compat _ _ Hw4 Hf).
    pose proof (Qmult_le_0_compat _ _ Hrho Hpsi).
    lra.
  - apply Q.le_min_r.
Qed.

Lemma perceive_coherence (self : RoseGlassCRMLens) (lead : LeadData) :
  coherence_score (perceive self lead) =
  _calculate_coherence self (_extract_psi_intent lead)
    (_extract_rho_authority lead)
    (biological_optimization (_extract_q_urgency lead))
    (_extract_f_fit lead).
Proof.
  unfold perceive. destruct (_detect_signals _ _ _ _ _) as [[? ?] ?].
  reflexivity.
Qed.

(** C3.  Whatever lens name is asked for (one of the four named
    calibrations, or any other name, which selects the default weights),
    the coherence score that [perceive] produces lies in [0, 4]. *)
Theorem perceive_coherence_in_0_4 :
  forall (name : string) (lead : LeadData),
    0 <= coherence_score (perceive (new_lens name) lead) <= 4.
Proof.
  intros name lead. rewrite perceive_coherence.
  apply coherence_range.
  - apply new_lens_weights_nonneg.
  - apply psi_range.
  - apply rho_range.
  - apply biological_optimization_nonneg.
  - apply f_range.
Qed.

(** *** The referral scenario *)

Lemma perceive_tier (self : RoseGlassCRMLens) (lead : LeadData) :
  qualification_tier (perceive self lead) =
  _determine_tier self (coherence_score (perceive self lead))
    (_extract_psi_intent lead) (_extract_rho_authority lead)
    (biological_optimization (_extract_q_urgency lead))
    (_extract_f_fit lead).
Proof.
  unfold perceive. destruct (_detect_signals _ _ _ _ _) as [[? ?] ?].
  reflexivity.
Qed.

Lemma perceive_positive (self : RoseGlassCRMLens) (lead : LeadData) :
  positive_signals (perceive self lead) =
  fst (fst (_detect_signals lead
              (_extract_psi_intent lead) (_extract_rho_authority lead)
              (biological_optimization (_extract_q_urgency lead))
              (_extract_f_fit lead))).
Proof.
  unfold perceive. destruct (_detect_signals _ _ _ _ _) as [[? ?] ?].
  reflexivity.
Qed.

Lemma perceive_dimensions (self : RoseGlassCRMLens) (lead : LeadData) :
  rho_authority (perceive self lead) = _extract_rho_authority lead /\
  q_urgency (perceive self lead) =
    biological_optimization (_extract_q_urgency lead).
Proof.
  unfold perceive. destruct (_detect_signals _ _ _ _ _) as [[? ?] ?].
  split; reflexivity.
Qed.

Lemma determine_tier_warm (self : RoseGlassCRMLens) (coh psi rho q f : Q) :
  0.2 <= f -> 0.15 <= rho -> coh < 2.5 -> 1.5 <= coh ->
  _determine_tier self coh psi rho q f = "warm".
Proof.
  intros Hf Hrho Hlt Hge. unfold _determine_tier. cbv zeta.
  apply Qltb_false in Hf. apply Qltb_false in Hrho.
  apply Qle_bool_false in Hlt. apply Qle_bool_iff in Hge.
  rewrite Hf, Hrho, Hlt, Hge. reflexivity.
Qed.

(** The tier is always one of the four names. *)
Lemma determine_tier_cases (self : RoseGlassCRMLens) (coh psi rho q f : Q) :
  let tier := _determine_tier self coh psi rho q f in
  tier = "hot" \/ tier = "warm" \/ tier = "cold" \/ tier = "disqualified".
Proof.
  unfold _determine_tier. cbv zeta.
  destruct (Qltb f 0.2); [tauto|].
  destruct (Qltb rho 0.15); [tauto|].
  destruct (_ && _)%bool; [tauto|].
  destruct (Qle_bool 1.5 coh); tauto.
Qed.

Lemma In_append_if_old {A} (c : bool) (x y : A) (l : list A) :
  In x l -> In x (append_if c y l).
Proof.
  intro H. unfold append_if. destruct c; [|assumption].
  apply in_or_app. left; assumption.
Qed.

Lemma In_append_if_new {A} (y : A) (l : list A) :
  In y (append_if true y l).
Proof.
  unfold append_if. apply in_or_app. right. left. reflexivity.
Qed.

Lemma enterprise_saas_weights :
  weights (new_lens "enterprise_saas") = mkWeights 0.20 0.35 0.20 0.25.
Proof. reflexivity. Qed.

Lemma enterprise_saas_coherence (self : RoseGlassCRMLens) (psi rho q f : Q) :
  weights self = mkWeights 0.20 0.35 0.20 0.25 ->
  psi == 0.7 -> rho == 0.65 -> f == 0.3 -> q <= 0.5 ->
  _calculate_coherence self psi rho q f == 2.043 + 0.8 * q.
Proof.
  intros Hw Hpsi Hrho Hf Hq.
  unfold _calculate_coherence. cbv zeta. rewrite Hw.
  cbn [w_psi_intent w_rho_authority w_q_urgency w_f_fit].
  rewrite Hpsi, Hrho, Hf.
  rewrite Q.min_l by lra. ring.
Qed.

Lemma scenario_psi (id company p1 p2 p3 : string) :
  _extract_psi_intent (scenario_lead id company p1 p2 p3) == 0.7.
Proof. vm_compute. reflexivity. Qed.

Lemma scenario_rho (id company p1 p2 p3 : string) :
  _extract_rho_authority (scenario_lead id company p1 p2 p3) == 0.65.
Proof. vm_compute. reflexivity. Qed.

Lemma scenario_f (id company p1 p2 p3 : string) :
  _extract_f_fit (scenario_lead id company p1 p2 p3) == 0.3.
Proof. vm_compute. reflexivity. Qed.

Lemma scenario_coherence (id company p1 p2 p3 : string) :
  coherence_score (perceive (new_lens "enterprise_saas")
                            (scenario_lead id company p1 p2 p3))
  == 2.043 + 0.8 * biological_optimization
                     (_extract_q_urgency (scenario_lead id company p1 p2 p3)).
Proof.
  rewrite perceive_coherence.
  apply enterprise_saas_coherence.
  - apply enterprise_saas_weights.
  - apply scenario_psi.
  - apply scenario_rho.
  - apply scenario_f.
  - apply biological_optimization_le_half.
Qed.

(** C2, as the code has it.  The referral scenario (three pain points of
    any wording, decision maker, budget, timeline this quarter, two
    meeting requests, nothing else filled in) perceived under
    [enterprise_saas] has a coherence below 2.5, so its tier is [warm],
    and its positive signals contain "Decision-making authority". *)
Theorem perceive_scenario_warm :
  forall id company p1 p2 p3 : string,
    let r := perceive (new_lens "enterprise_saas")
                      (scenario_lead id company p1 p2 p3) in
    coherence_score r < 2.5 /\
    qualification_tier r = "warm" /\
    In "Decision-making authority" (positive_signals r).
Proof.
  intros id company p1 p2 p3 r. subst r.
  set (lead := scenario_lead id company p1 p2 p3).
  pose proof (scenario_coherence id company p1 p2 p3) as Hc.
  fold lead in Hc.
  pose proof (biological_optimization_le_half (_extract_q_urgency lead)) as Hq.
  pose proof (biological_optimization_nonneg (_extract_q_urgency lead)) as Hq0.
  pose proof (scenario_rho id company p1 p2 p3) as Hrho. fold lead in Hrho.
  pose proof (scenario_f id company p1 p2 p3) as Hf. fold lead in Hf.
  split; [lra|]. split.
  - rewrite perceive_tier. apply determine_tier_warm; lra.
  - rewrite perceive_positive. unfold _detect_signals. cbv zeta.
    cbn [fst]. do 4 apply In_append_if_old.
    assert (E : Qle_bool 0.6 (_extract_rho_authority lead) = true)
      by (apply Qle_bool_iff; lra).
    rewrite E. apply In_append_if_new.
Qed.

(** The scenario with the pain points of the demonstration lead: the tier
    is not [hot]. *)
Lemma perceive_scenario_not_hot :
  ~ (qualification_tier (perceive (new_lens "enterprise_saas") scenario_example)
     = "hot" /\
     In "Decision-making authority"
        (positive_signals (perceive (new_lens "enterprise_saas")
                                    scenario_example))).
Proof.
  intros [H _]. vm_compute in H. discriminate H.
Qed.

(** The demonstration lead, which fills in a title, an industry, a company
    size and a use case as well, is [hot]. *)
Example demo_hot_lead_is_hot :
  qualification_tier (perceive (new_lens "enterprise_saas") demo_hot_lead)
  = "hot".
Proof. vm_compute. reflexivity. Qed.

End LensProps.

(* ================================================================== *)
(** ** Properties of the qualifier *)
(* ================================================================== *)

Module QualifierProps.
Import Py.
Import Lens.
Import Qualifier.
Import LensProps.

(** *** One qualification *)

Lemma perceive_tier_cases (self : RoseGlassCRMLens) (lead : LeadData) :
  let tier := qualification_tier (perceive self lead) in
  tier = "hot" \/ tier = "warm" \/ tier = "cold" \/ tier = "disqualified".
Proof.
  cbv zeta. rewrite perceive_tier. apply determine_tier_cases.
Qed.

Lemma update_stats_returns (st : Stats) (r : QualificationResult) :
  qr_qualification_tier r = "hot" \/ qr_qualification_tier r = "warm" \/
  qr_qualification_tier r = "cold" \/ qr_qualification_tier r = "disqualified" ->
  exists st', _update_stats st r = Returned st' tt.
Proof.
  unfold _update_stats.
  intros [H|[H|[H|H]]]; rewrite H; cbn; eexists; reflexivity.
Qed.

(** [qualify] returns, and what it returns is [qualification_of]. *)
Lemma qualify_returns (self : LeadQualifier) (lead : LeadData) :
  exists self', qualify self lead = Returned self' (qualification_of self lead).
Proof.
  unfold qualify.
  destruct (update_stats_returns (stats self) (qualification_of self lead))
    as [st' E].
  - apply perceive_tier_cases.
  - rewrite E. eexists; reflexivity.
Qed.

Lemma qualify_result (self self' : LeadQualifier) (lead : LeadData)
    (r : QualificationResult) :
  qualify self lead = Returned self' r -> r = qualification_of self lead.
Proof.
  destruct (qualify_returns self lead) as [s E]. rewrite E.
  intro H. injection H as _ <-. reflexivity.
Qed.

(** C7, as the code has it.  Every call of [qualify] returns a result
    whose routing stage is fixed by its tier: [hot] goes to
    [active_sales], [warm] to [nurture_warm], [cold] to [nurture_cold] and
    [disqualified] to [graveyard]; there is no other tier. *)
Theorem qualify_routing :
  forall (self : LeadQualifier) (lead : LeadData),
  exists self' r,
    qualify self lead = Returned self' r /\
    ((qr_qualification_tier r = "hot" /\ next_stage r = "active_sales") \/
     (qr_qualification_tier r = "warm" /\ next_stage r = "nurture_warm") \/
     (qr_qualification_tier r = "cold" /\ next_stage r = "nurture_cold") \/
     (qr_qualification_tier r = "disqualified" /\ next_stage r = "graveyard")).
Proof.
  intros self lead.
  destruct (qualify_returns self lead) as [self' E].
  exists self', (qualification_of self lead). split; [exact E|].
  unfold qualification_of. cbn [qr_qualification_tier next_stage].
  unfold _determine_routing. cbv zeta.
  destruct (perceive_tier_cases (lens self) lead) as [H|[H|[H|H]]];
    rewrite H; cbn; tauto.
Qed.

(** The hot lead of the demonstration is routed to [active_sales], not to
    [active], and the disqualified one to [graveyard], not to [archived]. *)
Lemma qualify_routing_names :
  (exists q' r, qualify demo_qualifier demo_hot_lead = Returned q' r /\
                qr_qualification_tier r = "hot" /\ next_stage r <> "active") /\
  (exists q' r, qualify demo_qualifier demo_disqualified_lead = Returned q' r /\
                qr_qualification_tier r = "disqualified" /\
                next_stage r <> "archived").
Proof.
  set (q := demo_qualifier). split.
  - destruct (qualify_returns q demo_hot_lead) as [q' E].
    exists q', (qualification_of q demo_hot_lead).
    split; [exact E|]. split; [vm_compute; reflexivity|].
    vm_compute. discriminate.
  - destruct (qualify_returns q demo_disqualified_lead) as [q' E].
    exists q', (qualification_of q demo_disqualified_lead).
    split; [exact E|]. split; [vm_compute; reflexivity|].
    vm_compute. discriminate.
Qed.

(** *** Priorities *)

Lemma boosts_range (self : LeadQualifier) (lead : LeadData) :
  let c := perceive (lens self) lead in
  0 <= q_urgency c * 0.2 + rho_authority c * 0.15 <= 0.35.
Proof.
  cbv zeta.
  destruct (perceive_dimensions (lens self) lead) as [-> ->].
  pose proof (rho_range lead).
  pose proof (biological_optimization_nonneg (_extract_q_urgency lead)).
  pose proof (biological_optimization_le_half (_extract_q_urgency lead)).
  lra.
Qed.

Lemma priority_hot (self : LeadQualifier) (lead : LeadData) :
  qr_qualification_tier (qualification_of self lead) = "hot" ->
  priority_score (qualification_of self lead) == 1.
Proof.
  unfold qualification_of. cbn [qr_qualification_tier priority_score].
  intro H. unfold _calculate_priority. cbv zeta. rewrite H.
  pose proof (boosts_range self lead) as B. cbv zeta in B.
  cbn [dict_get String.eqb Ascii.eqb Bool.eqb].
  rewrite Q.min_l by lra. reflexivity.
Qed.

Lemma priority_not_hot (self : LeadQualifier) (lead : LeadData) :
  qr_qualification_tier (qualification_of self lead) <> "hot" ->
  priority_score (qualification_of self lead) <= 0.95.
Proof.
  unfold qualification_of. cbn [qr_qualification_tier priority_score].
  intro H. unfold _calculate_priority. cbv zeta.
  pose proof (boosts_range self lead) as B. cbv zeta in B.
  eapply Qle_trans; [apply Q.le_min_r|].
  destruct (perceive_tier_cases (lens self) lead) as [T|[T|[T|T]]];
    [contradiction | | | ]; rewrite T;
    cbn [dict_get String.eqb Ascii.eqb Bool.eqb]; lra.
Qed.

(** *** Sorting *)

Lemma insert_by_priority_In (r x : QualificationResult)
    (l : list QualificationResult) :
  In x (insert_by_priority r l) <-> x = r \/ In x l.
Proof.
  induction l as [|y ys IH]; simpl.
  - intuition congruence.
  - destruct (Qltb (priority_score r) (priority_score y)); simpl.
    + rewrite IH. intuition congruence.
    + intuition congruence.
Qed.

Lemma sort_by_priority_In (x : QualificationResult)
    (l : list QualificationResult) :
  In x (sort_by_priority l) <-> In x l.
Proof.
  induction l as [|y ys IH]; simpl.
  - tauto.
  - rewrite insert_by_priority_In, IH. intuition congruence.
Qed.

Lemma priority_ge_trans (a b c : QualificationResult) :
  priority_ge a b -> priority_ge b c -> priority_ge a c.
Proof. unfold priority_ge. intros H1 H2. eapply Qle_trans; eassumption. Qed.

Lemma insert_by_priority_sorted (r : QualificationResult)
    (l : list QualificationResult) :
  StronglySorted priority_ge l ->
  StronglySorted priority_ge (insert_by_priority r l).
Proof.
  induction 1 as [|y ys Hs IH Hall]; simpl.
  - repeat constructor.
  - destruct (Qltb (priority_score r) (priority_score y)) eqn:E.
    + constructor; [exact IH|].
      apply Forall_forall. intros x Hx.
      apply insert_by_priority_In in Hx. destruct Hx as [->|Hx].
      * apply Qltb_true in E. unfold priority_ge. lra.
      * rewrite Forall_forall in Hall. apply Hall; assumption.
    + apply Qltb_false in E.
      constructor; [constructor; assumption|].
      constructor; [exact E|].
      apply Forall_forall. intros x Hx.
      rewrite Forall_forall in Hall.
      apply (priority_ge_trans r y x); [exact E | apply Hall; assumption].
Qed.

Lemma sort_by_priority_sorted (l : list QualificationResult) :
  StronglySorted priority_ge (sort_by_priority l).
Proof.
  induction l as [|y ys IH]; simpl.
  - constructor.
  - apply insert_by_priority_sorted. exact IH.
Qed.

Lemma sorted_nth (l : list QualificationResult) :
  StronglySorted priority_ge l ->
  forall (i j : nat) (a b : QualificationResult),
    (i < j)%nat -> nth_error l i = Some a -> nth_error l j = Some b ->
    priority_ge a b.
Proof.
  induction 1 as [|y ys Hs IH Hall]; intros i j a b Hij Ha Hb.
  - destruct i; discriminate.
  - destruct j as [|j]; [lia|].
    destruct i as [|i]; simpl in Ha, Hb.
    + injection Ha as <-. rewrite Forall_forall in Hall.
      apply Hall. eapply nth_error_In; eassumption.
    + apply (IH i j); [lia | assumption | assumption].
Qed.

(** In a list of non-increasing priority whose hot entries have priority 1
    and whose other entries have priority at most 0.95, the hot entries
    come first. *)
Lemma sorted_hot_first (l : list QualificationResult) :
  StronglySorted priority_ge l ->
  (forall r, In r l ->
     (qr_qualification_tier r = "hot" -> priority_score r == 1) /\
     (qr_qualification_tier r <> "hot" -> priority_score r <= 0.95)) ->
  hot_first l.
Proof.
  intros Hs Hp i j ri rj Hi Hj Hhot Hnot.
  destruct (Nat.lt_trichotomy i j) as [Hlt|[Heq|Hgt]]; [assumption| |].
  - subst j. rewrite Hi in Hj. injection Hj as <-. contradiction.
  - pose proof (sorted_nth l Hs j i rj ri Hgt Hj Hi) as Hge.
    unfold priority_ge in Hge.
    destruct (Hp ri (nth_error_In _ _ Hi)) as [H1 _].
    destruct (Hp rj (nth_error_In _ _ Hj)) as [_ H2].
    specialize (H1 Hhot). specialize (H2 Hnot). lra.
Qed.

(** Whatever the loop of [qualify_batch] collects was built by
    [qualification_of]. *)
Lemma qualify_each_results (leads : list LeadData) :
  forall (self : LeadQualifier) (r : QualificationResult),
    In r (snd (qualify_each self leads)) ->
    exists self0 lead, In lead leads /\ r = qualification_of self0 lead.
Proof.
  induction leads as [|lead rest IH]; intros self r; simpl.
  - tauto.
  - destruct (qualify_returns self lead) as [self' E]. rewrite E.
    destruct (qualify_each self' rest) as [self'' rs] eqn:Er. simpl.
    intros [<-|Hr].
    + exists self, lead. split; [left; reflexivity | reflexivity].
    + destruct (IH self' r) as (s0 & l0 & Hl & ->).
      * rewrite Er. exact Hr.
      * exists s0, l0. split; [right; assumption | reflexivity].
Qed.

(** C10.  A result of [qualify] of tier [hot] has priority exactly 1, a
    result of tier [warm], [cold] or [disqualified] has priority at most
    0.95; and in what [qualify_batch] returns every hot result stands
    before every result that is not hot. *)
Theorem hot_leads_first :
  (forall (self self' : LeadQualifier) (lead : LeadData)
          (r : QualificationResult),
     qualify self lead = Returned self' r ->
     (qr_qualification_tier r = "hot" -> priority_score r == 1) /\
     (qr_qualification_tier r = "warm" \/ qr_qualification_tier r = "cold" \/
      qr_qualification_tier r = "disqualified" -> priority_score r <= 0.95))
  /\
  (forall (self self' : LeadQualifier) (leads : list LeadData)
          (results : list QualificationResult),
     qualify_batch self leads = Returned self' results ->
     StronglySorted priority_ge results /\ hot_first results).
Proof.
  split.
  - intros self self' lead r E. apply qualify_result in E. subst r. split.
    + apply priority_hot.
    + intro H. apply priority_not_hot.
      intro Hhot. rewrite Hhot in H.
      destruct H as [H|[H|H]]; discriminate H.
  - intros self self' leads results E. unfold qualify_batch in E.
    destruct (qualify_each self leads) as [s rs] eqn:Eq.
    destruct leads as [|lead0 rest]; [discriminate|].
    injection E as _ E. subst results.
    split; [apply sort_by_priority_sorted|].
    apply sorted_hot_first; [apply sort_by_priority_sorted|].
    intros r Hr. rewrite sort_by_priority_In in Hr.
    destruct (qualify_each_results (lead0 :: rest) self r) as (s0 & l0 & _ & ->).
    { rewrite Eq. exact Hr. }
    split; [apply priority_hot | apply priority_not_hot].
Qed.

Lemma hot_leads_first_witness :
  exists q' results,
    qualify_batch demo_qualifier [demo_disqualified_lead; demo_hot_lead]
      = Returned q' results /\
    map qr_lead_id results = ["hot001"; "disq001"] /\
    hot_first results /\
    (exists q1 r, qualify demo_qualifier demo_hot_lead = Returned q1 r /\
                  priority_score r == 1).
Proof.
  set (q := demo_qualifier).
  remember (qualify_batch q [demo_disqualified_lead; demo_hot_lead]) as o eqn:E.
  assert (H : exists q' results,
             o = Returned q' results /\
             map qr_lead_id results = ["hot001"; "disq001"]).
  { subst o. vm_compute. eexists. eexists. split; reflexivity. }
  destruct H as (q' & results & Ho & Hm).
  exists q', results. rewrite Ho in E. symmetry in E.
  split; [exact Ho|]. split; [exact Hm|]. split.
  - exact (proj2 (proj2 hot_leads_first q q' _ results E)).
  - destruct (qualify_returns q demo_hot_lead) as [q1 E1].
    exists q1, (qualification_of q demo_hot_lead). split; [exact E1|].
    apply (proj1 hot_leads_first q q1 demo_hot_lead _ E1).
    vm_compute. reflexivity.
Defined.

End QualifierProps.

(* ================================================================== *)
(** ** Properties of the graveyard *)
(* ================================================================== *)

Module GraveyardProps.
Import Py.
Import Graveyard.
Import LensProps.

Lemma assess_severity_spec (issue : string) (o : Outcome) (s : string) :
  _assess_severity issue o = inr s -> s = spec_severity o.
Proof.
  unfold _assess_severity, spec_severity. cbv zeta.
  destruct (o_expected_value o) as [| |v]; cbn [get_default gt exceeds bind];
    try discriminate.
  - change (Qltb 50000 0) with false. cbn [orb].
    destruct (o_coherence_score o) as [| |c];
      cbn [get_default gt exceeds bind]; try discriminate.
    + change (Qltb 2.5 0) with false. change (Qltb 1.5 0) with false.
      intro H; injection H as <-; reflexivity.
    + destruct (Qltb 2.5 c); [intro H; injection H as <-; reflexivity|].
      destruct (Qltb 1.5 c); intro H; injection H as <-; reflexivity.
  - destruct (Qltb 50000 v); cbn [orb];
      [intro H; injection H as <-; reflexivity|].
    destruct (o_coherence_score o) as [| |c];
      cbn [get_default gt exceeds bind]; try discriminate.
    + change (Qltb 2.5 0) with false. change (Qltb 1.5 0) with false.
      intro H; injection H as <-; reflexivity.
    + destruct (Qltb 2.5 c); [intro H; injection H as <-; reflexivity|].
      destruct (Qltb 1.5 c); intro H; injection H as <-; reflexivity.
Qed.

Lemma issue_nutrients_spec (o : Outcome) (issues : list string) :
  forall ns : list Nutrient,
    issue_nutrients o issues = inr ns ->
    map lesson ns = issues /\
    Forall (fun n => severity n = spec_severity o) ns.
Proof.
  induction issues as [|issue rest IH]; intros ns; simpl.
  - intro H; injection H as <-. split; constructor.
  - destruct (_assess_severity issue o) as [e|s] eqn:Es; cbn [bind];
      [discriminate|].
    destruct (issue_nutrients o rest) as [e|ns'] eqn:En; cbn [bind];
      [discriminate|].
    intro H; injection H as <-.
    destruct (IH ns' eq_refl) as [Hm Hf]. split.
    + simpl. rewrite Hm. reflexivity.
    + constructor; [|exact Hf].
      simpl. apply (assess_severity_spec issue o s Es).
Qed.

(** The nutrients of the issues come first in what [_extract_nutrients]
    returns. *)
Lemma extract_nutrients_prefix (o : Outcome) (ns : list Nutrient) :
  _extract_nutrients o = inr ns ->
  exists l extra,
    issue_nutrients o (issues_of o) = inr l /\ ns = l ++ extra.
Proof.
  unfold _extract_nutrients. cbv zeta.
  destruct (issue_nutrients o (issues_of o)) as [e|l]; cbn [bind];
    [discriminate|].
  destruct (match o_learnings o with
            | Some l0 => lesson_learned l0
            | None => None
            end) as [lesson|]; [destruct (str_truthy lesson)|];
    destruct (format_coherence o); cbn [bind];
    repeat match goal with
           | |- context [if ?b then _ else _] => destruct b
           end;
    try discriminate;
    intro H; injection H as <-; exists l;
    first [ exists []; split; [reflexivity | symmetry; apply app_nil_r]
          | eexists; split; [reflexivity | rewrite <- ?app_assoc; reflexivity] ].
Qed.

(** C8.  When [bury_lead] returns, the nutrients it extracted from the
    outcome's "what went wrong" items (the first ones of the list, one per
    item, in order) all have the severity of the rule: [critical] when the
    expected deal value exceeds 50000 or the coherence at failure exceeds
    2.5, [moderate] when neither holds and the coherence exceeds 1.5,
    [minor] otherwise. *)
Theorem bury_lead_issue_severity :
  forall (self self' : GraveyardManager) (o : Outcome) (ns : list Nutrient),
    bury_lead self o = Returned self' ns ->
    let from_issues := firstn (length (issues_of o)) ns in
    map lesson from_issues = issues_of o /\
    Forall (fun n => severity n = spec_severity o) from_issues.
Proof.
  intros self self' o ns E from_issues. subst from_issues.
  unfold bury_lead in E.
  destruct (_extract_nutrients o) as [e|ns0] eqn:En; [discriminate|].
  injection E as _ <-.
  destruct (extract_nutrients_prefix o ns0 En) as (l & extra & El & ->).
  destruct (issue_nutrients_spec o (issues_of o) l El) as [Hm Hf].
  assert (Hlen : length (issues_of o) = length l).
  { rewrite <- Hm. apply length_map. }
  rewrite Hlen, firstn_app, firstn_all, Nat.sub_diag. simpl.
  rewrite app_nil_r. split; assumption.
Qed.

Lemma bury_lead_issue_severity_witness :
  exists self' ns,
    bury_lead new_graveyard demo_outcome = Returned self' ns /\
    map severity (firstn 2 ns) = ["critical"; "critical"] /\
    spec_severity demo_outcome = "critical".
Proof.
  remember (bury_lead new_graveyard demo_outcome) as r eqn:E.
  assert (H : exists self' ns, r = Returned self' ns).
  { subst r. vm_compute. eexists. eexists. reflexivity. }
  destruct H as (self' & ns & Hr).
  exists self', ns. rewrite Hr in E. symmetry in E.
  split; [exact Hr|].
  destruct (bury_lead_issue_severity new_graveyard self' demo_outcome ns E)
    as [Hm Hf].
  change (length (issues_of demo_outcome)) with 2%nat in Hm, Hf.
  assert (Hs : spec_severity demo_outcome = "critical")
    by (vm_compute; reflexivity).
  split; [|exact Hs].
  rewrite Hs in Hf.
  destruct (firstn 2 ns) as [|n1 [|n2 [|n3 rest]]]; try discriminate Hm.
  inversion Hf as [|? ? H1 Hf']. inversion Hf' as [|? ? H2 _].
  simpl. rewrite H1, H2. reflexivity.
Defined.

(** Numbers in both slots are enough for [bury_lead] to return. *)
Lemma bury_lead_returns (self : GraveyardManager) (o : Outcome) :
  o_expected_value o <> Null -> o_coherence_score o <> Null ->
  exists self' ns, bury_lead self o = Returned self' ns.
Proof.
  intros He Hc.
  assert (Hs : forall issue, exists s, _assess_severity issue o = inr s).
  { intro issue. unfold _assess_severity. cbv zeta.
    destruct (o_expected_value o) as [| |v]; [|contradiction|];
      destruct (o_coherence_score o) as [| |c]; try contradiction;
      cbn [get_default gt bind];
      repeat match goal with
             | |- context [if ?b then _ else _] => destruct b
             end; eexists; reflexivity. }
  assert (Hi : forall issues, exists l, issue_nutrients o issues = inr l).
  { induction issues as [|i rest [l IH]]; simpl.
    - eexists; reflexivity.
    - destruct (Hs i) as [s ->]. rewrite IH. cbn [bind].
      eexists; reflexivity. }
  unfold bury_lead, _extract_nutrients. cbv zeta.
  destruct (Hi (issues_of o)) as [l ->]. cbn [bind].
  assert (Hf : exists c, format_coherence o = inr c).
  { unfold format_coherence.
    destruct (o_coherence_score o); [| contradiction |];
      cbn [get_default]; eexists; reflexivity. }
  destruct Hf as [c ->]. cbn [bind].
  repeat match goal with
         | |- context [if ?b then _ else _] => destruct b
         end; eexists; eexists; reflexivity.
Qed.

End GraveyardProps.

(* ================================================================== *)
(** ** Properties of the trial engine *)
(* ================================================================== *)

Module TrialProps.
Import Py.
Import Trial.
Import LensProps.

(** *** Division *)

Lemma div_defined (a b : Q) : ~ b == 0 -> div a b = inr (a / b).
Proof.
  intro H. unfold div. destruct (Qeq_bool b 0) eqn:E; [|reflexivity].
  apply Qeq_bool_iff in E. contradiction.
Qed.

Lemma div_returned (a b x : Q) : div a b = inr x -> ~ b == 0 /\ x = a / b.
Proof.
  unfold div. destruct (Qeq_bool b 0) eqn:E; [discriminate|].
  intro H; injection H as <-. split; [|reflexivity].
  intro Hb. apply Qeq_bool_iff in Hb. congruence.
Qed.

Lemma inject_Z_nonzero (z : Z) : z <> 0%Z -> ~ inject_Z z == 0.
Proof.
  intros Hz H. apply Hz. unfold Qeq in H. simpl in H. lia.
Qed.

Lemma inject_Z_pos (z : Z) : (0 < z)%Z -> 0 < inject_Z z.
Proof. intro H. change 0 with (inject_Z 0). rewrite <- Zlt_Qlt. exact H. Qed.

Lemma inject_Z_nonneg (z : Z) : (0 <= z)%Z -> 0 <= inject_Z z.
Proof. intro H. change 0 with (inject_Z 0). rewrite <- Zle_Qle. exact H. Qed.

(** A quotient of a part by the whole is in [0, 1]. *)
Lemma fraction_range (part whole : Z) :
  (0 <= part <= whole)%Z -> (0 < whole)%Z ->
  0 <= inject_Z part / inject_Z whole <= 1.
Proof.
  intros [H0 H1] Hw. pose proof (inject_Z_pos whole Hw) as Hq. split.
  - apply Qle_shift_div_l; [exact Hq|].
    rewrite Qmult_0_l. apply inject_Z_nonneg; exact H0.
  - apply Qle_shift_div_r; [exact Hq|].
    rewrite Qmult_1_l. rewrite <- Zle_Qle. exact H1.
Qed.

(** *** Derived properties of a branch *)

Lemma qualification_rate_total (b : TrialBranch) :
  exists x, qualification_rate b = inr x /\
            (leads_qualified b = 0%Z -> x == 0).
Proof.
  unfold qualification_rate. cbv zeta.
  destruct (leads_qualified b =? 0)%Z eqn:E.
  - exists 0. split; [reflexivity | reflexivity].
  - apply Z.eqb_neq in E. rewrite div_defined by (apply inject_Z_nonzero, E).
    eexists. split; [reflexivity | contradiction].
Qed.

Lemma conversion_rate_total (b : TrialBranch) :
  exists x, conversion_rate b = inr x /\
            ((outcomes_won b + outcomes_lost b = 0)%Z -> x == 0).
Proof.
  unfold conversion_rate. cbv zeta.
  destruct (outcomes_won b + outcomes_lost b =? 0)%Z eqn:E.
  - exists 0. split; reflexivity.
  - apply Z.eqb_neq in E. rewrite div_defined by (apply inject_Z_nonzero, E).
    eexists. split; [reflexivity | contradiction].
Qed.

Lemma avg_deal_value_total (b : TrialBranch) :
  exists x, avg_deal_value b = inr x /\ (outcomes_won b = 0%Z -> x == 0).
Proof.
  unfold avg_deal_value.
  destruct (outcomes_won b =? 0)%Z eqn:E.
  - exists 0. split; reflexivity.
  - apply Z.eqb_neq in E. rewrite div_defined by (apply inject_Z_nonzero, E).
    eexists. split; [reflexivity | contradiction].
Qed.

Lemma roi_total (b : TrialBranch) :
  exists x, roi b = inr x /\ (total_cost b == 0 -> x == 0).
Proof.
  unfold roi.
  destruct (Qeq_bool (total_cost b) 0) eqn:E.
  - exists 0. split; reflexivity.
  - assert (H : ~ total_cost b == 0).
    { intro H. apply Qeq_bool_iff in H. congruence. }
    rewrite div_defined by exact H.
    eexists. split; [reflexivity | contradiction].
Qed.

Lemma fitness_score_total (b : TrialBranch) :
  exists x, fitness_score b = inr x.
Proof.
  unfold fitness_score.
  destruct (avg_deal_value_total b) as (adv & -> & _).
  destruct (qualification_rate_total b) as (qr & -> & _).
  destruct (conversion_rate_total b) as (cr & -> & _).
  cbn [bind]. eexists; reflexivity.
Qed.

Lemma qualification_rate_range (b : TrialBranch) (x : Q) :
  branch_consistent b -> qualification_rate b = inr x -> 0 <= x <= 1.
Proof.
  intros (Hh & Hw & Hc & Hd & _ & _ & Hsum & _) E.
  unfold qualification_rate in E. cbv zeta in E.
  destruct (leads_qualified b =? 0)%Z eqn:Ez.
  - injection E as <-. lra.
  - apply Z.eqb_neq in Ez. apply div_returned in E. destruct E as [_ ->].
    apply fraction_range; lia.
Qed.

Lemma conversion_rate_range (b : TrialBranch) (x : Q) :
  branch_consistent b -> conversion_rate b = inr x -> 0 <= x <= 1.
Proof.
  intros (_ & _ & _ & _ & Hwon & Hlost & _) E.
  unfold conversion_rate in E. cbv zeta in E.
  destruct (outcomes_won b + outcomes_lost b =? 0)%Z eqn:Ez.
  - injection E as <-. lra.
  - apply Z.eqb_neq in Ez. apply div_returned in E. destruct E as [_ ->].
    apply fraction_range; lia.
Qed.

Lemma avg_deal_value_nonneg (b : TrialBranch) (x : Q) :
  branch_consistent b -> avg_deal_value b = inr x -> 0 <= x.
Proof.
  intros (_ & _ & _ & _ & Hwon & _ & _ & Hrev & _) E.
  unfold avg_deal_value in E.
  destruct (outcomes_won b =? 0)%Z eqn:Ez.
  - injection E as <-. lra.
  - apply Z.eqb_neq in Ez. apply div_returned in E. destruct E as [_ ->].
    apply Qle_shift_div_l; [apply inject_Z_pos; lia|].
    rewrite Qmult_0_l. exact Hrev.
Qed.

Lemma fitness_score_range (b : TrialBranch) (x : Q) :
  branch_consistent b -> fitness_score b = inr x -> 0 <= x <= 1.
Proof.
  intros Hb E. unfold fitness_score in E.
  destruct (avg_deal_value b) as [e|adv] eqn:Ea; cbn [bind] in E;
    [discriminate|].
  destruct (qualification_rate b) as [e|qr] eqn:Eq; cbn [bind] in E;
    [discriminate|].
  destruct (conversion_rate b) as [e|cr] eqn:Ec; cbn [bind] in E;
    [discriminate|].
  injection E as <-.
  pose proof (qualification_rate_range b qr Hb Eq) as Hq.
  pose proof (conversion_rate_range b cr Hb Ec) as Hc.
  pose proof (avg_deal_value_nonneg b adv Hb Ea) as Ha.
  assert (Hr : 0 <= Qmin (adv / 100000) 1 <= 1).
  { apply Qmin_unit_range. apply Qle_shift_div_l; lra. }
  lra.
Qed.

(** C9.  The five derived properties of a branch never raise (each one
    answers 0 where its denominator is 0), and on a branch whose counters
    are counts, whose tier counts add up to [leads_qualified] and whose
    revenue and cost are not negative, the fitness score lies in [0, 1]. *)
Theorem branch_properties_total :
  forall b : TrialBranch,
    (exists qr cr adv r fs,
       qualification_rate b = inr qr /\
       conversion_rate b = inr cr /\
       avg_deal_value b = inr adv /\
       roi b = inr r /\
       fitness_score b = inr fs /\
       (leads_qualified b = 0%Z -> qr == 0) /\
       ((outcomes_won b + outcomes_lost b = 0)%Z -> cr == 0) /\
       (outcomes_won b = 0%Z -> adv == 0) /\
       (total_cost b == 0 -> r == 0)) /\
    (branch_consistent b ->
     exists fs, fitness_score b = inr fs /\ 0 <= fs <= 1).
Proof.
  intro b. split.
  - destruct (qualification_rate_total b) as (qr & Eq & Hq).
    destruct (conversion_rate_total b) as (cr & Ec & Hc).
    destruct (avg_deal_value_total b) as (adv & Ea & Ha).
    destruct (roi_total b) as (r & Er & Hr).
    destruct (fitness_score_total b) as (fs & Ef).
    exists qr, cr, adv, r, fs. tauto.
  - intro Hb. destruct (fitness_score_total b) as (fs & Ef).
    exists fs. split; [exact Ef|].
    apply (fitness_score_range b fs Hb Ef).
Qed.

Lemma branch_properties_total_witness :
  exists fs,
    fitness_score (mkTrialBranch "classic" "Current standard approach"
                     default_standard 60 10 20 18 12 9 21 450000 150000)
      = inr fs /\ 0 <= fs <= 1.
Proof.
  apply (proj2 (branch_properties_total _)).
  unfold branch_consistent; simpl. repeat split; try lia; try lra.
Defined.

(** *** The evaluation gate *)

Lemma is_ready_iff (t : Trial) :
  is_ready_for_evaluation t = true <->
  (min_sample_size t <= leads_qualified (classic_branch t))%Z /\
  (min_sample_size t <= leads_qualified (experimental_branch t))%Z.
Proof.
  unfold is_ready_for_evaluation.
  rewrite andb_true_iff, !Z.leb_le. reflexivity.
Qed.

(** C5.  [is_ready_for_evaluation] holds exactly when both branches have
    at least [min_sample_size] qualified leads; on a trial that is not
    ready [evaluate_trial] returns no result and leaves the whole manager,
    and with it the trial's winner and confidence, as it was. *)
Theorem evaluation_gate :
  (forall t : Trial,
     is_ready_for_evaluation t = true <->
     (leads_qualified (classic_branch t) >= min_sample_size t)%Z /\
     (leads_qualified (experimental_branch t) >= min_sample_size t)%Z) /\
  (forall (self : TrialManager) (id : string) (t : Trial),
     _get_trial self id = Some t ->
     is_ready_for_evaluation t = false ->
     evaluate_trial self id = Returned self None /\
     _get_trial (state_of (evaluate_trial self id)) id = Some t).
Proof.
  split.
  - intro t. rewrite is_ready_iff. lia.
  - intros self id t Ht Hr. unfold evaluate_trial.
    rewrite Ht, Hr. cbn. split; [reflexivity | exact Ht].
Qed.

Lemma evaluation_gate_witness :
  exists t,
    _get_trial manager_created demo_id = Some t /\
    winner t = None /\ confidence t = None /\
    evaluate_trial manager_created demo_id
      = Returned manager_created None /\
    _get_trial (state_of (evaluate_trial manager_created demo_id)) demo_id = Some t.
Proof.
  set (self := manager_created).
  destruct (_get_trial self demo_id) as [t|] eqn:E;
    [|vm_compute in E; discriminate E].
  exists t.
  assert (Hw : winner t = None /\ confidence t = None /\
               is_ready_for_evaluation t = false).
  { vm_compute in E. injection E as <-. vm_compute. repeat split. }
  destruct Hw as (Hw & Hc & Hr).
  split; [reflexivity|]. split; [exact Hw|]. split; [exact Hc|].
  exact (proj2 evaluation_gate self demo_id t E Hr).
Defined.

(** *** Confidence *)

Lemma calculate_confidence_spec (t : Trial) (c cf ef : Q) :
  fitness_score (classic_branch t) = inr cf ->
  fitness_score (experimental_branch t) = inr ef ->
  _calculate_confidence t = inr c ->
  c = spec_confidence (leads_qualified (classic_branch t))
        (leads_qualified (experimental_branch t)) (min_sample_size t) cf ef.
Proof.
  intros Ec Ee. unfold _calculate_confidence. cbv zeta.
  rewrite Ec, Ee.
  destruct (div _ _) as [e|s] eqn:Ed; cbv beta iota delta [bind];
    [discriminate|].
  apply div_returned in Ed. destruct Ed as [_ ->].
  intro H; injection H as <-.
  unfold spec_confidence. rewrite (Z.mul_comm 4). reflexivity.
Qed.

Lemma verdict_spec (id : string) (t : Trial) (r : TrialResult) :
  verdict id t = inr r ->
  fitness_score (classic_branch t) = inr (classic_fitness r) /\
  fitness_score (experimental_branch t) = inr (experimental_fitness r) /\
  (((r_winner r = "experimental" \/ r_winner r = "classic") /\
    r_confidence r ==
    spec_confidence (leads_qualified (classic_branch t))
      (leads_qualified (experimental_branch t)) (min_sample_size t)
      (classic_fitness r) (experimental_fitness r)) \/
   (r_winner r = "inconclusive" /\ r_confidence r == 0)).
Proof.
  unfold verdict.
  destruct (fitness_score (classic_branch t)) as [e|cf] eqn:Ec; cbn [bind];
    [discriminate|].
  destruct (fitness_score (experimental_branch t)) as [e|ef] eqn:Ee;
    cbn [bind]; [discriminate|].
  destruct (Qltb (cf * 1.05) ef).
  { destruct (div (ef - cf) cf) as [e|d]; cbn [bind]; [discriminate|].
    destruct (_calculate_confidence t) as [e|c] eqn:Econf; cbn [bind];
      [discriminate|].
    intro H; injection H as <-. cbn.
    split; [reflexivity|]. split; [reflexivity|]. left.
    split; [left; reflexivity|].
    rewrite (calculate_confidence_spec t c cf ef Ec Ee Econf). reflexivity. }
  destruct (Qltb (ef * 1.05) cf).
  { destruct (div (cf - ef) ef) as [e|d]; cbn [bind]; [discriminate|].
    destruct (_calculate_confidence t) as [e|c] eqn:Econf; cbn [bind];
      [discriminate|].
    intro H; injection H as <-. cbn.
    split; [reflexivity|]. split; [reflexivity|]. left.
    split; [right; reflexivity|].
    rewrite (calculate_confidence_spec t c cf ef Ec Ee Econf). reflexivity. }
  intro H; injection H as <-. cbn.
  split; [reflexivity|]. split; [reflexivity|]. right.
  split; reflexivity.
Qed.

Lemma evaluate_trial_result (self self' : TrialManager) (id : string)
    (r : TrialResult) :
  evaluate_trial self id = Returned self' (Some r) ->
  exists t,
    _get_trial self id = Some t /\ is_ready_for_evaluation t = true /\
    verdict id t = inr r /\
    self' = _save_result
              (_save_trial
                 (store_trial self id
                    (set_result t (r_winner r) (r_confidence r)))
                 (set_result t (r_winner r) (r_confidence r))) r.
Proof.
  unfold evaluate_trial.
  destruct (_get_trial self id) as [t|]; [|discriminate].
  destruct (is_ready_for_evaluation t) eqn:Er; cbn [negb]; [|discriminate].
  destruct (verdict id t) as [e|r0] eqn:Ev; [discriminate|].
  intro H. injection H as <- <-. exists t.
  split; [reflexivity|]. split; [exact Er|]. split; [exact Ev | reflexivity].
Qed.

(** C6, as the code has it.  An evaluation that produces a result with
    winner [classic] or [experimental] gives it the confidence of the
    heuristic, the average of the capped sample ratio and the capped
    fitness gap; a result with winner [inconclusive] has confidence 0. *)
Theorem evaluate_trial_confidence :
  forall (self self' : TrialManager) (id : string) (r : TrialResult),
    evaluate_trial self id = Returned self' (Some r) ->
    exists t,
      _get_trial self id = Some t /\
      fitness_score (classic_branch t) = inr (classic_fitness r) /\
      fitness_score (experimental_branch t) = inr (experimental_fitness r) /\
      (((r_winner r = "experimental" \/ r_winner r = "classic") /\
        r_confidence r ==
        spec_confidence (leads_qualified (classic_branch t))
          (leads_qualified (experimental_branch t)) (min_sample_size t)
          (classic_fitness r) (experimental_fitness r)) \/
       (r_winner r = "inconclusive" /\ r_confidence r == 0)).
Proof.
  intros self self' id r E.
  destruct (evaluate_trial_result self self' id r E) as (t & Ht & _ & Hv & _).
  exists t. split; [exact Ht|]. apply (verdict_spec id t r Hv).
Qed.

Lemma evaluate_trial_confidence_witness :
  exists self' r,
    evaluate_trial manager_experimental_ahead demo_id
      = Returned self' (Some r) /\
    r_winner r = "experimental" /\
    r_confidence r == spec_confidence 1 1 1 0.3 1.
Proof.
  set (self := manager_experimental_ahead).
  remember (evaluate_trial self demo_id) as o eqn:E.
  assert (H : exists self' r, o = Returned self' (Some r) /\
                              r_winner r = "experimental" /\
                              classic_fitness r == 0.3 /\
                              experimental_fitness r == 1).
  { subst o. vm_compute. eexists. eexists. repeat split; reflexivity. }
  destruct H as (self' & r & Ho & Hw & Hcf & Hef).
  exists self', r. split; [exact Ho|]. split; [exact Hw|].
  rewrite Ho in E. symmetry in E.
  destruct (evaluate_trial_confidence self self' demo_id r E)
    as (t & Ht & _ & _ & [[_ Hc] | [Hi _]]).
  - assert (Hn : leads_qualified (classic_branch t) = 1%Z /\
                 leads_qualified (experimental_branch t) = 1%Z /\
                 min_sample_size t = 1%Z).
    { vm_compute in Ht. injection Ht as <-. vm_compute. repeat split. }
    destruct Hn as (H1 & H2 & H3). rewrite H1, H2, H3 in Hc.
    rewrite Hc. unfold spec_confidence. rewrite Hcf, Hef. reflexivity.
  - rewrite Hw in Hi. discriminate Hi.
Defined.

(** A tie at full sample size: the result is [inconclusive] with
    confidence 0, where the heuristic gives one quarter. *)
Lemma inconclusive_confidence_is_zero :
  exists self' r,
    evaluate_trial manager_tie demo_id = Returned self' (Some r) /\
    r_winner r = "inconclusive" /\
    r_confidence r == 0 /\
    spec_confidence 1 1 1 (classic_fitness r) (experimental_fitness r) == 0.25 /\
    ~ r_confidence r ==
      spec_confidence 1 1 1 (classic_fitness r) (experimental_fitness r).
Proof.
  vm_compute. eexists. eexists.
  split; [reflexivity|]. cbn.
  split; [reflexivity|]. split; [reflexivity|]. split; [reflexivity|].
  discriminate.
Qed.

(** *** Trials held by a manager *)

Lemma find_trial_Some (ts : list Trial) (id : string) (t : Trial) :
  find_trial ts id = Some t -> trial_id t = id /\ In t ts.
Proof.
  induction ts as [|t0 rest IH]; simpl; [discriminate|].
  destruct (String.eqb (trial_id t0) id) eqn:E.
  - intro H; injection H as <-. apply String.eqb_eq in E. auto.
  - intro H. destruct (IH H). auto.
Qed.

Lemma replace_trial_In (ts : list Trial) (id : string) (t' x : Trial) :
  In x (replace_trial ts id t') -> In x ts \/ x = t'.
Proof.
  induction ts as [|t0 rest IH]; simpl; [tauto|].
  destruct (String.eqb (trial_id t0) id); simpl.
  - intros [<-|H]; auto.
  - intros [<-|H]; auto. destruct (IH H); auto.
Qed.

Lemma on_nth_In (ts : list Trial) (i : nat) (f : Trial -> Trial) (x : Trial) :
  In x (on_nth ts i f) -> In x ts \/ exists t0, In t0 ts /\ x = f t0.
Proof.
  revert i. induction ts as [|t0 rest IH]; intros i; simpl.
  - destruct i; simpl; tauto.
  - destruct i as [|i]; simpl.
    + intros [<-|H]; [right; exists t0; auto | auto].
    + intros [<-|H]; [auto|].
      destruct (IH i H) as [H'|(t1 & H1 & ->)]; [auto|].
      right; exists t1; auto.
Qed.

Lemma on_branch_verdict (t : Trial) (branch : string)
    (f : TrialBranch -> TrialBranch) :
  trial_id (on_branch t branch f) = trial_id t /\
  winner (on_branch t branch f) = winner t.
Proof.
  unfold on_branch. destruct (is_classic branch); split; reflexivity.
Qed.

(** What a call can do to the verdict stored in a trial: keep it, create a
    trial without one, or store the winner of an evaluation that returned
    a result. *)
Lemma step_verdicts (self : TrialManager) (c : call) (t : Trial) :
  In t (trials (step self c)) ->
  (exists t0, In t0 (trials self) /\
              trial_id t = trial_id t0 /\ winner t = winner t0) \/
  winner t = None \/
  (exists id self' r,
      c = EvaluateTrial id /\
      evaluate_trial self id = Returned self' (Some r) /\
      trial_id t = id /\ winner t = Some (r_winner r)).
Proof.
  assert (Hkeep : forall x, In x (trials self) ->
            exists t0, In t0 (trials self) /\
                       trial_id x = trial_id t0 /\ winner x = winner t0).
  { intros x Hx. exists x. auto. }
  destruct c as [now nm descr cfg split n | i | i | i | id br tier
                | id br ty v cost | id | id | id]; cbn [step].
  - (* create_trial *)
    unfold create_trial. cbn. intro H. apply in_app_or in H.
    destruct H as [H|[<-|[]]]; [left; auto | right; left; reflexivity].
  - (* start *)
    cbn. intro H. apply on_nth_In in H.
    destruct H as [H|(t0 & H0 & ->)]; [left; auto|].
    left. exists t0. auto.
  - (* pause *)
    cbn. intro H. apply on_nth_In in H.
    destruct H as [H|(t0 & H0 & ->)]; [left; auto|].
    left. exists t0. auto.
  - (* resume *)
    cbn. intro H. apply on_nth_In in H.
    destruct H as [H|(t0 & H0 & ->)]; [left; auto|].
    left. exists t0. auto.
  - (* record_qualification *)
    unfold record_qualification.
    destruct (_get_trial self id) as [t0|] eqn:E; [|left; auto].
    cbn. intro H. apply replace_trial_In in H.
    destruct H as [H| ->]; [left; auto|].
    left. exists t0. destruct (find_trial_Some _ _ _ E) as [_ Hin].
    destruct (on_branch_verdict t0 br (count_qualification tier)). auto.
  - (* record_outcome *)
    unfold record_outcome.
    destruct (_get_trial self id) as [t0|] eqn:E; [|left; auto].
    cbn. intro H. apply replace_trial_In in H.
    destruct H as [H| ->]; [left; auto|].
    left. exists t0. destruct (find_trial_Some _ _ _ E) as [_ Hin].
    destruct (on_branch_verdict t0 br (count_outcome ty v cost)). auto.
  - (* evaluate_trial *)
    destruct (evaluate_trial self id) as [self' [r|] | self' e] eqn:E.
    + destruct (evaluate_trial_result self self' id r E)
        as (t0 & Ht0 & _ & _ & ->).
      cbn. intro H. apply replace_trial_In in H.
      destruct H as [H| ->]; [left; auto|].
      right; right. exists id. eexists. exists r. split; [reflexivity|].
      split; [exact E|].
      destruct (find_trial_Some _ _ _ Ht0) as [Hid _]. auto.
    + assert (self' = self).
      { unfold evaluate_trial in E.
        destruct (_get_trial self id) as [t0|]; [|congruence].
        destruct (negb (is_ready_for_evaluation t0)); [congruence|].
        destruct (verdict id t0); congruence. }
      subst self'. cbn. left; auto.
    + assert (self' = self).
      { unfold evaluate_trial in E.
        destruct (_get_trial self id) as [t0|]; [|congruence].
        destruct (negb (is_ready_for_evaluation t0)); [congruence|].
        destruct (verdict id t0); congruence. }
      subst self'. cbn. left; auto.
  - (* promote_experimental *)
    unfold promote_experimental.
    destruct (_get_trial self id) as [t0|] eqn:E; [|left; auto].
    destruct (negb (winner_is t0 "experimental")); [left; auto|].
    destruct (find_trial_Some _ _ _ E) as [_ Hin].
    assert (Hp : In t (replace_trial (trials self) id (set_status t0 PROMOTED))
                 -> exists t1, In t1 (trials self) /\
                               trial_id t = trial_id t1 /\
                               winner t = winner t1).
    { intro H. apply replace_trial_In in H.
      destruct H as [H| ->]; [auto|]. exists t0. auto. }
    cbn. destruct (confidence t0); cbn; intro H; left; apply Hp, H.
  - (* archive_trial *)
    unfold archive_trial.
    destruct (_get_trial self id) as [t0|] eqn:E; [|left; auto].
    destruct (find_trial_Some _ _ _ E) as [_ Hin].
    cbn. intro H. apply replace_trial_In in H.
    destruct H as [H| ->]; [left; auto|].
    left. exists t0. auto.
Qed.

Lemma run_snoc (self : TrialManager) (calls : list call) (c : call) :
  run self (calls ++ [c]) = step (run self calls) c.
Proof. unfold run. rewrite fold_left_app. reflexivity. Qed.

Lemma evaluated_with_snoc (self0 : TrialManager) (calls : list call)
    (c : call) (id w : string) :
  evaluated_with self0 calls id w ->
  evaluated_with self0 (calls ++ [c]) id w.
Proof.
  intros (before & after & self' & r & -> & E & Hw).
  exists before, (after ++ [c]), self', r.
  split; [|auto]. rewrite <- app_assoc. reflexivity.
Qed.

(** A winner stored in a trial of a manager was put there by an evaluation
    of that trial. *)
Lemma winner_recorded (standard : option json) (calls : list call) :
  forall (t : Trial) (w : string),
    In t (trials (run (new_manager standard) calls)) ->
    winner t = Some w ->
    evaluated_with (new_manager standard) calls (trial_id t) w.
Proof.
  induction calls as [|c calls IH] using rev_ind; intros t w Hin Hw.
  - destruct Hin.
  - rewrite run_snoc in Hin.
    destruct (step_verdicts _ _ _ Hin)
      as [(t0 & H0 & Hid & Hw0) | [Hnone | (id & self' & r & -> & E & Hid & Hr)]].
    + apply evaluated_with_snoc. rewrite Hid. apply IH; [exact H0|].
      rewrite <- Hw0. exact Hw.
    + congruence.
    + exists calls, [], self', r.
      rewrite Hid. split; [reflexivity|]. split; [exact E|].
      congruence.
Qed.

(** C4.  A promotion asked for a trial whose recorded winner is not
    [experimental] returns with the manager exactly as it was (trials and
    their status, standard configuration, history, files); and from a new
    manager, a promotion changes something only if an earlier
    [evaluate_trial] of that trial returned a result with winner
    [experimental]. *)
Theorem promote_experimental_guard :
  (forall (self : TrialManager) (id : string) (t : Trial),
     _get_trial self id = Some t ->
     winner t <> Some "experimental" ->
     promote_experimental self id = Returned self tt) /\
  (forall (standard : option json) (calls : list call) (id : string),
     let self := run (new_manager standard) calls in
     state_of (promote_experimental self id) <> self ->
     evaluated_with (new_manager standard) calls id "experimental").
Proof.
  split.
  - intros self id t Ht Hw. unfold promote_experimental. rewrite Ht.
    assert (E : winner_is t "experimental" = false).
    { unfold winner_is. destruct (winner t) as [x|]; [|reflexivity].
      destruct (String.eqb x "experimental") eqn:Ex; [|reflexivity].
      apply String.eqb_eq in Ex. congruence. }
    rewrite E. reflexivity.
  - intros standard calls id self Hchange.
    unfold promote_experimental in Hchange.
    destruct (_get_trial self id) as [t|] eqn:Ht;
      [|exfalso; apply Hchange; reflexivity].
    destruct (winner_is t "experimental") eqn:Ew;
      [|exfalso; apply Hchange; reflexivity].
    destruct (find_trial_Some _ _ _ Ht) as [Hid Hin].
    unfold winner_is in Ew. destruct (winner t) as [x|] eqn:Ex;
      [|discriminate].
    apply String.eqb_eq in Ew. subst x.
    rewrite <- Hid. apply (winner_recorded standard calls t); assumption.
Qed.

Lemma promote_experimental_guard_witness :
  promote_experimental manager_tie_evaluated demo_id
    = Returned manager_tie_evaluated tt /\
  evaluated_with (new_manager None)
    (demo_experimental_ahead ++ [EvaluateTrial demo_id])
    demo_id "experimental".
Proof.
  destruct promote_experimental_guard as [Hreject Honly]. split.
  - set (self := manager_tie_evaluated).
    destruct (_get_trial self demo_id) as [t|] eqn:E;
      [|vm_compute in E; discriminate E].
    apply (Hreject self demo_id t E).
    vm_compute in E. injection E as <-. vm_compute. discriminate.
  - apply (Honly None (demo_experimental_ahead ++ [EvaluateTrial demo_id])
                 demo_id).
    vm_compute. intro H. discriminate H.
Defined.

(** *** Counters of the branches of a manager *)

Lemma count_qualification_nonneg (tier : string) (b : TrialBranch) :
  counts_nonneg b -> counts_nonneg (count_qualification tier b).
Proof.
  unfold counts_nonneg, count_qualification. cbv zeta.
  intros (H1 & H2 & H3 & H4 & H5 & H6 & H7).
  repeat match goal with
         | |- context [if ?c then _ else _] => destruct c
         end; cbn; repeat split; lia.
Qed.

Lemma count_outcome_nonneg (ty : string) (v cost : Q) (b : TrialBranch) :
  counts_nonneg b -> counts_nonneg (count_outcome ty v cost b).
Proof.
  unfold counts_nonneg, count_outcome.
  intros (H1 & H2 & H3 & H4 & H5 & H6 & H7).
  destruct (String.eqb ty "won"); cbn; repeat split; lia.
Qed.

Lemma on_branch_nonneg (t : Trial) (branch : string)
    (f : TrialBranch -> TrialBranch) :
  (forall b, counts_nonneg b -> counts_nonneg (f b)) ->
  counts_nonneg (classic_branch t) /\ counts_nonneg (experimental_branch t) ->
  counts_nonneg (classic_branch (on_branch t branch f)) /\
  counts_nonneg (experimental_branch (on_branch t branch f)).
Proof.
  intros Hf [Hc He]. unfold on_branch.
  destruct (is_classic branch); cbn; auto.
Qed.

Lemma step_counts (self : TrialManager) (c : call) :
  (forall t, In t (trials self) ->
     counts_nonneg (classic_branch t) /\
     counts_nonneg (experimental_branch t)) ->
  forall t, In t (trials (step self c)) ->
    counts_nonneg (classic_branch t) /\ counts_nonneg (experimental_branch t).
Proof.
  intros Hinv t.
  destruct c as [now nm descr cfg split n | i | i | i | id br tier
                | id br ty v cost | id | id | id]; cbn [step].
  - unfold create_trial. cbn. intro H. apply in_app_or in H.
    destruct H as [H|[<-|[]]]; [auto|].
    cbn. unfold counts_nonneg. cbn. repeat split; lia.
  - cbn. intro H. apply on_nth_In in H.
    destruct H as [H|(t0 & H0 & ->)]; [auto | apply (Hinv t0 H0)].
  - cbn. intro H. apply on_nth_In in H.
    destruct H as [H|(t0 & H0 & ->)]; [auto | apply (Hinv t0 H0)].
  - cbn. intro H. apply on_nth_In in H.
    destruct H as [H|(t0 & H0 & ->)]; [auto | apply (Hinv t0 H0)].
  - unfold record_qualification.
    destruct (_get_trial self id) as [t0|] eqn:E; [|auto].
    cbn. intro H. apply replace_trial_In in H.
    destruct H as [H| ->]; [auto|].
    destruct (find_trial_Some _ _ _ E) as [_ Hin].
    apply on_branch_nonneg; [apply count_qualification_nonneg | auto].
  - unfold record_outcome.
    destruct (_get_trial self id) as [t0|] eqn:E; [|auto].
    cbn. intro H. apply replace_trial_In in H.
    destruct H as [H| ->]; [auto|].
    destruct (find_trial_Some _ _ _ E) as [_ Hin].
    apply on_branch_nonneg; [apply count_outcome_nonneg | auto].
  - unfold evaluate_trial.
    destruct (_get_trial self id) as [t0|] eqn:E; [|cbn; auto].
    destruct (negb (is_ready_for_evaluation t0)); [cbn; auto|].
    destruct (verdict id t0); [cbn; auto|].
    destruct (find_trial_Some _ _ _ E) as [_ Hin].
    cbn. intro H. apply replace_trial_In in H.
    destruct H as [H| ->]; [auto | apply (Hinv t0 Hin)].
  - unfold promote_experimental.
    destruct (_get_trial self id) as [t0|] eqn:E; [|cbn; auto].
    destruct (negb (winner_is t0 "experimental")); [cbn; auto|].
    destruct (find_trial_Some _ _ _ E) as [_ Hin].
    cbn. destruct (confidence t0); cbn; intro H;
      apply replace_trial_In in H;
      (destruct H as [H| ->]; [auto | apply (Hinv t0 Hin)]).
  - unfold archive_trial.
    destruct (_get_trial self id) as [t0|] eqn:E; [|auto].
    destruct (find_trial_Some _ _ _ E) as [_ Hin].
    cbn. intro H. apply replace_trial_In in H.
    destruct H as [H| ->]; [auto | apply (Hinv t0 Hin)].
Qed.

(** The counters of every branch that a manager holds are counts: they
    start at 0 and the interface only adds 1 to them. *)
Lemma reachable_counts_nonneg (standard : option json) (calls : list call) :
  forall t, In t (trials (run (new_manager standard) calls)) ->
    counts_nonneg (classic_branch t) /\ counts_nonneg (experimental_branch t).
Proof.
  induction calls as [|c calls IH] using rev_ind.
  - intros t [].
  - rewrite run_snoc. apply step_counts. exact IH.
Qed.

End TrialProps.

(* ================================================================== *)
(** ** Further properties of the lens *)
(* ================================================================== *)

Module LensMore.
Import Py.
Import Lens.
Import LensProps.

(** [perceive], with the triple of signal lists taken apart. *)
Lemma perceive_fields (self : RoseGlassCRMLens) (lead : LeadData) :
  let psi := _extract_psi_intent lead in
  let rho := _extract_rho_authority lead in
  let q := biological_optimization (_extract_q_urgency lead) in
  let f := _extract_f_fit lead in
  let coherence := _calculate_coherence self psi rho q f in
  let tier := _determine_tier self coherence psi rho q f in
  let signals := _detect_signals lead psi rho q f in
  perceive self lead =
  {| psi_intent := psi; rho_authority := rho; q_urgency := q; f_fit := f;
     coherence_score := coherence; qualification_tier := tier;
     lens_used := lens_name self;
     confidence := _calculate_confidence lead;
     positive_signals := fst (fst signals);
     warning_signals := snd (fst signals);
     disqualifiers := snd signals;
     next_actions := _recommend_actions tier lead psi rho q f |}.
Proof.
  cbv zeta. unfold perceive.
  destruct (_detect_signals _ _ _ _ _) as [[? ?] ?]. reflexivity.
Qed.

(** *** Ranges *)

Lemma dict_get_lower (d : list (string * Q)) (k : string) (dflt lo : Q) :
  Forall (fun kv => lo <= snd kv) d -> lo <= dflt -> lo <= dict_get d k dflt.
Proof.
  intros Hd Hdflt. induction Hd as [|[k' v] d' Hv _ IH]; simpl.
  - assumption.
  - destruct (String.eqb k' k); [exact Hv | exact IH].
Qed.

Lemma Qmin_lower (a lo : Q) : lo <= a -> lo <= 1 -> lo <= Qmin a 1.
Proof. intros; apply Q.min_glb; assumption. Qed.

Lemma psi_lower (lead : LeadData) : 0.05 <= _extract_psi_intent lead.
Proof.
  unfold _extract_psi_intent. cbv zeta. apply Qmin_lower; [|lra].
  assert (Hs : 0.05 <= dict_get
                 [ ("inbound", 0.3); ("referral", 0.25); ("event", 0.2);
                   ("content", 0.15); ("outbound", 0.1); ("unknown", 0.05) ]
                 (source lead) 0.05).
  { apply dict_get_lower; [|lra]. repeat constructor; simpl; lra. }
  pose proof (capped_count_nonneg (length (pain_points lead)) 0.1 0.3) as Hp.
  pose proof (capped_count_nonneg (length (content_downloads lead)) 0.05 0.15)
    as Hc.
  unfold len.
  destruct (list_truthy (pain_points lead));
    destruct (opt_truthy (use_case lead));
    destruct (0 <? meeting_requests lead)%Z;
    destruct (list_truthy (content_downloads lead)); lra.
Qed.

Lemma rho_lower (lead : LeadData) : 0.1 <= _extract_rho_authority lead.
Proof.
  unfold _extract_rho_authority. cbv zeta. apply Qmin_lower; [|lra].
  assert (Hs : 0.1 <= dict_get
                 [ ("enterprise", 0.15); ("mid-market", 0.2);
                   ("smb", 0.15); ("startup", 0.1) ]
                 (or_empty (company_size lead)) 0.1).
  { apply dict_get_lower; [|lra]. repeat constructor; simpl; lra. }
  destruct (is_decision_maker lead) as [[|]|];
    destruct (contact_title lead) as [t|];
    try destruct (str_truthy t);
    try destruct (any_in authority_titles (lower t));
    destruct (optb_truthy (budget_mentioned lead)); lra.
Qed.

Lemma f_lower (lead : LeadData) : 0.1 <= _extract_f_fit lead.
Proof.
  unfold _extract_f_fit. cbv zeta. apply Qmin_lower; [|lra].
  pose proof (capped_count_nonneg (length (tech_stack lead)) 0.05 0.2) as Ht.
  unfold len.
  destruct (industry lead) as [i|];
    try destruct (str_truthy i && any_in target_industries (lower i))%bool;
    destruct (list_truthy (tech_stack lead));
    destruct (opt_str_eqb (company_size lead) "mid-market"
              || opt_str_eqb (company_size lead) "enterprise")%bool;
    destruct (opt_str_eqb (company_size lead) "smb");
    destruct (list_truthy (competitor_mentioned lead)); simpl;
    destruct (String.eqb (source lead) "referral"); lra.
Qed.

Lemma confidence_range (lead : LeadData) :
  0 <= _calculate_confidence lead <= 1.
Proof.
  unfold _calculate_confidence. cbv zeta.
  destruct (opt_truthy (contact_name lead));
    destruct (opt_truthy (contact_title lead));
    destruct (opt_truthy (industry lead));
    destruct (opt_truthy (company_size lead));
    destruct (list_truthy (pain_points lead));
    destruct (is_some (is_decision_maker lead));
    destruct (is_some (budget_mentioned lead));
    destruct (opt_truthy (timeline_mentioned lead));
    destruct (strip_truthy (get_text_for_analysis lead));
    split; unfold Qle; simpl; lia.
Qed.

(** X1.  Every reading keeps its documented scales: intent is in
    [0.05, 1], authority and fit in [0.1, 1], urgency in [0, 0.5], and the
    confidence in [0, 1]. *)
Theorem perceive_scores_bounded :
  forall (self : RoseGlassCRMLens) (lead : LeadData),
    0.05 <= psi_intent (perceive self lead) <= 1 /\
    0.1 <= rho_authority (perceive self lead) <= 1 /\
    0 <= q_urgency (perceive self lead) <= 0.5 /\
    0.1 <= f_fit (perceive self lead) <= 1 /\
    0 <= confidence (perceive self lead) <= 1.
Proof.
  intros self lead. pose proof (perceive_fields self lead) as E.
  cbv zeta in E. rewrite E. cbn [psi_intent rho_authority q_urgency f_fit
                                  confidence].
  pose proof (psi_range lead). pose proof (psi_lower lead).
  pose proof (rho_range lead). pose proof (rho_lower lead).
  pose proof (f_range lead). pose proof (f_lower lead).
  pose proof (confidence_range lead).
  pose proof (biological_optimization_nonneg (_extract_q_urgency lead)).
  pose proof (biological_optimization_le_half (_extract_q_urgency lead)).
  repeat split; lra.
Qed.

(** *** Shape of the urgency transform *)






(** *** Signals and actions that are never produced *)

Lemma In_append_if_inv {A} (c : bool) (x y : A) (l : list A) :
  In x (append_if c y l) -> In x l \/ (c = true /\ x = y).
Proof.
  unfold append_if. destruct c; [|auto].
  intro H. apply in_app_or in H. destruct H as [H|[H|[]]]; auto.
Qed.

(** An enterprise lead has an authority of at least 0.15. *)
Lemma rho_enterprise (lead : LeadData) :
  opt_str_eqb (company_size lead) "enterprise" = true ->
  0.15 <= _extract_rho_authority lead.
Proof.
  unfold opt_str_eqb. destruct (company_size lead) as [s|] eqn:Es;
    [|discriminate].
  intro H. apply String.eqb_eq in H. subst s.
  unfold _extract_rho_authority. cbv zeta. rewrite Es.
  change (dict_get _ (or_empty (Some "enterprise")) 0.1) with 0.15.
  apply Qmin_lower; [|lra].
  destruct (is_decision_maker lead) as [[|]|];
    destruct (contact_title lead) as [t|];
    try destruct (str_truthy t);
    try destruct (any_in authority_titles (lower t));
    destruct (optb_truthy (budget_mentioned lead)); lra.
Qed.

Lemma too_junior_guard (lead : LeadData) :
  (Qltb (_extract_rho_authority lead) 0.15
   && opt_str_eqb (company_size lead) "enterprise")%bool = false.
Proof.
  destruct (opt_str_eqb (company_size lead) "enterprise") eqn:E.
  - rewrite andb_true_r. apply Qltb_false. apply rho_enterprise; exact E.
  - apply andb_false_r.
Qed.

(** X3.  A lead whose fit is below 0.2 is disqualified, its only
    disqualifier is "Poor ICP fit" and its only action is to archive it; a
    lead whose fit is at least 0.2 has no disqualifier at all ("Too junior
    for enterprise deal" is never produced, because an enterprise lead
    never has an authority below 0.15), although a lead whose authority is
    below 0.15 is disqualified as well. *)
Theorem disqualification_floors :
  forall (self : RoseGlassCRMLens) (lead : LeadData),
    (f_fit (perceive self lead) < 0.2 ->
     qualification_tier (perceive self lead) = "disqualified" /\
     disqualifiers (perceive self lead) = ["Poor ICP fit"] /\
     next_actions (perceive self lead)
       = ["Archive - does not meet qualification criteria"]) /\
    (0.2 <= f_fit (perceive self lead) ->
     disqualifiers (perceive self lead) = []) /\
    (rho_authority (perceive self lead) < 0.15 ->
     qualification_tier (perceive self lead) = "disqualified" /\
     next_actions (perceive self lead)
       = ["Archive - does not meet qualification criteria"]).
Proof.
  intros self lead. pose proof (perceive_fields self lead) as E.
  cbv zeta in E. rewrite E.
  cbn [f_fit rho_authority qualification_tier disqualifiers next_actions].
  unfold _detect_signals. cbv zeta. cbn [snd].
  rewrite too_junior_guard. unfold _determine_tier. cbv zeta.
  split; [|split].
  - intro H. apply Qltb_true in H. rewrite H. cbn. auto.
  - intro H. apply Qltb_false in H. rewrite H. reflexivity.
  - intro H. apply Qltb_true in H. rewrite H.
    destruct (Qltb (_extract_f_fit lead) 0.2); cbn; auto.
Qed.

Lemma disqualification_floors_witness :
  qualification_tier (perceive (new_lens "enterprise_saas")
                               demo_disqualified_lead) = "disqualified" /\
  disqualifiers (perceive (new_lens "enterprise_saas") demo_disqualified_lead)
    = ["Poor ICP fit"] /\
  disqualifiers (perceive (new_lens "enterprise_saas") demo_hot_lead) = [].
Proof.
  destruct (disqualification_floors (new_lens "enterprise_saas")
              demo_disqualified_lead) as (H1 & _ & _).
  destruct (disqualification_floors (new_lens "enterprise_saas")
              demo_hot_lead) as (_ & H2 & _).
  destruct H1 as (Ht & Hd & _); [vm_compute; reflexivity|].
  split; [exact Ht|]. split; [exact Hd|].
  apply H2. vm_compute. discriminate.
Defined.

Lemma recommend_actions_no_accelerated (tier : string) (lead : LeadData)
    (psi rho q f : Q) :
  q <= 0.5 ->
  ~ In "Offer accelerated timeline" (_recommend_actions tier lead psi rho q f).
Proof.
  intros Hq Hin. unfold _recommend_actions in Hin. cbv zeta in Hin.
  assert (Eq : Qle_bool 0.6 q = false) by (apply Qle_bool_false; lra).
  rewrite Eq in Hin.
  destruct (String.eqb tier "disqualified").
  { destruct Hin as [H|[]]. discriminate H. }
  destruct (String.eqb tier "hot").
  { repeat (apply In_append_if_inv in Hin;
            destruct Hin as [Hin|[Hc Hin]]; [|discriminate]).
    destruct Hin as [H|[]]. discriminate H. }
  destruct (String.eqb tier "warm").
  { apply in_app_or in Hin. destruct Hin as [Hin|[H|[]]]; [|discriminate H].
    repeat (apply In_append_if_inv in Hin;
            destruct Hin as [Hin|[Hc Hin]]; [|discriminate]).
    destruct Hin. }
  destruct (String.eqb tier "cold").
  { apply in_app_or in Hin. destruct Hin as [Hin|[H|[]]]; [|discriminate H].
    apply In_append_if_inv in Hin.
    destruct Hin as [Hin|[Hc Hin]]; [|discriminate].
    destruct Hin as [H|[]]. discriminate H. }
  destruct Hin.
Qed.

(** X4.  Two branches that test the urgency against 0.7 and 0.6 are never
    taken, because the transformed urgency never exceeds one half: no
    reading carries the warning "High urgency + low authority - may be
    researcher", and no reading recommends "Offer accelerated timeline". *)
Theorem high_urgency_branches_unreachable :
  forall (self : RoseGlassCRMLens) (lead : LeadData),
    ~ In "High urgency + low authority - may be researcher"
         (warning_signals (perceive self lead)) /\
    ~ In "Offer accelerated timeline" (next_actions (perceive self lead)).
Proof.
  intros self lead. pose proof (perceive_fields self lead) as E.
  cbv zeta in E. rewrite E. cbn [warning_signals next_actions].
  pose proof (biological_optimization_le_half (_extract_q_urgency lead)) as Hq.
  split.
  - unfold _detect_signals. cbv zeta. cbn [fst snd].
    assert (Eq : Qltb 0.7 (biological_optimization (_extract_q_urgency lead))
                 = false) by (apply Qltb_false; lra).
    rewrite Eq. cbn [andb]. intro Hin.
    apply In_append_if_inv in Hin.
    destruct Hin as [Hin|[_ Hin]]; [|discriminate].
    apply In_append_if_inv in Hin.
    destruct Hin as [Hin|[_ Hin]]; [|cbn in Hin; discriminate].
    cbn [append_if] in Hin.
    apply In_append_if_inv in Hin.
    destruct Hin as [Hin|[_ Hin]]; [destruct Hin | discriminate].
  - apply recommend_actions_no_accelerated. exact Hq.
Qed.

(** *** What a hot reading needs *)

Lemma determine_tier_hot (self : RoseGlassCRMLens) (coh psi rho q f : Q) :
  _determine_tier self coh psi rho q f = "hot" ->
  0.2 <= f /\ 0.15 <= rho /\ 2.5 <= coh /\ 0.3 <= q /\
  match calibration self with
  | Some c => authority_threshold c
  | None => 0.5
  end <= rho.
Proof.
  unfold _determine_tier. cbv zeta.
  destruct (Qltb f 0.2) eqn:Ef; [discriminate|].
  destruct (Qltb rho 0.15) eqn:Er; [discriminate|].
  destruct (Qle_bool 2.5 coh) eqn:Ec; cbn [andb].
  - destruct (Qle_bool _ rho) eqn:Et; cbn [andb].
    + destruct (Qle_bool 0.3 q) eqn:Eq.
      * intros _. apply Qltb_false in Ef. apply Qltb_false in Er.
        apply Qle_bool_iff in Ec. apply Qle_bool_iff in Et.
        apply Qle_bool_iff in Eq. auto.
      * destruct (Qle_bool 1.5 coh); discriminate.
    + destruct (Qle_bool 1.5 coh); discriminate.
  - destruct (Qle_bool 1.5 coh); discriminate.
Qed.

Lemma new_lens_threshold (name : string) :
  0.4 <= match calibration (new_lens name) with
         | Some c => authority_threshold c
         | None => 0.5
         end.
Proof.
  unfold new_lens. cbn [calibration].
  destruct (dict_find LENS_CALIBRATIONS name) as [c|] eqn:E; [|lra].
  apply (dict_find_Forall (fun c => 0.4 <= authority_threshold c)
           LENS_CALIBRATIONS name c); [|exact E].
  unfold LENS_CALIBRATIONS. repeat constructor; simpl; lra.
Qed.

(** X5.  Under any lens name, a reading of tier [hot] has a coherence of
    at least 2.5, an authority of at least 0.4, a transformed urgency of at
    least 0.3 (so the lead shows some urgency evidence: its raw urgency is
    positive) and a fit of at least 0.2, and its first recommended action
    is "Schedule demo/meeting ASAP". *)
Theorem hot_requirements :
  forall (name : string) (lead : LeadData),
    qualification_tier (perceive (new_lens name) lead) = "hot" ->
    2.5 <= coherence_score (perceive (new_lens name) lead) /\
    0.4 <= rho_authority (perceive (new_lens name) lead) /\
    0.3 <= q_urgency (perceive (new_lens name) lead) /\
    0 < _extract_q_urgency lead /\
    0.2 <= f_fit (perceive (new_lens name) lead) /\
    exists rest,
      next_actions (perceive (new_lens name) lead)
        = "Schedule demo/meeting ASAP" :: rest.
Proof.
  intros name lead. pose proof (perceive_fields (new_lens name) lead) as E.
  cbv zeta in E. rewrite E.
  cbn [qualification_tier coherence_score rho_authority q_urgency f_fit
       next_actions].
  intro Ht. rewrite Ht.
  destruct (determine_tier_hot _ _ _ _ _ _ Ht) as (Hf & _ & Hc & Hq & Hr).
  pose proof (new_lens_threshold name) as Hthr.
  split; [exact Hc|]. split; [lra|]. split; [exact Hq|].
  split; [|split; [exact Hf|]].
  - destruct (Qlt_le_dec 0 (_extract_q_urgency lead)) as [Hp|Hn];
      [exact Hp|].
    unfold biological_optimization in Hq.
    apply Qle_bool_iff in Hn. rewrite Hn in Hq. lra.
  - unfold _recommend_actions. cbv zeta. cbn [String.eqb Ascii.eqb Bool.eqb].
    unfold append_if.
    destruct (negb (optb_truthy (budget_mentioned lead)));
      destruct (Qle_bool 0.6 _); cbn; eexists; reflexivity.
Qed.

Lemma hot_requirements_witness :
  2.5 <= coherence_score (perceive (new_lens "enterprise_saas") demo_hot_lead)
  /\ 0 < _extract_q_urgency demo_hot_lead.
Proof.
  destruct (hot_requirements "enterprise_saas" demo_hot_lead)
    as (H1 & _ & _ & H2 & _).
  - vm_compute. reflexivity.
  - split; assumption.
Defined.

(** *** Fields that the lens does not read *)

(** X6.  The lens reads neither the identity of a lead nor its
    [contact_email], [revenue_range], [current_solution] and
    [email_opens]: two leads that agree on every other field get the same
    reading. *)
Theorem perceive_ignores_unread_fields :
  forall (self : RoseGlassCRMLens) (a b : LeadData),
    same_signals a b -> perceive self a = perceive self b.
Proof.
  intros self a b.
  intros (H1 & H2 & H3 & H4 & H5 & H6 & H7 & H8 & H9 & H10 & H11 & H12 & H13
          & H14 & H15 & H16 & H17 & H18 & H19).
  unfold perceive, _extract_psi_intent, _extract_rho_authority,
    _extract_q_urgency, urgency_count, _extract_f_fit, _detect_signals,
    _recommend_actions, _calculate_confidence, get_text_for_analysis.
  rewrite H1, H2, H3, H4, H5, H6, H7, H8, H9, H10, H11, H12, H13, H14, H15,
    H16, H17, H18, H19.
  reflexivity.
Qed.

Lemma perceive_ignores_unread_fields_witness :
  perceive (new_lens "smb_tech") demo_hot_lead =
  perceive (new_lens "smb_tech")
    {| lead_id := "other"; company_name := "Other Corp";
       contact_name := Some "John Smith";
       contact_title := Some "VP Engineering";
       contact_email := None;
       industry := Some "SaaS"; company_size := Some "enterprise";
       revenue_range := Some "10M-50M"; tech_stack := [];
       source := "referral"; initial_interest := None;
       pain_points := [ "security compliance"; "access management";
                        "audit requirements" ];
       is_decision_maker := Some true; budget_mentioned := Some true;
       timeline_mentioned := Some "this_quarter";
       current_solution := Some "spreadsheets"; competitor_mentioned := [];
       use_case := Some "Replace legacy IAM system";
       website_visits := 0%Z; content_downloads := []; email_opens := 40%Z;
       meeting_requests := 2%Z;
       notes := ""; email_content := ""; call_transcript := "" |}.
Proof.
  apply perceive_ignores_unread_fields.
  unfold same_signals, demo_hot_lead. cbn. repeat split.
Defined.

End LensMore.

(* ================================================================== *)
(** ** Further properties of the qualifier *)
(* ================================================================== *)

Module QualifierMore.
Import Py.
Import Lens.
Import Qualifier.
Import LensProps.
Import QualifierProps.

Lemma Qdiv_le_cross_same (a c b : Q) : 0 < b -> a <= c -> a / b <= c / b.
Proof.
  intros Hb H. apply Qle_shift_div_r; [exact Hb|].
  setoid_replace (c / b * b) with c by (field; lra). exact H.
Qed.

(** *** Counters *)

Lemma update_stats_consistent (self : LeadQualifier)
    (r : QualificationResult) :
  qr_qualification_tier r = "hot" \/ qr_qualification_tier r = "warm" \/
  qr_qualification_tier r = "cold" \/ qr_qualification_tier r = "disqualified" ->
  stats_consistent self ->
  exists st,
    _update_stats (stats self) r = Returned st tt /\
    stats_consistent (with_log (with_stats self st) r) /\
    (total_qualified st = total_qualified (stats self) + 1)%Z.
Proof.
  unfold stats_consistent. cbv zeta.
  intros Ht (Hh & Hw & Hc & Hd & Hsum & Hlog).
  unfold _update_stats. cbv zeta.
  destruct Ht as [Ht|[Ht|[Ht|Ht]]]; rewrite Ht; cbn;
    eexists; (split; [reflexivity|]); cbn;
    rewrite length_app, Nat2Z.inj_add; cbn; repeat split; lia.
Qed.

Lemma qualify_consistent (self : LeadQualifier) (lead : LeadData) :
  stats_consistent self ->
  exists self',
    qualify self lead = Returned self' (qualification_of self lead) /\
    stats_consistent self' /\
    (total_qualified (stats self') = total_qualified (stats self) + 1)%Z /\
    qualification_log self'
      = qualification_log self ++ [qualification_of self lead] /\
    lens self' = lens self /\ lq_lens_name self' = lq_lens_name self /\
    lq_trial_branch self' = lq_trial_branch self.
Proof.
  intro Hc.
  destruct (update_stats_consistent self (qualification_of self lead))
    as (st & E & Hc' & Ht); [apply perceive_tier_cases | exact Hc |].
  eexists. unfold qualify. rewrite E.
  split; [reflexivity|]. split; [exact Hc'|]. split; [exact Ht|].
  repeat split.
Qed.

Lemma qualify_each_consistent (leads : list LeadData) :
  forall self : LeadQualifier,
    stats_consistent self ->
    stats_consistent (fst (qualify_each self leads)) /\
    (total_qualified (stats (fst (qualify_each self leads)))
     = total_qualified (stats self) + Z.of_nat (length leads))%Z /\
    length (snd (qualify_each self leads)) = length leads /\
    map qr_lead_id (snd (qualify_each self leads)) = map lead_id leads.
Proof.
  induction leads as [|lead rest IH]; intros self Hc; simpl.
  - split; [exact Hc|]. split; [lia|]. split; reflexivity.
  - destruct (qualify_consistent self lead Hc)
      as (self' & E & Hc' & Ht & _).
    rewrite E. destruct (IH self' Hc') as (H1 & H2 & H3 & H4).
    destruct (qualify_each self' rest) as [self'' rs]. simpl in *.
    split; [exact H1|]. split; [lia|]. split; [lia|].
    rewrite H4. reflexivity.
Qed.

(** X7.  The counters of a qualifier stay consistent: a new qualifier
    starts with all counters at 0, and every call of [qualify] adds one to
    [total_qualified] and to exactly one tier counter and appends its
    result to the log, so that [total_qualified] is always the sum of the
    four tier counters and the length of the log; a batch of [n] leads
    adds [n]. *)
Theorem qualifier_counters_consistent :
  (forall (lens_name : string) (branch : option string),
     stats_consistent (new_qualifier lens_name branch)) /\
  (forall (self self' : LeadQualifier) (lead : LeadData)
          (r : QualificationResult),
     stats_consistent self ->
     qualify self lead = Returned self' r ->
     stats_consistent self' /\
     (total_qualified (stats self') = total_qualified (stats self) + 1)%Z /\
     qualification_log self' = qualification_log self ++ [r]) /\
  (forall (self self' : LeadQualifier) (leads : list LeadData)
          (rs : list QualificationResult),
     stats_consistent self ->
     qualify_batch self leads = Returned self' rs ->
     stats_consistent self' /\
     (total_qualified (stats self')
      = total_qualified (stats self) + Z.of_nat (length leads))%Z).
Proof.
  split; [|split].
  - intros ln br. unfold stats_consistent, new_qualifier. cbn.
    repeat split; lia.
  - intros self self' lead r Hc E.
    destruct (qualify_consistent self lead Hc) as (s & E' & H1 & H2 & H3 & _).
    rewrite E' in E. injection E as <- <-. auto.
  - intros self self' leads rs Hc E. unfold qualify_batch in E.
    destruct (qualify_each_consistent leads self Hc) as (H1 & H2 & _).
    destruct (qualify_each self leads) as [s rs0]. simpl in *.
    destruct leads; [discriminate|]. injection E as <- _. auto.
Qed.

Lemma qualifier_counters_consistent_witness :
  exists self' rs,
    qualify_batch demo_qualifier [demo_disqualified_lead; demo_hot_lead]
      = Returned self' rs /\
    stats_consistent self' /\
    total_qualified (stats self') = 2%Z.
Proof.
  destruct qualifier_counters_consistent as (Hnew & _ & Hbatch).
  remember (qualify_batch demo_qualifier
              [demo_disqualified_lead; demo_hot_lead]) as o eqn:E.
  assert (H : exists self' rs, o = Returned self' rs).
  { subst o. vm_compute. eexists. eexists. reflexivity. }
  destruct H as (self' & rs & Ho). exists self', rs.
  split; [exact Ho|]. rewrite Ho in E. symmetry in E.
  destruct (Hbatch demo_qualifier self' _ rs
              (Hnew "enterprise_saas" (Some "classic")) E) as [H1 H2].
  split; [exact H1|]. rewrite H2. reflexivity.
Defined.

(** *** Batches *)

Lemma insert_by_priority_perm (r : QualificationResult)
    (l : list QualificationResult) :
  Permutation (insert_by_priority r l) (r :: l).
Proof.
  induction l as [|y ys IH]; simpl.
  - apply Permutation_refl.
  - destruct (Qltb (priority_score r) (priority_score y)).
    + eapply Permutation_trans; [apply perm_skip, IH | apply perm_swap].
    + apply Permutation_refl.
Qed.

Lemma sort_by_priority_perm (l : list QualificationResult) :
  Permutation (sort_by_priority l) l.
Proof.
  induction l as [|y ys IH]; simpl.
  - apply Permutation_refl.
  - eapply Permutation_trans; [apply insert_by_priority_perm|].
    apply perm_skip, IH.
Qed.

Lemma qualify_each_all (leads : list LeadData) :
  forall self : LeadQualifier,
    length (snd (qualify_each self leads)) = length leads /\
    map qr_lead_id (snd (qualify_each self leads)) = map lead_id leads.
Proof.
  induction leads as [|lead rest IH]; intros self; simpl.
  - split; reflexivity.
  - destruct (qualify_returns self lead) as [self' E]. rewrite E.
    destruct (IH self') as [H1 H2].
    destruct (qualify_each self' rest) as [self'' rs]. simpl in *.
    split; [lia | rewrite H2; reflexivity].
Qed.

(** X8.  [qualify_batch] on an empty list raises [ZeroDivisionError] (its
    summary divides by the number of leads) and leaves the qualifier as it
    was; on a list that is not empty it returns, and its result holds
    exactly one entry for every lead of the batch: no lead is skipped. *)
Theorem qualify_batch_complete :
  (forall self : LeadQualifier,
     qualify_batch self [] = Raised self ZeroDivisionError) /\
  (forall (self : LeadQualifier) (leads : list LeadData),
     leads <> [] ->
     exists self' rs,
       qualify_batch self leads = Returned self' rs /\
       length rs = length leads /\
       Permutation (map qr_lead_id rs) (map lead_id leads)).
Proof.
  split; [reflexivity|].
  intros self leads Hne. unfold qualify_batch.
  destruct (qualify_each_all leads self) as [H1 H2].
  destruct (qualify_each self leads) as [s rs]. simpl in *.
  destruct leads as [|l0 rest]; [contradiction|].
  exists s, (sort_by_priority rs). split; [reflexivity|].
  pose proof (sort_by_priority_perm rs) as Hp. split.
  - rewrite (Permutation_length Hp). exact H1.
  - rewrite <- H2. apply Permutation_map. exact Hp.
Qed.

Lemma qualify_batch_complete_witness :
  exists self' rs,
    qualify_batch demo_qualifier [demo_disqualified_lead; demo_hot_lead]
      = Returned self' rs /\ length rs = 2%nat.
Proof.
  destruct (proj2 qualify_batch_complete demo_qualifier
              [demo_disqualified_lead; demo_hot_lead])
    as (self' & rs & E & Hl & _); [discriminate|].
  exists self', rs. split; [exact E | exact Hl].
Defined.

(** *** Priority bands *)

Lemma priority_bands (self : LeadQualifier) (lead : LeadData) :
  let r := qualification_of self lead in
  (qr_qualification_tier r = "hot" /\ priority_score r == 1) \/
  (qr_qualification_tier r = "warm" /\ 0.6 <= priority_score r <= 0.85) \/
  (qr_qualification_tier r = "cold" /\ 0.3 <= priority_score r <= 0.55) \/
  (qr_qualification_tier r = "disqualified" /\
   0 <= priority_score r <= 0.25).
Proof.
  cbv zeta. unfold qualification_of.
  cbn [qr_qualification_tier priority_score].
  unfold _calculate_priority. cbv zeta.
  pose proof (boosts_range self lead) as B. cbv zeta in B.
  destruct (perceive_dimensions (lens self) lead) as [Er Eq].
  pose proof (rho_range lead) as Hr.
  pose proof (biological_optimization_nonneg (_extract_q_urgency lead)) as Hq0.
  pose proof (biological_optimization_le_half (_extract_q_urgency lead)) as Hq.
  rewrite <- Er in Hr. rewrite <- Eq in Hq0, Hq.
  destruct (perceive_tier_cases (lens self) lead) as [T|[T|[T|T]]];
    rewrite T; cbn [dict_get String.eqb Ascii.eqb Bool.eqb].
  - left. split; [reflexivity|]. rewrite Q.min_l by lra. reflexivity.
  - right; left. split; [reflexivity|]. rewrite Q.min_r by lra. lra.
  - right; right; left. split; [reflexivity|]. rewrite Q.min_r by lra. lra.
  - right; right; right. split; [reflexivity|].
    rewrite Q.min_r by lra. lra.
Qed.

(** X9.  What [qualify] returns keeps its scales and agrees with itself:
    the priority is 1 for [hot], in [0.6, 0.85] for [warm], in
    [0.3, 0.55] for [cold] and in [0, 0.25] for [disqualified] (the four
    bands do not meet), and the [qualified] flag is set exactly when the
    lead is not routed to the graveyard. *)
Theorem qualify_priority_bands :
  forall (self self' : LeadQualifier) (lead : LeadData)
         (r : QualificationResult),
    qualify self lead = Returned self' r ->
    ((qr_qualification_tier r = "hot" /\ priority_score r == 1) \/
     (qr_qualification_tier r = "warm" /\ 0.6 <= priority_score r <= 0.85) \/
     (qr_qualification_tier r = "cold" /\ 0.3 <= priority_score r <= 0.55) \/
     (qr_qualification_tier r = "disqualified" /\
      0 <= priority_score r <= 0.25)) /\
    (qualified r = true <-> next_stage r <> "graveyard").
Proof.
  intros self self' lead r E. apply qualify_result in E. subst r.
  split; [apply priority_bands|].
  unfold qualification_of. cbn [qualified next_stage].
  unfold _determine_routing. cbv zeta.
  destruct (perceive_tier_cases (lens self) lead) as [T|[T|[T|T]]];
    rewrite T; cbn; split; intro H; try reflexivity; try discriminate;
    try (intro H'; discriminate H'); try (exfalso; apply H; reflexivity).
Qed.

Lemma qualify_priority_bands_witness :
  exists self' r,
    qualify demo_qualifier demo_disqualified_lead = Returned self' r /\
    qualified r = false /\ priority_score r <= 0.25.
Proof.
  destruct (qualify_returns demo_qualifier demo_disqualified_lead)
    as [self' E].
  exists self', (qualification_of demo_qualifier demo_disqualified_lead).
  split; [exact E|].
  destruct (qualify_priority_bands _ _ _ _ E) as [Hb Hq].
  split; [vm_compute; reflexivity|].
  destruct Hb as [[T _]|[[T _]|[[T _]|[_ [_ H]]]]];
    try (vm_compute in T; discriminate T).
  exact H.
Defined.

Lemma tier_rank_priority (self1 self2 : LeadQualifier) (l1 l2 : LeadData) :
  let r1 := qualification_of self1 l1 in
  let r2 := qualification_of self2 l2 in
  priority_score r2 <= priority_score r1 ->
  (tier_rank (qr_qualification_tier r1)
   <= tier_rank (qr_qualification_tier r2))%nat.
Proof.
  cbv zeta. intro H.
  destruct (priority_bands self1 l1) as [[T1 P1]|[[T1 P1]|[[T1 P1]|[T1 P1]]]];
    destruct (priority_bands self2 l2)
      as [[T2 P2]|[[T2 P2]|[[T2 P2]|[T2 P2]]]];
    rewrite T1, T2; unfold tier_rank; cbn; try lia; lra.
Qed.

(** X10.  [qualify_batch] returns its results in the order that its
    documentation promises: hot first, then warm, cold and disqualified. *)
Theorem qualify_batch_tier_order :
  forall (self self' : LeadQualifier) (leads : list LeadData)
         (rs : list QualificationResult),
    qualify_batch self leads = Returned self' rs ->
    forall (i j : nat) (ri rj : QualificationResult),
      (i < j)%nat -> nth_error rs i = Some ri -> nth_error rs j = Some rj ->
      (tier_rank (qr_qualification_tier ri)
       <= tier_rank (qr_qualification_tier rj))%nat.
Proof.
  intros self self' leads rs E i j ri rj Hij Hi Hj.
  unfold qualify_batch in E.
  destruct (qualify_each self leads) as [s rs0] eqn:Eq.
  destruct leads as [|l0 rest]; [discriminate|].
  injection E as _ E. subst rs.
  pose proof (sorted_nth _ (sort_by_priority_sorted rs0) i j ri rj Hij Hi Hj)
    as Hge. unfold priority_ge in Hge.
  assert (Hin : forall r, In r (sort_by_priority rs0) ->
                  exists s0 l, r = qualification_of s0 l).
  { intros r Hr. rewrite sort_by_priority_In in Hr.
    destruct (qualify_each_results (l0 :: rest) self r) as (s0 & l & _ & ->).
    - rewrite Eq. exact Hr.
    - eauto. }
  destruct (Hin ri (nth_error_In _ _ Hi)) as (s1 & l1 & ->).
  destruct (Hin rj (nth_error_In _ _ Hj)) as (s2 & l2 & ->).
  apply tier_rank_priority. exact Hge.
Qed.

Lemma qualify_batch_tier_order_witness :
  exists self' rs,
    qualify_batch demo_qualifier [demo_disqualified_lead; demo_hot_lead]
      = Returned self' rs /\
    map qr_qualification_tier rs = ["hot"; "disqualified"].
Proof.
  remember (qualify_batch demo_qualifier
              [demo_disqualified_lead; demo_hot_lead]) as o eqn:E.
  assert (H : exists self' rs, o = Returned self' rs /\ length rs = 2%nat /\
                Permutation (map qr_qualification_tier rs)
                            ["disqualified"; "hot"]).
  { subst o. vm_compute. eexists. eexists.
    split; [reflexivity|]. split; [reflexivity|]. apply perm_swap. }
  destruct H as (self' & rs & Ho & Hl & Hp). exists self', rs.
  split; [exact Ho|]. rewrite Ho in E. symmetry in E.
  destruct rs as [|r1 [|r2 [|r3 rest]]]; try discriminate Hl.
  pose proof (qualify_batch_tier_order _ _ _ _ E 0 1 r1 r2
                (Nat.lt_0_1) eq_refl eq_refl)%nat as Hrank.
  cbn in Hp |- *.
  assert (Hc : (qr_qualification_tier r1 = "hot" /\
                qr_qualification_tier r2 = "disqualified") \/
               (qr_qualification_tier r1 = "disqualified" /\
                qr_qualification_tier r2 = "hot")).
  { apply Permutation_length_2_inv in Hp.
    destruct Hp as [Hp|Hp]; injection Hp as H1 H2; auto. }
  destruct Hc as [[H1 H2]|[H1 H2]].
  - rewrite H1, H2. reflexivity.
  - rewrite H1, H2 in Hrank. vm_compute in Hrank. lia.
Defined.

(** *** Statistics *)

(** X11.  On a consistent qualifier [get_stats] returns the bare counters
    exactly while nothing has been qualified; afterwards it adds a
    qualification rate and a hot rate, both in [0, 1], the hot rate not
    above the qualification rate, and the qualification rate is the share
    of leads that were not disqualified. *)
Theorem get_stats_rates :
  forall self : LeadQualifier,
    stats_consistent self ->
    (total_qualified (stats self) = 0%Z ->
     get_stats self = BareStats (stats self)) /\
    (total_qualified (stats self) <> 0%Z ->
     exists qrate hrate,
       get_stats self
         = FullStats (stats self) qrate hrate (lq_lens_name self)
                     (lq_trial_branch self) /\
       0 <= hrate /\ hrate <= qrate /\ qrate <= 1 /\
       qrate * inject_Z (total_qualified (stats self))
       == inject_Z (total_qualified (stats self)
                    - disqualified (stats self))).
Proof.
  intros self (Hh & Hw & Hc & Hd & Hsum & Hlog). cbv zeta in *.
  unfold get_stats. cbv zeta. split.
  - intro H0. rewrite H0. reflexivity.
  - intro Hne.
    assert (Hpos : (0 < total_qualified (stats self))%Z) by lia.
    destruct (total_qualified (stats self) =? 0)%Z eqn:E0;
      [apply Z.eqb_eq in E0; contradiction|].
    apply Z.ltb_lt in Hpos. rewrite Hpos. apply Z.ltb_lt in Hpos.
    eexists. eexists. split; [reflexivity|].
    assert (Hq : 0 < inject_Z (total_qualified (stats self))).
    { change 0 with (inject_Z 0). rewrite <- Zlt_Qlt. exact Hpos. }
    split; [|split; [|split]].
    + apply Qle_shift_div_l; [exact Hq|]. rewrite Qmult_0_l.
      change 0 with (inject_Z 0). rewrite <- Zle_Qle. exact Hh.
    + apply Qdiv_le_cross_same; [exact Hq|]. rewrite <- Zle_Qle. lia.
    + apply Qle_shift_div_r; [exact Hq|]. rewrite Qmult_1_l.
      rewrite <- Zle_Qle. lia.
    + field. intro Hz. rewrite Hz in Hq. apply (Qlt_irrefl 0 Hq).
Qed.

Lemma get_stats_rates_witness :
  get_stats demo_qualifier = BareStats (stats demo_qualifier) /\
  exists (self' : LeadQualifier) (r : QualificationResult) (qrate hrate : Q),
    qualify demo_qualifier demo_hot_lead = Returned self' r /\
    get_stats self'
    = FullStats (stats self') qrate hrate "enterprise_saas" "classic" /\
    0 <= hrate /\ hrate <= qrate /\ qrate <= 1.
Proof.
  split.
  - apply get_stats_rates; [|reflexivity].
    unfold stats_consistent. cbn. repeat split; lia.
  - remember (qualify demo_qualifier demo_hot_lead) as o eqn:E.
    assert (H : exists self' r,
               o = Returned self' r /\
               stats self' = mkStats 1 1 0 0 0 /\
               length (qualification_log self') = 1%nat /\
               lq_lens_name self' = "enterprise_saas" /\
               lq_trial_branch self' = "classic").
    { subst o. vm_compute. eexists. eexists. repeat split. }
    destruct H as (self' & r & Ho & Hst & Hlog & Hl & Hb).
    assert (Hc : stats_consistent self').
    { unfold stats_consistent. rewrite Hst, Hlog. cbn. repeat split; lia. }
    destruct (get_stats_rates self' Hc) as [_ Hfull].
    destruct Hfull as (q & h & Eg & H0 & Hhq & Hq1 & _).
    { rewrite Hst. discriminate. }
    rewrite Hl, Hb in Eg. exists self', r, q, h. auto.
Defined.

End QualifierMore.

(* ================================================================== *)
(** ** Further properties of the graveyard *)
(* ================================================================== *)

Module GraveyardMore.
Import Py.
Import Graveyard.
Import LensProps.
Import GraveyardProps.

(** *** When burying fails *)













(** *** What is extracted *)

Lemma first_category_in (cats : list (string * list string)) (text : string) :
  In (first_category cats text) ("general" :: map fst cats).
Proof.
  induction cats as [|[c kws] rest IH]; simpl.
  - left; reflexivity.
  - destruct (any_in kws text).
    + right; left; reflexivity.
    + destruct IH as [IH|IH]; [left; exact IH | right; right; exact IH].
Qed.

Lemma categorize_in_taxonomy (issue : string) :
  In (_categorize_issue issue) taxonomy.
Proof. apply first_category_in. Qed.

Lemma nutrient_of_extracted (o : Outcome) (c l s : string)
    (tier : option string) :
  In s ["minor"; "moderate"; "critical"] -> In c taxonomy ->
  extracted_from o (nutrient_of o c l s tier).
Proof.
  intros Hs Hc. unfold extracted_from, nutrient_of. cbn. repeat split; auto.
Qed.

Lemma spec_severity_cases (o : Outcome) :
  In (spec_severity o) ["minor"; "moderate"; "critical"].
Proof.
  unfold spec_severity.
  destruct (_ || _)%bool; [cbn; auto|].
  destruct (exceeds _ 1.5); cbn; auto.
Qed.

Lemma issue_nutrients_extracted (o : Outcome) (issues : list string) :
  forall l, issue_nutrients o issues = inr l ->
            Forall (extracted_from o) l /\ length l = length issues.
Proof.
  induction issues as [|i rest IH]; intros l; simpl.
  - intro H; injection H as <-. split; [constructor | reflexivity].
  - destruct (_assess_severity i o) as [e|s] eqn:Es; cbn [bind];
      [discriminate|].
    destruct (issue_nutrients o rest) as [e|l'] eqn:El; cbn [bind];
      [discriminate|].
    intro H; injection H as <-. destruct (IH l' eq_refl) as [Hf Hl].
    split; [|simpl; rewrite Hl; reflexivity].
    constructor; [|exact Hf].
    apply nutrient_of_extracted; [|apply categorize_in_taxonomy].
    rewrite (assess_severity_spec i o s Es). apply spec_severity_cases.
Qed.

Lemma taxonomy_members :
  In "competitive" taxonomy /\ In "engagement" taxonomy /\
  In "qualification" taxonomy.
Proof. unfold taxonomy, categories. cbn. tauto. Qed.

Lemma extract_nutrients_shape (o : Outcome) (ns : list Nutrient) :
  _extract_nutrients o = inr ns ->
  exists l extra,
    issue_nutrients o (issues_of o) = inr l /\ ns = l ++ extra /\
    Forall (extracted_from o) extra /\ (length extra <= 2)%nat.
Proof.
  destruct taxonomy_members as (Tc & Te & Tq).
  assert (Hmod : In "moderate" ["minor"; "moderate"; "critical"])
    by (cbn; auto).
  assert (Hmin : In "minor" ["minor"; "moderate"; "critical"])
    by (cbn; auto).
  unfold _extract_nutrients. cbv zeta.
  destruct (issue_nutrients o (issues_of o)) as [e|l]; cbn [bind];
    [discriminate|].
  destruct (match o_learnings o with
            | Some l0 => lesson_learned l0
            | None => None
            end) as [lesson|]; [destruct (str_truthy lesson)|];
    destruct (format_coherence o); cbn [bind];
    repeat match goal with
           | |- context [if ?b then _ else _] => destruct b
           end;
    try discriminate;
    intro H; injection H as <-; exists l;
    first [ exists []; split; [reflexivity|];
            split; [symmetry; apply app_nil_r|];
            split; [constructor | cbn; lia]
          | eexists; split; [reflexivity|];
            split; [rewrite <- ?app_assoc; reflexivity|];
            split; [cbn [app];
                    repeat (apply Forall_cons;
                            [apply nutrient_of_extracted;
                             auto using categorize_in_taxonomy|]);
                    apply Forall_nil
                   | cbn; lia] ].
Qed.

(** X13.  Every nutrient that [bury_lead] returns belongs to the outcome
    it was given: it carries the outcome's lead id, company name, outcome
    type, coherence score and trial branch, it is not yet applied, its
    severity is [minor], [moderate] or [critical] and its category is one
    of the nine names of the taxonomy.  There is one nutrient per "what
    went wrong" item and at most two more. *)
Theorem bury_lead_nutrients :
  forall (self self' : GraveyardManager) (o : Outcome) (ns : list Nutrient),
    bury_lead self o = Returned self' ns ->
    Forall (extracted_from o) ns /\
    (length (issues_of o) <= length ns <= length (issues_of o) + 2)%nat.
Proof.
  intros self self' o ns E. unfold bury_lead in E.
  destruct (_extract_nutrients o) as [e|ns0] eqn:En; [discriminate|].
  injection E as _ <-.
  destruct (extract_nutrients_shape o ns0 En) as (l & extra & El & -> & Hx & Hn).
  destruct (issue_nutrients_extracted o _ l El) as [Hf Hl].
  split.
  - apply Forall_app. split; assumption.
  - rewrite length_app, Hl. lia.
Qed.

Lemma bury_lead_nutrients_witness :
  exists self' ns,
    bury_lead new_graveyard demo_outcome = Returned self' ns /\
    Forall (extracted_from demo_outcome) ns /\ (2 <= length ns <= 4)%nat.
Proof.
  remember (bury_lead new_graveyard demo_outcome) as r eqn:E.
  assert (H : exists self' ns, r = Returned self' ns).
  { subst r. vm_compute. eexists. eexists. reflexivity. }
  destruct H as (self' & ns & Hr). exists self', ns.
  split; [exact Hr|]. rewrite Hr in E. symmetry in E.
  apply (bury_lead_nutrients new_graveyard self' demo_outcome ns E).
Defined.

(** X14.  Burying is not deduplicated: a second [bury_lead] of the same
    outcome returns the same nutrients again, and the manager then holds
    the outcome twice and every one of its nutrients twice. *)
Theorem bury_lead_twice :
  forall (self self1 : GraveyardManager) (o : Outcome) (ns : list Nutrient),
    bury_lead self o = Returned self1 ns ->
    exists self2,
      bury_lead self1 o = Returned self2 ns /\
      graveyard_leads self2 = graveyard_leads self ++ [o; o] /\
      nutrients self2 = nutrients self ++ ns ++ ns.
Proof.
  intros self self1 o ns E. unfold bury_lead in *.
  destruct (_extract_nutrients o) as [e|ns0]; [discriminate|].
  injection E as <- <-. eexists. split; [reflexivity|]. cbn.
  rewrite <- !app_assoc. split; reflexivity.
Qed.

Lemma bury_lead_twice_witness :
  exists self1 self2 ns,
    bury_lead new_graveyard demo_outcome = Returned self1 ns /\
    bury_lead self1 demo_outcome = Returned self2 ns /\
    length (nutrients self2) = 8%nat.
Proof.
  remember (bury_lead new_graveyard demo_outcome) as r eqn:E.
  assert (H : exists self1 ns, r = Returned self1 ns /\ length ns = 4%nat).
  { subst r. vm_compute. eexists. eexists. split; reflexivity. }
  destruct H as (self1 & ns & Hr & Hl). rewrite Hr in E. symmetry in E.
  destruct (bury_lead_twice new_graveyard self1 demo_outcome ns E)
    as (self2 & E2 & _ & Hn).
  exists self1, self2, ns. split; [exact Hr|]. split; [exact E2|].
  rewrite Hn. cbn [nutrients new_graveyard app].
  rewrite length_app, Hl. reflexivity.
Defined.

(** *** Categories *)

(** X15.  The category of an issue is decided by the first category, in
    the fixed order of the table, one of whose keywords occurs in the
    lower-cased text: no keyword of an earlier category occurs in it; and
    the category is [general] exactly when no keyword of the table occurs
    at all. *)
Theorem categorize_first_match :
  forall issue : string,
    (_categorize_issue issue = "general" /\
     Forall (fun ck => any_in (snd ck) (lower issue) = false) categories) \/
    (exists earlier keywords later,
       categories
         = earlier ++ (_categorize_issue issue, keywords) :: later /\
       any_in keywords (lower issue) = true /\
       Forall (fun ck => any_in (snd ck) (lower issue) = false) earlier).
Proof.
  intro issue. unfold _categorize_issue.
  generalize (lower issue) as text. intro text.
  induction categories as [|[c kws] rest IH]; simpl.
  - left. split; [reflexivity | constructor].
  - destruct (any_in kws text) eqn:E.
    + right. exists [], kws, rest. split; [reflexivity|].
      split; [exact E | constructor].
    + destruct IH as [[Hg Hf]|(earlier & k & later & Heq & Hk & Hf)].
      * left. split; [exact Hg|]. constructor; [exact E | exact Hf].
      * right. exists ((c, kws) :: earlier), k, later.
        split; [rewrite Heq at 1; reflexivity|].
        split; [exact Hk|]. constructor; [exact E | exact Hf].
Qed.

(** *** Critical nutrients *)

(** X16.  [mark_nutrient_applied] sets the flag of every nutrient of the
    given lead and of no other: afterwards no nutrient of that lead is
    reported as critical, the critical nutrients of the other leads are
    the ones reported before, the number of nutrients is unchanged, and
    marking a second time changes nothing. *)
Theorem mark_nutrient_applied_effect :
  forall (self : GraveyardManager) (id : string),
    let self' := mark_nutrient_applied self id in
    Forall (fun n => lead_id n <> id) (get_critical_nutrients self') /\
    get_critical_nutrients self'
      = filter (fun n => negb (String.eqb (lead_id n) id))
               (get_critical_nutrients self) /\
    length (nutrients self') = length (nutrients self) /\
    graveyard_leads self' = graveyard_leads self /\
    mark_nutrient_applied self' id = self'.
Proof.
  intros self id self'. subst self'.
  unfold get_critical_nutrients, mark_nutrient_applied.
  cbn [nutrients graveyard_leads saved_outcomes saved_nutrients].
  assert (Hcrit :
    filter (fun n => String.eqb (severity n) "critical"
                     && negb (applied_to_standard n))%bool
      (map (fun n => if String.eqb (lead_id n) id then set_applied n else n)
           (nutrients self))
    = filter (fun n => negb (String.eqb (lead_id n) id))
        (filter (fun n => String.eqb (severity n) "critical"
                          && negb (applied_to_standard n))%bool
                (nutrients self))).
  { induction (nutrients self) as [|n l IH]; [reflexivity|].
    cbn [map filter].
    destruct (String.eqb (lead_id n) id) eqn:Ei.
    - cbn [set_applied severity applied_to_standard negb].
      rewrite andb_false_r.
      destruct (String.eqb (severity n) "critical"
                && negb (applied_to_standard n))%bool;
        cbn [filter]; rewrite ?Ei; cbn [negb]; exact IH.
    - destruct (String.eqb (severity n) "critical"
                && negb (applied_to_standard n))%bool;
        cbn [filter]; rewrite ?Ei; cbn [negb]; rewrite IH; reflexivity. }
  split; [|split; [exact Hcrit|]].
  - rewrite Hcrit. apply Forall_forall. intros n Hn.
    apply filter_In in Hn. destruct Hn as [_ Hn].
    apply negb_true_iff in Hn. apply String.eqb_neq in Hn. exact Hn.
  - split; [apply length_map|]. split; [reflexivity|].
    f_equal. rewrite map_map. apply map_ext. intro n.
    destruct (String.eqb (lead_id n) id) eqn:Ei.
    + cbn [set_applied lead_id]. rewrite Ei. reflexivity.
    + rewrite Ei. reflexivity.
Qed.

(** *** Grouping by category *)

Lemma add_to_category_find (d : list (string * list Nutrient)) (n : Nutrient)
    (c : string) :
  dict_find (add_to_category d n) c =
  if String.eqb (category n) c
  then Some (match dict_find d c with Some l => l | None => [] end ++ [n])
  else dict_find d c.
Proof.
  induction d as [|[k l] rest IH]; simpl.
  - destruct (String.eqb (category n) c); reflexivity.
  - destruct (String.eqb k (category n)) eqn:Ek; simpl.
    + apply String.eqb_eq in Ek. subst k.
      destruct (String.eqb (category n) c); reflexivity.
    + destruct (String.eqb k c) eqn:Ekc.
      * apply String.eqb_eq in Ekc. subst k.
        rewrite String.eqb_sym in Ek. rewrite Ek. reflexivity.
      * exact IH.
Qed.

Lemma fold_add_find (ns : list Nutrient) :
  forall (d : list (string * list Nutrient)) (c : string),
    dict_find (fold_left add_to_category ns d) c =
    match dict_find d c, filter (fun n => String.eqb (category n) c) ns with
    | Some l, more => Some (l ++ more)
    | None, [] => None
    | None, more => Some more
    end.
Proof.
  induction ns as [|n rest IH]; intros d c; simpl.
  - destruct (dict_find d c); [rewrite app_nil_r|]; reflexivity.
  - rewrite IH, add_to_category_find.
    destruct (String.eqb (category n) c).
    + destruct (dict_find d c); [rewrite <- app_assoc|]; reflexivity.
    + reflexivity.
Qed.

(** X17.  [get_nutrients_by_category] files every nutrient under its
    category and nowhere else: looking a category up yields exactly the
    nutrients of that category, in the order in which they were
    extracted, and a category without nutrients is not a key. *)
Theorem nutrients_by_category_lookup :
  forall (self : GraveyardManager) (c : string),
    dict_find (get_nutrients_by_category self) c =
    match filter (fun n => String.eqb (category n) c) (nutrients self) with
    | [] => None
    | group => Some group
    end.
Proof.
  intros self c. unfold get_nutrients_by_category.
  rewrite fold_add_find. reflexivity.
Qed.

End GraveyardMore.

(* ================================================================== *)
(** ** Further properties of the trial engine *)
(* ================================================================== *)

Module TrialMore.
Import Py.
Import Trial.
Import LensProps.
Import TrialProps.

(** *** Looking a trial up after it was written *)

Lemma find_trial_replace (ts : list Trial) (id : string) (t t' : Trial) :
  find_trial ts id = Some t -> trial_id t' = id ->
  find_trial (replace_trial ts id t') id = Some t'.
Proof.
  intros Hf Hid. induction ts as [|t0 rest IH]; simpl in *; [discriminate|].
  destruct (String.eqb (trial_id t0) id) eqn:E; simpl.
  - rewrite Hid, String.eqb_refl. reflexivity.
  - rewrite E. apply IH. exact Hf.
Qed.

(** *** Branch assignment *)

Lemma status_eqb_eq (a b : TrialStatus) : status_eqb a b = true <-> a = b.
Proof. destruct a, b; simpl; split; intro H; congruence. Qed.

(** X18.  [assign_branch] answers [classic] for every trial that is not
    running, whatever is drawn; on a running trial it answers
    [experimental] exactly when the draw is below [traffic_split], so that
    with a draw in [0, 1) a split of 0 or less sends every lead to
    [classic] and a split of 1 or more sends every lead to
    [experimental].  It never answers anything else. *)
Theorem assign_branch_cases :
  forall (t : Trial) (u : Q),
    (assign_branch t u = "classic" \/ assign_branch t u = "experimental") /\
    (status t <> RUNNING -> assign_branch t u = "classic") /\
    (status t = RUNNING ->
     (assign_branch t u = "experimental" <-> u < traffic_split t) /\
     (0 <= u -> traffic_split t <= 0 -> assign_branch t u = "classic") /\
     (u < 1 -> 1 <= traffic_split t -> assign_branch t u = "experimental")).
Proof.
  intros t u. unfold assign_branch.
  destruct (status_eqb (status t) RUNNING) eqn:Es; cbn [negb].
  - apply status_eqb_eq in Es. split; [|split].
    + destruct (Qltb u (traffic_split t)); auto.
    + intro H. contradiction.
    + intros _.
      destruct (Qltb u (traffic_split t)) eqn:E.
      * apply Qltb_true in E. split; [|split].
        -- split; auto.
        -- intros. lra.
        -- reflexivity.
      * apply Qltb_false in E. split; [|split].
        -- split; [discriminate | intro; lra].
        -- reflexivity.
        -- intros. lra.
  - split; [auto|]. split; [reflexivity|].
    intro H. apply status_eqb_eq in H. congruence.
Qed.

Lemma assign_branch_cases_witness :
  assign_branch (mkTrial "trial_x" "T" "d" (new_branch "classic" "c" JNull)
                   (new_branch "experimental_x" "e" JNull)
                   0.5 50 0.95 PAUSED None None) 0.1 = "classic" /\
  assign_branch (mkTrial "trial_x" "T" "d" (new_branch "classic" "c" JNull)
                   (new_branch "experimental_x" "e" JNull)
                   0.5 50 0.95 RUNNING None None) 0.1 = "experimental".
Proof.
  split.
  - destruct (assign_branch_cases
                (mkTrial "trial_x" "T" "d" (new_branch "classic" "c" JNull)
                   (new_branch "experimental_x" "e" JNull)
                   0.5 50 0.95 PAUSED None None) 0.1) as (_ & H & _).
    apply H. cbn. discriminate.
  - destruct (assign_branch_cases
                (mkTrial "trial_x" "T" "d" (new_branch "classic" "c" JNull)
                   (new_branch "experimental_x" "e" JNull)
                   0.5 50 0.95 RUNNING None None) 0.1) as (_ & _ & H).
    destruct (H eq_refl) as (Hiff & _). apply Hiff. cbn. lra.
Defined.

(** *** Counters of the branches *)

Lemma on_branch_invariant (P : TrialBranch -> Prop) (t : Trial)
    (branch : string) (f : TrialBranch -> TrialBranch) :
  (forall b, P b -> P (f b)) ->
  P (classic_branch t) /\ P (experimental_branch t) ->
  P (classic_branch (on_branch t branch f)) /\
  P (experimental_branch (on_branch t branch f)).
Proof.
  intros Hf [Hc He]. unfold on_branch.
  destruct (is_classic branch); cbn; auto.
Qed.

Lemma step_branch_invariant (P : TrialBranch -> Prop) :
  (forall n d c, P (new_branch n d c)) ->
  (forall tier b, P b -> P (count_qualification tier b)) ->
  (forall ty v cost b, P b -> P (count_outcome ty v cost b)) ->
  forall (self : TrialManager) (c : call),
    (forall t, In t (trials self) ->
       P (classic_branch t) /\ P (experimental_branch t)) ->
    forall t, In t (trials (step self c)) ->
      P (classic_branch t) /\ P (experimental_branch t).
Proof.
  intros Hnew Hq Ho self c Hinv t.
  destruct c as [now nm descr cfg split n | i | i | i | id br tier
                | id br ty v cost | id | id | id]; cbn [step].
  - unfold create_trial. cbn. intro H. apply in_app_or in H.
    destruct H as [H|[<-|[]]]; [auto|]. cbn. split; apply Hnew.
  - cbn. intro H. apply on_nth_In in H.
    destruct H as [H|(t0 & H0 & ->)]; [auto | apply (Hinv t0 H0)].
  - cbn. intro H. apply on_nth_In in H.
    destruct H as [H|(t0 & H0 & ->)]; [auto | apply (Hinv t0 H0)].
  - cbn. intro H. apply on_nth_In in H.
    destruct H as [H|(t0 & H0 & ->)]; [auto | apply (Hinv t0 H0)].
  - unfold record_qualification.
    destruct (_get_trial self id) as [t0|] eqn:E; [|auto].
    cbn. intro H. apply replace_trial_In in H.
    destruct H as [H| ->]; [auto|].
    destruct (find_trial_Some _ _ _ E) as [_ Hin].
    apply on_branch_invariant; [apply Hq | auto].
  - unfold record_outcome.
    destruct (_get_trial self id) as [t0|] eqn:E; [|auto].
    cbn. intro H. apply replace_trial_In in H.
    destruct H as [H| ->]; [auto|].
    destruct (find_trial_Some _ _ _ E) as [_ Hin].
    apply on_branch_invariant; [apply Ho | auto].
  - unfold evaluate_trial.
    destruct (_get_trial self id) as [t0|] eqn:E; [|cbn; auto].
    destruct (negb (is_ready_for_evaluation t0)); [cbn; auto|].
    destruct (verdict id t0); [cbn; auto|].
    destruct (find_trial_Some _ _ _ E) as [_ Hin].
    cbn. intro H. apply replace_trial_In in H.
    destruct H as [H| ->]; [auto | apply (Hinv t0 Hin)].
  - unfold promote_experimental.
    destruct (_get_trial self id) as [t0|] eqn:E; [|cbn; auto].
    destruct (negb (winner_is t0 "experimental")); [cbn; auto|].
    destruct (find_trial_Some _ _ _ E) as [_ Hin].
    cbn. destruct (confidence t0); cbn; intro H;
      apply replace_trial_In in H;
      (destruct H as [H| ->]; [auto | apply (Hinv t0 Hin)]).
  - unfold archive_trial.
    destruct (_get_trial self id) as [t0|] eqn:E; [|auto].
    destruct (find_trial_Some _ _ _ E) as [_ Hin].
    cbn. intro H. apply replace_trial_In in H.
    destruct H as [H| ->]; [auto | apply (Hinv t0 Hin)].
Qed.

Lemma count_qualification_ok (tier : string) (b : TrialBranch) :
  counters_ok b -> counters_ok (count_qualification tier b).
Proof.
  unfold counters_ok, counts_nonneg, tier_sum, count_qualification.
  cbv zeta. intros ((H1 & H2 & H3 & H4 & H5 & H6 & H7) & Hs).
  repeat match goal with
         | |- context [if ?c then _ else _] => destruct c
         end; cbn; repeat split; lia.
Qed.

Lemma count_outcome_ok (ty : string) (v cost : Q) (b : TrialBranch) :
  counters_ok b -> counters_ok (count_outcome ty v cost b).
Proof.
  unfold counters_ok, counts_nonneg, tier_sum, count_outcome.
  intros ((H1 & H2 & H3 & H4 & H5 & H6 & H7) & Hs).
  destruct (String.eqb ty "won"); cbn; repeat split; lia.
Qed.

(** X19.  Whatever calls a manager has received since it was created, the
    counters of both branches of each of its trials are counts (never
    negative), and the four tier counters together never exceed
    [leads_qualified]. *)
Theorem reachable_counters_ok :
  forall (standard : option json) (calls : list call) (t : Trial),
    In t (trials (run (new_manager standard) calls)) ->
    counters_ok (classic_branch t) /\ counters_ok (experimental_branch t).
Proof.
  intros standard calls.
  induction calls as [|c calls IH] using rev_ind.
  - intros t [].
  - rewrite run_snoc.
    apply (step_branch_invariant counters_ok); [| | | exact IH].
    + intros n d c0. unfold counters_ok, counts_nonneg, tier_sum. cbn.
      repeat split; lia.
    + apply count_qualification_ok.
    + apply count_outcome_ok.
Qed.

Lemma reachable_counters_ok_witness :
  exists t,
    _get_trial manager_experimental_ahead demo_id = Some t /\
    counters_ok (classic_branch t) /\ counters_ok (experimental_branch t).
Proof.
  destruct (_get_trial manager_experimental_ahead demo_id) as [t|] eqn:E;
    [|vm_compute in E; discriminate E].
  exists t. split; [reflexivity|].
  apply (reachable_counters_ok None demo_experimental_ahead t).
  apply (find_trial_Some _ _ _ E).
Defined.

(** X20.  [record_qualification] on a known trial adds one to
    [leads_qualified] of one branch, the classic one if the branch name
    contains "classic" in any spelling of upper and lower case and the
    experimental one for every other name, and leaves the other branch,
    the status and the verdict alone.  The tier counters of that branch
    grow by one in total if the tier is one of the four names, and not at
    all otherwise: a lead of an unknown tier is counted as qualified but
    under no tier. *)
Theorem record_qualification_effect :
  forall (self : TrialManager) (id branch tier : string) (t : Trial),
    _get_trial self id = Some t ->
    exists t',
      _get_trial (record_qualification self id branch tier) id = Some t' /\
      status t' = status t /\ winner t' = winner t /\
      (if is_classic branch
       then experimental_branch t' = experimental_branch t /\
            leads_qualified (classic_branch t')
              = (leads_qualified (classic_branch t) + 1)%Z /\
            tier_sum (classic_branch t')
              = (tier_sum (classic_branch t)
                 + if existsb (String.eqb tier)
                        ["hot"; "warm"; "cold"; "disqualified"]
                   then 1 else 0)%Z
       else classic_branch t' = classic_branch t /\
            leads_qualified (experimental_branch t')
              = (leads_qualified (experimental_branch t) + 1)%Z /\
            tier_sum (experimental_branch t')
              = (tier_sum (experimental_branch t)
                 + if existsb (String.eqb tier)
                        ["hot"; "warm"; "cold"; "disqualified"]
                   then 1 else 0)%Z).
Proof.
  intros self id branch tier t Ht.
  unfold record_qualification. rewrite Ht.
  exists (on_branch t branch (count_qualification tier)).
  destruct (find_trial_Some _ _ _ Ht) as [Hid _].
  split.
  - cbn. unfold _get_trial in *. apply (find_trial_replace _ _ t); [exact Ht|].
    destruct (on_branch_verdict t branch (count_qualification tier)) as [H _].
    rewrite H. exact Hid.
  - assert (Hsum : forall b,
              leads_qualified (count_qualification tier b)
                = (leads_qualified b + 1)%Z /\
              tier_sum (count_qualification tier b)
                = (tier_sum b
                   + if existsb (String.eqb tier)
                          ["hot"; "warm"; "cold"; "disqualified"]
                     then 1 else 0)%Z).
    { intro b. unfold count_qualification, tier_sum. cbv zeta.
      cbn [existsb].
      destruct (String.eqb tier "hot"); [cbn; split; lia|].
      destruct (String.eqb tier "warm"); [cbn; split; lia|].
      destruct (String.eqb tier "cold"); [cbn; split; lia|].
      destruct (String.eqb tier "disqualified"); cbn; split; lia. }
    unfold on_branch. destruct (is_classic branch); cbn;
      (split; [reflexivity|]); (split; [reflexivity|]);
      (split; [reflexivity|]); apply Hsum.
Qed.

Lemma record_qualification_effect_witness :
  exists t',
    _get_trial (record_qualification manager_created demo_id
                  "CLASSIC-v2" "lukewarm") demo_id = Some t' /\
    leads_qualified (classic_branch t') = 1%Z /\
    tier_sum (classic_branch t') = 0%Z.
Proof.
  destruct (_get_trial manager_created demo_id) as [t|] eqn:E;
    [|vm_compute in E; discriminate E].
  destruct (record_qualification_effect manager_created demo_id
              "CLASSIC-v2" "lukewarm" t E) as (t' & Ht' & _ & _ & H).
  exists t'. split; [exact Ht'|].
  change (is_classic "CLASSIC-v2") with true in H.
  destruct H as (_ & Hq & Hs).
  assert (Hz : leads_qualified (classic_branch t) = 0%Z /\
               tier_sum (classic_branch t) = 0%Z).
  { vm_compute in E. injection E as <-. vm_compute. split; reflexivity. }
  destruct Hz as [Hz1 Hz2]. rewrite Hq, Hs, Hz1, Hz2. split; reflexivity.
Defined.

(** *** Evaluation *)




Lemma Qeq_bool_false (a : Q) : Qeq_bool a 0 = false -> ~ a == 0.
Proof. intros H E. apply Qeq_bool_iff in E. congruence. Qed.












(** *** Promotion *)

(** X24.  A promotion of a trial whose recorded winner is [experimental]
    takes effect whatever the status of the trial is: the standard file
    then holds the configuration of the experimental branch, the history
    has one more entry, which keeps the standard that was replaced, and
    the trial is [PROMOTED].  The classic branch of every trial created
    afterwards starts from the promoted configuration. *)
Theorem promote_experimental_effect :
  forall (self : TrialManager) (id : string) (t : Trial),
    _get_trial self id = Some t ->
    winner t = Some "experimental" ->
    standard_file (state_of (promote_experimental self id))
      = Some (config (experimental_branch t)) /\
    standards_history (state_of (promote_experimental self id))
      = standards_history self
        ++ [mkHistoryEntry (_get_current_standard self)
                           (name (experimental_branch t)) id] /\
    _get_trial (state_of (promote_experimental self id)) id
      = Some (set_status t PROMOTED) /\
    (confidence t <> None ->
     exists self', promote_experimental self id = Returned self' tt) /\
    (forall (now nm descr : string) (cfg : json) (split : Q) (n : Z),
       config (classic_branch
                 (snd (create_trial (state_of (promote_experimental self id))
                                    now nm descr cfg split n)))
       = config (experimental_branch t)).
Proof.
  intros self id t Ht Hw.
  destruct (find_trial_Some _ _ _ Ht) as [Hid _].
  unfold promote_experimental. rewrite Ht.
  unfold winner_is. rewrite Hw. cbn [String.eqb Ascii.eqb Bool.eqb negb].
  assert (Hget : find_trial (replace_trial (trials self) id
                               (set_status t PROMOTED)) id
                 = Some (set_status t PROMOTED)).
  { apply (find_trial_replace _ _ t); [exact Ht | exact Hid]. }
  change (confidence (set_status t PROMOTED)) with (confidence t).
  destruct (confidence t) as [c|] eqn:Ec; cbn;
    (split; [reflexivity|]); (split; [reflexivity|]);
    (split; [exact Hget|]); (split; [|reflexivity]).
  - intros _. eexists; reflexivity.
  - intro H. contradiction.
Qed.

Lemma promote_experimental_effect_witness :
  exists t,
    _get_trial manager_experimental_won demo_id = Some t /\
    standard_file (state_of (promote_experimental manager_experimental_won
                               demo_id))
      = Some (JDict [("approach", JStr "authority_weighted")]) /\
    _get_trial (state_of (promote_experimental manager_experimental_won
                            demo_id)) demo_id
      = Some (set_status t PROMOTED).
Proof.
  destruct (_get_trial manager_experimental_won demo_id) as [t|] eqn:E;
    [|vm_compute in E; discriminate E].
  assert (Hw : winner t = Some "experimental" /\
               config (experimental_branch t)
                 = JDict [("approach", JStr "authority_weighted")]).
  { vm_compute in E. injection E as <-. split; reflexivity. }
  destruct Hw as [Hw Hc].
  destruct (promote_experimental_effect manager_experimental_won demo_id t
              E Hw) as (H1 & _ & H3 & _).
  exists t. split; [reflexivity|]. rewrite <- Hc. split; assumption.
Defined.

(** *** Trials that share an id *)

Lemma replace_trial_split (ts : list Trial) (id : string) (t : Trial) :
  find_trial ts id = Some t ->
  exists pre post,
    ts = pre ++ t :: post /\
    Forall (fun x => trial_id x <> id) pre /\
    forall t', replace_trial ts id t' = pre ++ t' :: post.
Proof.
  induction ts as [|t0 rest IH]; simpl; [discriminate|].
  destruct (String.eqb (trial_id t0) id) eqn:E.
  - intro H; injection H as <-. exists [], rest.
    split; [reflexivity|]. split; [constructor | reflexivity].
  - intro H. destruct (IH H) as (pre & post & -> & Hf & Hr).
    exists (t0 :: pre), post. split; [reflexivity|]. split.
    + constructor; [apply String.eqb_neq; exact E | exact Hf].
    + intro t'. rewrite Hr. reflexivity.
Qed.

Lemma find_trial_app (pre : list Trial) (id : string) (t : Trial)
    (post : list Trial) :
  find_trial pre id = Some t -> find_trial (pre ++ post) id = Some t.
Proof.
  induction pre as [|t0 rest IH]; simpl; [discriminate|].
  destruct (String.eqb (trial_id t0) id); [auto | exact IH].
Qed.

(** What a call that names a trial does to the list of trials. *)
Lemma step_addressed (self : TrialManager) (c : call) (id : string) :
  addressed c = Some id ->
  match _get_trial self id with
  | None => step self c = self
  | Some t =>
      exists t', trial_id t' = id /\
                 trials (step self c) = replace_trial (trials self) id t'
  end.
Proof.
  assert (Hsame : forall t, find_trial (trials self) id = Some t ->
            trial_id t = id /\
            trials self = replace_trial (trials self) id t).
  { intros t Ht. destruct (find_trial_Some _ _ _ Ht) as [Hid _].
    split; [exact Hid|].
    destruct (replace_trial_split _ _ _ Ht) as (pre & post & Hts & _ & Hr).
    rewrite Hr. exact Hts. }
  destruct c as [now nm descr cfg split n | i | i | i | id' br tier
                | id' br ty v cost | id' | id' | id']; cbn [addressed];
    try discriminate; intro H; injection H as ->; cbn [step].
  - unfold record_qualification.
    destruct (_get_trial self id) as [t|] eqn:E; [|reflexivity].
    eexists. split; [|cbn; reflexivity].
    destruct (on_branch_verdict t br (count_qualification tier)) as [-> _].
    apply (find_trial_Some _ _ _ E).
  - unfold record_outcome.
    destruct (_get_trial self id) as [t|] eqn:E; [|reflexivity].
    eexists. split; [|cbn; reflexivity].
    destruct (on_branch_verdict t br (count_outcome ty v cost)) as [-> _].
    apply (find_trial_Some _ _ _ E).
  - unfold evaluate_trial.
    destruct (_get_trial self id) as [t|] eqn:E; [|reflexivity].
    destruct (Hsame t E) as [Hid Hts].
    destruct (negb (is_ready_for_evaluation t));
      [exists t; split; [exact Hid | exact Hts]|].
    destruct (verdict id t);
      [exists t; split; [exact Hid | exact Hts]|].
    eexists. split; [|cbn; reflexivity]. exact Hid.
  - unfold promote_experimental.
    destruct (_get_trial self id) as [t|] eqn:E; [|reflexivity].
    destruct (Hsame t E) as [Hid Hts].
    destruct (negb (winner_is t "experimental"));
      [exists t; split; [exact Hid | exact Hts]|].
    exists (set_status t PROMOTED). split; [exact Hid|].
    change (confidence (set_status t PROMOTED)) with (confidence t).
    destruct (confidence t); reflexivity.
  - unfold archive_trial.
    destruct (_get_trial self id) as [t|] eqn:E; [|reflexivity].
    eexists. split; [|cbn; reflexivity].
    apply (find_trial_Some _ _ _ E).
Qed.

(** X25.  A call that names a trial by its id does nothing at all when no
    trial has that id, and otherwise changes at most the first trial of
    the list that has it: every other trial, also one with the same id,
    stays as it is.  Two trials get the same id when they are created
    within the same second, and the one created second can then never be
    reached through its id. *)
Theorem calls_reach_first_trial_only :
  (forall (self : TrialManager) (c : call) (id : string),
     addressed c = Some id ->
     (_get_trial self id = None -> step self c = self) /\
     (forall t, _get_trial self id = Some t ->
        exists pre post t',
          trials self = pre ++ t :: post /\
          Forall (fun x => trial_id x <> id) pre /\
          trial_id t' = id /\
          trials (step self c) = pre ++ t' :: post)) /\
  (forall (self : TrialManager) (now nm descr : string) (cfg : json)
          (split : Q) (n : Z) (t : Trial),
     _get_trial self (String.append "trial_" now) = Some t ->
     trial_id (snd (create_trial self now nm descr cfg split n))
       = String.append "trial_" now /\
     In (snd (create_trial self now nm descr cfg split n))
        (trials (fst (create_trial self now nm descr cfg split n))) /\
     _get_trial (fst (create_trial self now nm descr cfg split n))
                (String.append "trial_" now) = Some t).
Proof.
  split.
  - intros self c id Ha. pose proof (step_addressed self c id Ha) as H.
    split.
    + intro Hn. rewrite Hn in H. exact H.
    + intros t Ht. unfold _get_trial in *. rewrite Ht in H.
      destruct H as (t' & Hid & Hts).
      destruct (replace_trial_split _ _ _ Ht) as (pre & post & Hl & Hf & Hr).
      exists pre, post, t'. rewrite Hts, Hr. auto.
  - intros self now nm descr cfg split n t Ht.
    unfold create_trial. cbn. split; [reflexivity|]. split.
    + apply in_or_app. right. left. reflexivity.
    + unfold _get_trial in *. cbn. apply find_trial_app. exact Ht.
Qed.

Lemma calls_reach_first_trial_only_witness :
  step manager_created (ArchiveTrial "trial_unknown") = manager_created /\
  (exists t,
     _get_trial manager_created demo_id = Some t /\
     _get_trial (fst (create_trial manager_created "20260101_000000"
                        "Second" "same second" JNull 0.5 10))
                demo_id = Some t).
Proof.
  destruct calls_reach_first_trial_only as [Hcalls Hcreate]. split.
  - apply (Hcalls manager_created (ArchiveTrial "trial_unknown")
                  "trial_unknown"); reflexivity.
  - destruct (_get_trial manager_created demo_id) as [t|] eqn:E;
      [|vm_compute in E; discriminate E].
    exists t. split; [reflexivity|].
    apply (Hcreate manager_created "20260101_000000" "Second" "same second"
                   JNull 0.5 10%Z t).
    exact E.
Defined.

End TrialMore.

(* ================================================================== *)
(** ** Properties of the pattern analysis *)
(* ================================================================== *)

Module PatternProps.
Import Py.
Import Graveyard.
Import LensProps.

(** *** Counters *)

Section Counters.

Variable K : Type.
Variable eqb : K -> K -> bool.
Hypothesis eqb_spec : forall a b : K, eqb a b = true <-> a = b.

Lemma eqb_refl_true (a : K) : eqb a a = true.
Proof. apply eqb_spec. reflexivity. Qed.

Lemma counter_add_get (c : list (K * nat)) (x k : K) :
  counter_get eqb (counter_add eqb c x) k
  = (counter_get eqb c k + if eqb x k then 1 else 0)%nat.
Proof.
  induction c as [|[k' n] rest IH]; simpl.
  - destruct (eqb x k); reflexivity.
  - destruct (eqb k' x) eqn:Ex; simpl.
    + apply eqb_spec in Ex. subst k'.
      destruct (eqb x k); lia.
    + destruct (eqb k' k) eqn:Ek.
      * apply eqb_spec in Ek. subst k'.
        destruct (eqb x k) eqn:Exk; [|lia].
        apply eqb_spec in Exk. subst x.
        rewrite eqb_refl_true in Ex. discriminate.
      * exact IH.
Qed.

Lemma fold_counter_get (l : list K) :
  forall (c : list (K * nat)) (k : K),
    counter_get eqb (fold_left (counter_add eqb) l c) k
    = (counter_get eqb c k + length (filter (fun x => eqb x k) l))%nat.
Proof.
  induction l as [|x rest IH]; intros c k; simpl.
  - lia.
  - rewrite IH, counter_add_get. destruct (eqb x k); simpl; lia.
Qed.

Lemma counter_add_keys (c : list (K * nat)) (x k : K) :
  In k (map fst (counter_add eqb c x)) -> k = x \/ In k (map fst c).
Proof.
  induction c as [|[k' n] rest IH]; simpl.
  - intros [H|[]]; auto.
  - destruct (eqb k' x); simpl.
    + intros [H|H]; auto.
    + intros [H|H]; auto. destruct (IH H); auto.
Qed.

Lemma counter_add_well_formed (c : list (K * nat)) (x : K) :
  well_formed c -> well_formed (counter_add eqb c x).
Proof.
  unfold well_formed. induction c as [|[k' n] rest IH]; simpl.
  - intros _. split; repeat constructor. intros [].
  - intros [Hn Hf]. inversion Hn as [|? ? Hnot Hn']; subst.
    inversion Hf as [|? ? H1 Hf']; subst.
    destruct (eqb k' x) eqn:Ex; simpl.
    + split; [exact Hn|]. constructor; [simpl; lia | exact Hf'].
    + destruct (IH (conj Hn' Hf')) as [IH1 IH2].
      split; [|constructor; assumption].
      constructor; [|exact IH1].
      intro Hin. apply counter_add_keys in Hin.
      destruct Hin as [->|Hin]; [|contradiction].
      rewrite eqb_refl_true in Ex. discriminate.
Qed.

Lemma Counter_well_formed (l : list K) : well_formed (Counter eqb l).
Proof.
  unfold Counter.
  assert (H : forall c, well_formed c ->
                        well_formed (fold_left (counter_add eqb) l c)).
  { induction l as [|x rest IH]; intros c Hc; simpl; [exact Hc|].
    apply IH. apply counter_add_well_formed. exact Hc. }
  apply H. split; constructor.
Qed.

Lemma In_counter_get (c : list (K * nat)) (k : K) (n : nat) :
  NoDup (map fst c) -> In (k, n) c -> counter_get eqb c k = n.
Proof.
  induction c as [|[k' n'] rest IH]; simpl; [tauto|].
  intros Hn Hin. inversion Hn as [|? ? Hnot Hn']; subst.
  destruct Hin as [H|H].
  - injection H as -> ->. rewrite eqb_refl_true. reflexivity.
  - destruct (eqb k' k) eqn:Ek.
    + apply eqb_spec in Ek. subst k'. exfalso. apply Hnot.
      apply (in_map fst) in H. exact H.
    + apply IH; assumption.
Qed.

(** An item of a counter holds the number of occurrences of its key. *)
Lemma Counter_item (l : list K) (k : K) (n : nat) :
  In (k, n) (Counter eqb l) ->
  n = length (filter (fun x => eqb x k) l) /\ (1 <= n)%nat.
Proof.
  intro Hin. destruct (Counter_well_formed l) as [Hn Hf].
  pose proof (In_counter_get _ k n Hn Hin) as Hg.
  unfold Counter in Hg. rewrite fold_counter_get in Hg. simpl in Hg.
  split; [lia|].
  rewrite Forall_forall in Hf. apply (Hf (k, n) Hin).
Qed.

Lemma Counter_key_In (l : list K) (k : K) (n : nat) :
  In (k, n) (Counter eqb l) -> In k l.
Proof.
  intro Hin. destruct (Counter_item l k n Hin) as [Hn H1].
  destruct (filter (fun x => eqb x k) l) as [|x rest] eqn:Ef.
  - simpl in Hn. lia.
  - assert (Hx : In x (filter (fun x => eqb x k) l))
      by (rewrite Ef; left; reflexivity).
    apply filter_In in Hx. destruct Hx as [Hx He].
    apply eqb_spec in He. subst x. exact Hx.
Qed.

Lemma counter_get_In (c : list (K * nat)) (k : K) :
  counter_get eqb c k <> 0%nat -> In (k, counter_get eqb c k) c.
Proof.
  induction c as [|[k' n] rest IH]; simpl; [congruence|].
  destruct (eqb k' k) eqn:Ek.
  - apply eqb_spec in Ek. subst k'. intros _. left. reflexivity.
  - intro H. right. apply IH. exact H.
Qed.

(** A key that occurs in the list has an item in the counter. *)
Lemma Counter_complete (l : list K) (k : K) :
  In k l -> In (k, length (filter (fun x => eqb x k) l)) (Counter eqb l).
Proof.
  intro Hin.
  assert (Hg : counter_get eqb (Counter eqb l) k
               = length (filter (fun x => eqb x k) l)).
  { unfold Counter. rewrite fold_counter_get. reflexivity. }
  rewrite <- Hg. apply counter_get_In. rewrite Hg.
  assert (Hx : In k (filter (fun x => eqb x k) l)).
  { apply filter_In. split; [exact Hin | apply eqb_refl_true]. }
  destruct (filter (fun x => eqb x k) l); [contradiction | discriminate].
Qed.

Lemma insert_by_count_In (x y : K * nat) (l : list (K * nat)) :
  In y (insert_by_count x l) -> y = x \/ In y l.
Proof.
  induction l as [|z zs IH]; simpl.
  - intros [H|[]]; auto.
  - destruct (snd x <? snd z)%nat; simpl.
    + intros [H|H]; auto. destruct (IH H); auto.
    + intros [H|[H|H]]; auto.
Qed.

Lemma In_firstn_In {A} (n : nat) (l : list A) (y : A) :
  In y (firstn n l) -> In y l.
Proof.
  intro H. rewrite <- (firstn_skipn n l). apply in_or_app. left. exact H.
Qed.

Lemma most_common_In (n : nat) (c : list (K * nat)) (y : K * nat) :
  In y (most_common n c) -> In y c.
Proof.
  unfold most_common. intro H. apply In_firstn_In in H.
  induction c as [|z zs IH]; simpl in *; [exact H|].
  apply insert_by_count_In in H. destruct H as [->|H]; auto.
Qed.

Lemma most_common_length (n : nat) (c : list (K * nat)) :
  (length (most_common n c) <= n)%nat.
Proof. unfold most_common. apply firstn_le_length. Qed.

End Counters.

Lemma opt_eqb_spec (a b : option string) : opt_eqb a b = true <-> a = b.
Proof.
  destruct a as [x|], b as [y|]; simpl; split; intro H;
    try discriminate; try reflexivity.
  - apply String.eqb_eq in H. congruence.
  - injection H as ->. apply String.eqb_refl.
Qed.

(** *** Lists built with [flat_map] from guarded singletons *)

Lemma flat_map_length_le {A B} (g : A -> list B) (l : list A) :
  (forall a, length (g a) <= 1)%nat ->
  (length (flat_map g l) <= length l)%nat.
Proof.
  intro Hg. induction l as [|a rest IH]; simpl; [lia|].
  rewrite length_app. specialize (Hg a). lia.
Qed.

Lemma filter_map_length {A B} (f : B -> bool) (g : A -> B) (l : list A) :
  length (filter f (map g l)) = length (filter (fun a => f (g a)) l).
Proof.
  induction l as [|a rest IH]; simpl; [reflexivity|].
  destruct (f (g a)); simpl; rewrite IH; reflexivity.
Qed.

Lemma priority_of_count (count bound : nat) :
  (if (bound <? count)%nat then "high" else "medium")
  = (if (Z.of_nat bound <? Z.of_nat count)%Z then "high" else "medium").
Proof.
  destruct (bound <? count)%nat eqn:E1;
    destruct (Z.of_nat bound <? Z.of_nat count)%Z eqn:E2; try reflexivity.
  - apply Nat.ltb_lt in E1. apply Z.ltb_ge in E2. lia.
  - apply Nat.ltb_ge in E1. apply Z.ltb_lt in E2. lia.
Qed.

(** *** Pattern 1: competitors *)

Lemma named_competitor_truthy (leads : list Outcome) (c : string) :
  In c (flat_map (fun o => if opt_truthy (o_competitor_chosen o)
                           then [or_empty (o_competitor_chosen o)] else [])
                 leads) ->
  str_truthy c = true.
Proof.
  intro H. apply in_flat_map in H. destruct H as (o & _ & H).
  destruct (o_competitor_chosen o) as [s|]; [|contradiction].
  destruct s as [|a s]; [contradiction|].
  simpl in H. destruct H as [<-|[]]. reflexivity.
Qed.

Lemma named_competitor_count (leads : list Outcome) (c : string) :
  str_truthy c = true ->
  length (filter (fun x => String.eqb x c)
            (flat_map (fun o => if opt_truthy (o_competitor_chosen o)
                                then [or_empty (o_competitor_chosen o)]
                                else [])
                      leads))
  = length (filter (fun o => is_str (o_competitor_chosen o) c) leads).
Proof.
  intro Hc. induction leads as [|o rest IH]; [reflexivity|].
  cbn [flat_map filter]. rewrite filter_app, length_app, IH. clear IH.
  set (tail := filter (fun o => is_str (o_competitor_chosen o) c) rest).
  destruct (o_competitor_chosen o) as [s|]; [|reflexivity].
  change (is_str (Some s) c) with (String.eqb s c).
  destruct s as [|a s].
  - cbn [opt_truthy str_truthy filter length]. destruct c; [discriminate|].
    reflexivity.
  - cbn [opt_truthy str_truthy or_empty filter].
    destruct (String.eqb (String a s) c); reflexivity.
Qed.

Lemma competitor_patterns_item (self : GraveyardManager) (p : FailurePattern) :
  In p (competitor_patterns self) ->
  exists (competitor : string) (count : nat),
    str_truthy competitor = true /\
    (2 <= count)%nat /\
    count = length (lost_to self competitor) /\
    p = {| pattern_type :=
             String.append "frequent_loss_to_"
                           (replace_char " " "_" competitor);
           frequency := Z.of_nat count;
           affected_leads := map o_lead_id (lost_to self competitor);
           avg_coherence_at_fail :=
             _avg_coherence self (map o_lead_id (lost_to self competitor));
           primary_tier :=
             Some (_primary_tier self
                     (map o_lead_id (lost_to self competitor)));
           recommended_action :=
             String.concat ""
               [ "Conduct competitive analysis vs "; competitor;
                 ". Create battle card." ];
           priority := if (3 <? count)%nat then "high" else "medium" |}.
Proof.
  unfold competitor_patterns. cbv zeta.
  set (competitors :=
         flat_map (fun o => if opt_truthy (o_competitor_chosen o)
                            then [or_empty (o_competitor_chosen o)] else [])
                  (graveyard_leads self)).
  destruct (list_truthy competitors); [|contradiction].
  intro Hin. apply in_flat_map in Hin. destruct Hin as ([c n] & Hmc & Hp).
  apply most_common_In in Hmc.
  destruct (2 <=? n)%nat eqn:E2; [|contradiction].
  destruct Hp as [<-|[]]. apply Nat.leb_le in E2.
  pose proof (Counter_key_In _ String.eqb String.eqb_eq _ _ _ Hmc) as Hk.
  apply named_competitor_truthy in Hk.
  destruct (Counter_item _ String.eqb String.eqb_eq _ _ _ Hmc) as [Hn _].
  unfold competitors in Hn. rewrite (named_competitor_count _ _ Hk) in Hn.
  exists c, n. split; [exact Hk|]. split; [exact E2|].
  split; [exact Hn|]. reflexivity.
Qed.

(** X26.  [analyze_patterns] reports at most three competitors.  Each
    pattern of a loss to a competitor names a competitor that is not the
    empty string; its affected leads are the leads of the outcomes that
    chose this competitor, in the order of the graveyard; its frequency
    is their number, which is 2 or more; and its priority is [high] when
    the frequency exceeds 3 and [medium] otherwise. *)
Theorem competitor_patterns_sound :
  forall self : GraveyardManager,
    (length (competitor_patterns self) <= 3)%nat /\
    forall p : FailurePattern,
      In p (competitor_patterns self) ->
      exists competitor : string,
        competitor <> "" /\
        pattern_type p
        = String.append "frequent_loss_to_"
                        (replace_char " " "_" competitor) /\
        affected_leads p = map o_lead_id (lost_to self competitor) /\
        frequency p = Z.of_nat (length (affected_leads p)) /\
        (2 <= frequency p)%Z /\
        priority p = (if (3 <? frequency p)%Z then "high" else "medium").
Proof.
  intro self. split.
  - unfold competitor_patterns. cbv zeta.
    match goal with
    | |- context [list_truthy ?l] => destruct (list_truthy l)
    end; [|simpl; lia].
    etransitivity; [apply flat_map_length_le|apply most_common_length].
    intros [c n]. destruct (2 <=? n)%nat; simpl; lia.
  - intros p Hin.
    destruct (competitor_patterns_item self p Hin)
      as (c & n & Hc & H2 & Hn & ->).
    exists c. cbn [pattern_type affected_leads frequency priority].
    split; [intros ->; discriminate|]. split; [reflexivity|].
    split; [reflexivity|]. rewrite length_map, <- Hn.
    split; [reflexivity|]. split; [lia|].
    apply (priority_of_count n 3).
Qed.

Lemma competitor_patterns_sound_witness :
  exists p : FailurePattern,
    In p (competitor_patterns demo_graveyard) /\
    affected_leads p = ["d1"; "d3"] /\
    frequency p = 2%Z /\
    priority p = "medium".
Proof.
  assert (H : exists p, In p (competitor_patterns demo_graveyard) /\
                        affected_leads p = ["d1"; "d3"]).
  { vm_compute. eexists. split; [left; reflexivity | reflexivity]. }
  destruct H as (p & Hin & Ha). exists p.
  destruct (competitor_patterns_sound demo_graveyard) as [_ Hs].
  destruct (Hs p Hin) as (c & _ & _ & _ & Hf & _ & Hp).
  rewrite Ha in Hf. cbn in Hf. rewrite Hf in Hp.
  split; [exact Hin|]. split; [exact Ha|]. split; [exact Hf|]. exact Hp.
Defined.

(** *** Pattern 2: tiers that go dark *)

Lemma dark_patterns_item (self : GraveyardManager) (p : FailurePattern) :
  In p (dark_patterns self) <->
  (3 <= length (dark_leads self))%nat /\
  exists (tier : option string) (count : nat),
    In (tier, count)
       (Counter opt_eqb (map o_qualification_tier (dark_leads self))) /\
    (2 <= count)%nat /\
    p = {| pattern_type := String.append (str_of tier) "_tier_going_dark";
           frequency := Z.of_nat count;
           affected_leads :=
             map o_lead_id
                 (filter (fun o => opt_eqb (o_qualification_tier o) tier)
                         (dark_leads self));
           avg_coherence_at_fail :=
             _avg_coherence self
               (map o_lead_id
                    (filter (fun o => opt_eqb (o_qualification_tier o) tier)
                            (dark_leads self)));
           primary_tier := tier;
           recommended_action :=
             String.concat ""
               [ "Review engagement strategy for "; str_of tier;
                 " leads. May need different cadence/content." ];
           priority := if is_str tier "hot" then "high" else "medium" |}.
Proof.
  unfold dark_patterns. cbv zeta. fold (dark_leads self).
  destruct (3 <=? length (dark_leads self))%nat eqn:E3.
  - apply Nat.leb_le in E3. rewrite in_flat_map. split.
    + intros ([t n] & Hc & Hp).
      destruct (2 <=? n)%nat eqn:E2; [|contradiction].
      destruct Hp as [<-|[]]. apply Nat.leb_le in E2.
      split; [exact E3|]. exists t, n. auto.
    + intros (_ & t & n & Hc & H2 & ->). exists (t, n).
      split; [exact Hc|]. apply Nat.leb_le in H2. rewrite H2.
      left. reflexivity.
  - apply Nat.leb_gt in E3. split; [contradiction|].
    intros [H _]. lia.
Qed.

Lemma dark_tier_count (self : GraveyardManager) (tier : option string)
    (count : nat) :
  In (tier, count)
     (Counter opt_eqb (map o_qualification_tier (dark_leads self))) ->
  count = length (filter (fun o => opt_eqb (o_qualification_tier o) tier)
                         (dark_leads self)).
Proof.
  intro H. destruct (Counter_item _ opt_eqb opt_eqb_spec _ _ _ H) as [Hn _].
  rewrite filter_map_length in Hn. exact Hn.
Qed.

Lemma dark_patterns_tiers :
  forall c : list (option string * nat),
    NoDup (map fst c) ->
    forall g : option string * nat -> list FailurePattern,
      (forall item p, In p (g item) -> primary_tier p = fst item) ->
      (forall item, (length (g item) <= 1)%nat) ->
      NoDup (map primary_tier (flat_map g c)).
Proof.
  induction c as [|item rest IH]; intros Hn g Hg Hl; simpl; [constructor|].
  inversion Hn as [|? ? Hnot Hn']; subst.
  rewrite map_app. specialize (IH Hn' g Hg Hl).
  assert (Hrest : forall t, In t (map primary_tier (flat_map g rest)) ->
                            In t (map fst rest)).
  { intros t Ht. apply in_map_iff in Ht. destruct Ht as (p & <- & Hp).
    apply in_flat_map in Hp. destruct Hp as (it & Hit & Hp).
    rewrite (Hg it p Hp). apply in_map. exact Hit. }
  pose proof (Hl item) as Hlen. pose proof (Hg item) as Hitem.
  destruct (g item) as [|p [|q more]]; simpl in *; [exact IH| |lia].
  constructor; [|exact IH].
  intro Hin. apply Hnot. rewrite <- (Hitem p (or_introl eq_refl)).
  apply Hrest. exact Hin.
Qed.

(** X27.  [analyze_patterns] reports tiers that go dark only when three
    outcomes or more went dark.  It then reports exactly the tiers (the
    missing tier among them) that two or more of these outcomes have,
    each once; the affected leads of such a pattern are the leads that
    went dark at its tier, in the order of the graveyard, its frequency
    is their number, and its priority is [high] for the tier hot and
    [medium] for every other tier. *)
Theorem dark_patterns_sound :
  forall self : GraveyardManager,
    ((length (dark_leads self) < 3)%nat -> dark_patterns self = []) /\
    NoDup (map primary_tier (dark_patterns self)) /\
    (forall tier : option string,
       (3 <= length (dark_leads self))%nat ->
       (In tier (map primary_tier (dark_patterns self)) <->
        (2 <= length (filter (fun o => opt_eqb (o_qualification_tier o) tier)
                             (dark_leads self)))%nat)) /\
    (forall p : FailurePattern,
       In p (dark_patterns self) ->
       affected_leads p
       = map o_lead_id
             (filter (fun o => opt_eqb (o_qualification_tier o)
                                       (primary_tier p))
                     (dark_leads self)) /\
       frequency p = Z.of_nat (length (affected_leads p)) /\
       (2 <= frequency p)%Z /\
       pattern_type p
       = String.append (str_of (primary_tier p)) "_tier_going_dark" /\
       priority p
       = (if is_str (primary_tier p) "hot" then "high" else "medium")).
Proof.
  intro self. split; [|split; [|split]].
  - intro Hlt. unfold dark_patterns. cbv zeta. fold (dark_leads self).
    apply Nat.ltb_lt in Hlt. rewrite Nat.ltb_antisym in Hlt.
    apply negb_true_iff in Hlt. rewrite Hlt. reflexivity.
  - unfold dark_patterns. cbv zeta. fold (dark_leads self).
    destruct (3 <=? length (dark_leads self))%nat; [|constructor].
    apply dark_patterns_tiers.
    + apply (proj1 (Counter_well_formed _ opt_eqb opt_eqb_spec _)).
    + intros [t n] p. destruct (2 <=? n)%nat; [|contradiction].
      intros [<-|[]]. reflexivity.
    + intros [t n]. destruct (2 <=? n)%nat; simpl; lia.
  - intros tier H3. rewrite in_map_iff. split.
    + intros (p & Ht & Hin). apply dark_patterns_item in Hin.
      destruct Hin as (_ & t & n & Hc & H2 & ->). cbn in Ht. subst t.
      rewrite <- (dark_tier_count self tier n Hc). exact H2.
    + intro H2.
      set (n := length (filter (fun o => opt_eqb (o_qualification_tier o) tier)
                               (dark_leads self))) in *.
      assert (Hc : In (tier, n)
                      (Counter opt_eqb
                         (map o_qualification_tier (dark_leads self)))).
      { assert (En : n = length (filter (fun x => opt_eqb x tier)
                                        (map o_qualification_tier
                                             (dark_leads self)))).
        { symmetry.
          apply (filter_map_length (fun x => opt_eqb x tier)
                                   o_qualification_tier). }
        rewrite En. apply (Counter_complete _ opt_eqb opt_eqb_spec).
        clear En. subst n.
        destruct (filter (fun o => opt_eqb (o_qualification_tier o) tier)
                         (dark_leads self)) as [|o rest] eqn:Ef;
          [simpl in H2; lia|].
        assert (Ho : In o (filter (fun o => opt_eqb (o_qualification_tier o)
                                                    tier)
                                  (dark_leads self)))
          by (rewrite Ef; left; reflexivity).
        apply filter_In in Ho. destruct Ho as [Ho He].
        apply opt_eqb_spec in He. subst tier. apply in_map. exact Ho. }
      eexists. split; [|apply dark_patterns_item; split; [exact H3|];
                        exists tier, n; split; [exact Hc|];
                        split; [exact H2 | reflexivity]].
      reflexivity.
  - intros p Hin. apply dark_patterns_item in Hin.
    destruct Hin as (_ & t & n & Hc & H2 & ->).
    cbn [affected_leads frequency pattern_type priority primary_tier].
    rewrite length_map, <- (dark_tier_count self t n Hc).
    split; [reflexivity|]. split; [reflexivity|]. split; [lia|].
    split; reflexivity.
Qed.

Lemma dark_patterns_sound_witness :
  (3 <= length (dark_leads demo_graveyard))%nat /\
  In (Some "warm") (map primary_tier (dark_patterns demo_graveyard)) /\
  ~ In (Some "cold") (map primary_tier (dark_patterns demo_graveyard)) /\
  exists p : FailurePattern,
    In p (dark_patterns demo_graveyard) /\
    affected_leads p = ["k1"; "k2"] /\
    frequency p = 2%Z /\
    priority p = "medium".
Proof.
  assert (H3 : (3 <= length (dark_leads demo_graveyard))%nat)
    by (vm_compute; lia).
  destruct (dark_patterns_sound demo_graveyard) as (_ & _ & Ht & Hs).
  split; [exact H3|]. split; [|split].
  - apply (Ht (Some "warm") H3). vm_compute. lia.
  - intro Hin. apply (Ht (Some "cold") H3) in Hin. vm_compute in Hin. lia.
  - assert (H : exists p, In p (dark_patterns demo_graveyard) /\
                          primary_tier p = Some "warm").
    { vm_compute. eexists. split; [left; reflexivity | reflexivity]. }
    destruct H as (p & Hin & Htier). exists p.
    destruct (Hs p Hin) as (Ha & Hf & _ & _ & Hp).
    rewrite Htier in Ha, Hp. cbn in Ha. rewrite Ha in Hf. cbn in Hf.
    split; [exact Hin|]. split; [exact Ha|]. split; [exact Hf|]. exact Hp.
Defined.

(** *** Pattern 4: categories of nutrients *)




(** *** Pattern 3 and the analysis as a whole *)

Lemma sum_scores_raises (l : list Outcome) :
  Exists (fun o => o_coherence_score o = Null) l ->
  forall acc : Q, sum_scores acc l = inl TypeError.
Proof.
  induction 1 as [o rest H|o rest H IH]; intro acc; simpl.
  - rewrite H. reflexivity.
  - destruct (o_coherence_score o); simpl; auto.
Qed.

Lemma sum_scores_returns (l : list Outcome) :
  ~ Exists (fun o => o_coherence_score o = Null) l ->
  forall acc : Q,
    sum_scores acc l = inr (fold_left Qplus (map score_or_zero l) acc).
Proof.
  induction l as [|o rest IH]; intros Hn acc; simpl; [reflexivity|].
  assert (Hrest : ~ Exists (fun o => o_coherence_score o = Null) rest)
    by (intro H; apply Hn; right; exact H).
  destruct (o_coherence_score o) as [| |v] eqn:E; simpl.
  - replace (score_or_zero o) with 0
      by (unfold score_or_zero; rewrite E; reflexivity).
    apply IH. exact Hrest.
  - exfalso. apply Hn. left. exact E.
  - replace (score_or_zero o) with v
      by (unfold score_or_zero; rewrite E; reflexivity).
    apply IH. exact Hrest.
Qed.

Lemma unscored_dec (l : list Outcome) :
  Exists (fun o => o_coherence_score o = Null) l \/
  ~ Exists (fun o => o_coherence_score o = Null) l.
Proof.
  induction l as [|o rest [IH|IH]].
  - right. intro H. inversion H.
  - left. right. exact IH.
  - destruct (o_coherence_score o) eqn:E.
    + right. intro H. inversion H; subst; [congruence | contradiction].
    + left. left. exact E.
    + right. intro H. inversion H; subst; [congruence | contradiction].
Qed.

Lemma mean_scores (l : list Outcome) :
  mean (map score_or_zero l) = Qsum (map score_or_zero l) / len l.
Proof. unfold mean, len. rewrite length_map. reflexivity. Qed.

Lemma disqualification_pattern_raises (self : GraveyardManager) :
  analysis_raises self -> disqualification_pattern self = inl TypeError.
Proof.
  intros [H5 Hex]. unfold disqualification_pattern. cbv zeta.
  apply Nat.leb_le in H5. rewrite H5.
  rewrite (sum_scores_raises _ Hex). reflexivity.
Qed.

Lemma disqualification_pattern_returns (self : GraveyardManager) :
  ~ analysis_raises self ->
  disqualification_pattern self
  = inr (if andb (5 <=? length (disqualified_leads self))%nat
                 (Qltb (mean (map score_or_zero (disqualified_leads self)))
                       0.8)
         then [ {| pattern_type := "weak_qualification_criteria";
                   frequency :=
                     Z.of_nat (length (disqualified_leads self));
                   affected_leads :=
                     map o_lead_id (disqualified_leads self);
                   avg_coherence_at_fail :=
                     mean (map score_or_zero (disqualified_leads self));
                   primary_tier := Some "disqualified";
                   recommended_action :=
                     "Review hunting criteria. May be targeting wrong ICP.";
                   priority := "critical" |} ]
         else []).
Proof.
  intro Hn. unfold disqualification_pattern. cbv zeta.
  destruct (5 <=? length (disqualified_leads self))%nat eqn:E5;
    [|reflexivity].
  apply Nat.leb_le in E5.
  rewrite sum_scores_returns
    by (intro H; apply Hn; split; [exact E5 | exact H]).
  cbv beta iota delta [bind]. rewrite mean_scores. unfold Qsum.
  cbn [andb].
  destruct (Qltb (fold_left Qplus
                    (map score_or_zero (disqualified_leads self)) 0
                  / len (disqualified_leads self)) 0.8); reflexivity.
Qed.






(** X30.  [analyze_patterns] raises [TypeError] when five leads or more
    were disqualified and one of them has a coherence score of [None];
    in every other case it returns a list of patterns. *)
Theorem analyze_patterns_failure :
  forall (set_to_list : list string -> list string)
         (self : GraveyardManager),
    (analysis_raises self ->
     analyze_patterns set_to_list self = inl TypeError) /\
    (~ analysis_raises self ->
     exists ps, analyze_patterns set_to_list self = inr ps).
Proof.
  intros stl self. split; intro H; unfold analyze_patterns; cbv zeta.
  - rewrite (disqualification_pattern_raises self H). reflexivity.
  - rewrite (disqualification_pattern_returns self H).
    cbv beta iota delta [bind]. eexists. reflexivity.
Qed.

Lemma analyze_patterns_failure_witness :
  analyze_patterns (nodup string_dec) demo_graveyard_unscored
  = inl TypeError /\
  exists ps, analyze_patterns (nodup string_dec) demo_graveyard = inr ps.
Proof.
  split.
  - apply analyze_patterns_failure. split; [vm_compute; lia|].
    apply Exists_exists.
    exists (outcome_of "d6" "disqualified" None None Null).
    split; [vm_compute; tauto | reflexivity].
  - apply analyze_patterns_failure. intros [_ H].
    apply Exists_exists in H. destruct H as (o & Hin & Hnull).
    cbn in Hin.
    repeat (destruct Hin as [<-|Hin]; [discriminate Hnull|]).
    contradiction.
Defined.

End PatternProps.
